(** * Tomoe_Hiyori guestbook workers: a shallow embedding

    Two Cloudflare Worker scripts serve the guestbook API:

    - [src/cloudflare-worker.js], the in-memory ("ephemeral") worker, whose
      store is the module-level array [comments];
    - [src/unnamed/part_000], the D1 ("persistent") worker, whose store is
      the table [comments] behind the injected handle [env.DB].

    Both export one [fetch(request, env)] handler: a flat sequence of
    [if] tests on [request.method] and [url.pathname].  The embedding keeps
    that shape.  What the platform provides (the clock, [request.json()],
    [parseInt], [Date], the D1 statements) is modelled next to the code
    that calls it, with the conventions stated where they are introduced. *)

From Stdlib Require Import ZArith List Bool String Ascii Sorted Lia.
From Stdlib Require DecimalString.
From Stdlib Require Import Permutation.
Import ListNotations.
Set Warnings "-register-all".
Open Scope string_scope.
Open Scope list_scope.
Open Scope Z_scope.

(** ** JavaScript values, as the handlers see them *)

Module Js.

(** A JavaScript number is modelled by the integer it holds, and [NaN] by
    [None].  The handlers only produce numbers with [parseInt], [Date.now()]
    and integer arithmetic.  [parseInt] rounds to a double ([to_double]);
    the arithmetic of line 209 is exact while the magnitudes stay below
    2^53, and where they do not, the exact and the rounded result are both
    out of the range of [Date], so the handler takes the same branch. *)
Definition number := option Z.

(** The double nearest to an integer, ties to even: every integer of
    magnitude below 2^53 is one.  A magnitude past the greatest double,
    which JavaScript turns into [Infinity], is kept as the integer it
    rounds to: too large for a [Date] and for a 64-bit bound value alike. *)
Definition to_double (n : Z) : Z :=
  let a := Z.abs n in
  if a <? 2 ^ 53 then n
  else
    let e := Z.log2 a - 52 in
    let q := a / 2 ^ e in
    let r := a mod 2 ^ e in
    let half := 2 ^ (e - 1) in
    let q := if (half <? r) || ((r =? half) && Z.odd q) then q + 1 else q in
    Z.sgn n * (q * 2 ^ e).

(** [a * b] and [a - b] on numbers that are integers: the exact result,
    rounded to a double. *)
Definition mul (a b : Z) : Z := to_double (a * b).

Definition sub (a b : Z) : Z := to_double (a - b).

(** The result of [JSON.parse]; numbers are restricted to integers. *)
Inductive json : Type :=
| JNull
| JBool (b : bool)
| JNum (n : Z)
| JStr (s : string)
| JArr (items : list json)
| JObj (fields : list (string * json)).

(** A value read out of a parsed body: [None] is [undefined]. *)
Definition value := option json.

(** Own property of a parsed object.  [JSON.parse] keeps the last of several
    members with one key, so the fields are searched for the last binding. *)
Fixpoint assoc_last (k : string) (fs : list (string * json)) : value :=
  match fs with
  | [] => None
  | (k', v) :: rest =>
      match assoc_last k rest with
      | Some w => Some w
      | None => if String.eqb k k' then Some v else None
      end
  end.

(** [data.k] for the property names the handlers destructure ([email],
    [comment], [color], [id]): none of them exists on the prototypes of
    arrays, strings, numbers or booleans.  Reading a property of [null]
    throws, which [destructurable] tests first. *)
Definition get_prop (data : json) (k : string) : value :=
  match data with
  | JObj fs => assoc_last k fs
  | _ => None
  end.

Definition destructurable (data : json) : bool :=
  match data with
  | JNull => false
  | _ => true
  end.

(** [v === undefined ? d : v], the default of a destructuring pattern. *)
Definition default_to (d : json) (v : value) : json :=
  match v with
  | None => d
  | Some j => j
  end.

(** [!v] *)
Definition falsy (v : value) : bool :=
  match v with
  | None => true
  | Some JNull => true
  | Some (JBool b) => negb b
  | Some (JNum n) => n =? 0
  | Some (JStr s) => String.eqb s EmptyString
  | Some (JArr _) => false
  | Some (JObj _) => false
  end.

(** *** Strings *)

Definition codes (s : string) : list Z :=
  map (fun a => Z.of_nat (nat_of_ascii a)) (list_ascii_of_string s).

(** [s.substring(0, n)] on a string of single-byte characters. *)
Fixpoint take (n : nat) (s : string) : string :=
  match n, s with
  | S m, String c rest => String c (take m rest)
  | _, _ => EmptyString
  end.

(** [h || d] for a text that may be [null]: [null] and the empty string
    are falsy. *)
Definition text_or (h : option string) (d : string) : string :=
  match h with
  | Some s => if String.eqb s EmptyString then d else s
  | None => d
  end.

(** *** [parseInt(string)] with no radix (ECMA-262, 19.2.5)

    Strings are held as UTF-8 bytes; the white space skipped at the front is
    the ECMAScript [WhiteSpace] and [LineTerminator] set in that encoding. *)

Definition ws1 (c : Z) : bool :=
  (c =? 9) || (c =? 10) || (c =? 11) || (c =? 12) || (c =? 13) || (c =? 32).

(** U+00A0 *)
Definition ws2 (c d : Z) : bool := (c =? 194) && (d =? 160).

(** U+FEFF, U+1680, U+2000..U+200A, U+2028, U+2029, U+202F, U+205F, U+3000 *)
Definition ws3 (c d e : Z) : bool :=
  ((c =? 239) && (d =? 187) && (e =? 191))
  || ((c =? 225) && (d =? 154) && (e =? 128))
  || ((c =? 226) && (d =? 128)
      && (((128 <=? e) && (e <=? 138)) || (e =? 168) || (e =? 169) || (e =? 175)))
  || ((c =? 226) && (d =? 129) && (e =? 159))
  || ((c =? 227) && (d =? 128) && (e =? 128)).

Fixpoint skip_ws (l : list Z) : list Z :=
  match l with
  | [] => []
  | c :: r =>
      if ws1 c then skip_ws r
      else
        match r with
        | [] => l
        | d :: r2 =>
            if ws2 c d then skip_ws r2
            else
              match r2 with
              | [] => l
              | e :: r3 => if ws3 c d e then skip_ws r3 else l
              end
        end
  end.

Definition digit_val (radix c : Z) : option Z :=
  if (48 <=? c) && (c <=? 57) then Some (c - 48)
  else if (radix =? 16) && (97 <=? c) && (c <=? 102) then Some (c - 87)
  else if (radix =? 16) && (65 <=? c) && (c <=? 70) then Some (c - 55)
  else None.

(** The longest prefix of radix digits, read as a number; [acc] is [None]
    until a digit has been seen. *)
Fixpoint read_digits (radix : Z) (l : list Z) (acc : option Z) : option Z :=
  match l with
  | [] => acc
  | c :: r =>
      match digit_val radix c with
      | None => acc
      | Some v =>
          read_digits radix r
            (Some (match acc with Some a => a * radix + v | None => v end))
      end
  end.

Definition parseInt (s : string) : number :=
  let l := skip_ws (codes s) in
  let '(neg, l1) :=
    match l with
    | c :: r => if c =? 45 then (true, r) else if c =? 43 then (false, r) else (false, l)
    | [] => (false, l)
    end in
  let '(radix, l2) :=
    match l1 with
    | c :: x :: r =>
        if (c =? 48) && ((x =? 120) || (x =? 88)) then (16, r) else (10, l1)
    | _ => (10, l1)
    end in
  match read_digits radix l2 None with
  | None => None
  | Some n => Some (to_double (if neg : bool then - n else n))
  end.

(** [parseInt(url.searchParams.get(k))]: an absent parameter is [null],
    which [parseInt] reads as the string "null". *)
Definition parseInt_param (p : option string) : number :=
  match p with
  | Some s => parseInt s
  | None => parseInt "null"
  end.

(** [x || d] on numbers: [NaN] and zero are falsy. *)
Definition or_default (x : number) (d : Z) : Z :=
  match x with
  | Some n => if n =? 0 then d else n
  | None => d
  end.

(** *** [Date] *)

(** [TimeClip]: a time value beyond 8.64e15 ms makes an invalid [Date]. *)
Definition max_time : Z := 8640000000000000.

Definition time_clip (t : Z) : option Z :=
  if Z.abs t >? max_time then None else Some t.

(** Zero-padded decimal of [width] digits. *)
Fixpoint pad (width : nat) (n : Z) : string :=
  match width with
  | O => EmptyString
  | S w =>
      (pad w (n / 10)
       ++ String (ascii_of_nat (Z.to_nat (48 + n mod 10))) EmptyString)%string
  end.

(** Proleptic Gregorian date of a day number counted from 1970-01-01. *)
Definition civil_from_days (days : Z) : Z * Z * Z :=
  let z := days + 719468 in
  let era := z / 146097 in
  let doe := z - era * 146097 in
  let yoe := (doe - doe / 1460 + doe / 36524 - doe / 146096) / 365 in
  let doy := doe - (365 * yoe + yoe / 4 - yoe / 100) in
  let mp := (5 * doy + 2) / 153 in
  let d := doy - (153 * mp + 2) / 5 + 1 in
  let m := if mp <? 10 then mp + 3 else mp - 9 in
  let y := yoe + era * 400 + (if m <=? 2 then 1 else 0) in
  (y, m, d).

Definition iso_year (y : Z) : string :=
  if (0 <=? y) && (y <=? 9999) then pad 4 y
  else if y <? 0 then ("-" ++ pad 6 (- y))%string
  else ("+" ++ pad 6 y)%string.

(** [new Date(t).toISOString()]; [None] is the [RangeError] of an invalid
    date. *)
Definition toISOString (t : Z) : option string :=
  match time_clip t with
  | None => None
  | Some t =>
      let '(y, m, d) := civil_from_days (t / 86400000) in
      let ms := t mod 86400000 in
      Some (iso_year y ++ "-" ++ pad 2 m ++ "-" ++ pad 2 d ++ "T"
            ++ pad 2 (ms / 3600000) ++ ":" ++ pad 2 (ms / 60000 mod 60) ++ ":"
            ++ pad 2 (ms / 1000 mod 60) ++ "." ++ pad 3 (ms mod 1000)
            ++ "Z")%string
  end.

End Js.

Import Js.

(** ** The request and the clock *)

(** What [fetch] reads of a request: the method, [new URL(request.url)]
    ([pathname] and [searchParams]), two headers, and the outcome of
    [request.json()], which is either the message of the [SyntaxError] it
    rejects with or the parsed value. *)
Record request : Type := {
  method : string;
  pathname : string;
  searchParams : list (string * string);
  header_cf_connecting_ip : option string;
  header_user_agent : option string;
  json : string + Js.json
}.

(** [url.searchParams.get(k)]: the first value, or [null]. *)
Fixpoint searchParams_get (k : string) (ps : list (string * string)) : option string :=
  match ps with
  | [] => None
  | (k', v) :: rest => if String.eqb k k' then Some v else searchParams_get k rest
  end.

(** The two clock reads a request may make: [Date.now()] and [new Date()],
    both in milliseconds since the epoch. *)
Record clock : Type := {
  date_now : Z;
  new_date : Z
}.

(** A response, or the exception that escaped [fetch]. *)
Inductive outcome (body : Type) : Type :=
| Responded (status : Z) (headers : list (string * string)) (b : body)
| Uncaught (message : string).

Arguments Responded {body} status headers b.
Arguments Uncaught {body} message.

Definition status_of {body : Type} (o : outcome body) : option Z :=
  match o with
  | Responded st _ _ => Some st
  | Uncaught _ => None
  end.

Definition body_of {body : Type} (o : outcome body) : option body :=
  match o with
  | Responded _ _ b => Some b
  | Uncaught _ => None
  end.

Definition content_type_json : string * string := ("Content-Type", "application/json").

Definition invalid_time_value : string := "Invalid time value".

Definition destructure_null : string := "Cannot destructure property 'email' of 'data' as it is null.".

(** ** The in-memory worker, [src/cloudflare-worker.js] *)

Module Ephemeral.

Record Comment : Type := {
  id : Z;
  email : value;
  comment : value;
  color : Js.json;
  timestamp : string
}.

(** The object handed to [JSON.stringify]; [NoBody] is [new Response(null)]. *)
Inductive body : Type :=
| NoBody
| Health (timestamp : string) (commentsCount : nat)
| CommentList (comments : list Comment)
| Posted (id : Z) (message : string)
| Error (error : string).

Definition corsHeaders : list (string * string) :=
  [ ("Access-Control-Allow-Origin", "*");
    ("Access-Control-Allow-Methods", "GET, POST, OPTIONS");
    ("Access-Control-Allow-Headers", "Content-Type") ].

Definition json_response (status : Z) (b : body) : outcome body :=
  Responded status (content_type_json :: corsHeaders) b.

(** The body of the [try] block up to [newComment]; [inl] is the exception
    that sends control to [catch]. *)
Definition newComment (request : request) (clk : clock) : string + Comment :=
  match json request with
  | inl e => inl e
  | inr data =>
      if destructurable data then
        let email := get_prop data "email" in
        let comment := get_prop data "comment" in
        let color := default_to (JStr "black") (get_prop data "color") in
        match toISOString (new_date clk) with
        | None => inl invalid_time_value
        | Some ts =>
            inr {| id := date_now clk;
                   email := email;
                   comment := comment;
                   color := color;
                   timestamp := ts |}
        end
      else inl destructure_null
  end.

(** Lines 51-55: [comments.unshift(newComment)] and the cut to 100. *)
Definition unshift_capped (c : Comment) (comments : list Comment) : list Comment :=
  let comments := c :: comments in
  if (100 <? List.length comments)%nat then firstn 100 comments else comments.

Definition fetch (request : request) (clk : clock) (comments : list Comment)
  : outcome body * list Comment :=
  if String.eqb (method request) "OPTIONS" then
    (Responded 200 corsHeaders NoBody, comments)
  else if String.eqb (pathname request) "/health" then
    match toISOString (new_date clk) with
    | Some ts => (json_response 200 (Health ts (List.length comments)), comments)
    | None => (Uncaught invalid_time_value, comments)
    end
  else if String.eqb (pathname request) "/api/comments"
          && String.eqb (method request) "GET" then
    (json_response 200 (CommentList comments), comments)
  else if String.eqb (pathname request) "/api/comments"
          && String.eqb (method request) "POST" then
    match newComment request clk with
    | inr c =>
        (json_response 200 (Posted (id c) "留言提交成功！"), unshift_capped c comments)
    | inl _ => (json_response 400 (Error "请求格式错误"), comments)
    end
  else
    (json_response 404 (Error "未找到 API 端点"), comments).

(** The worker over a sequence of requests, each with its clock reads. *)
Fixpoint run (inputs : list (request * clock)) (comments : list Comment)
  : list Comment :=
  match inputs with
  | [] => comments
  | (request, clk) :: rest => run rest (snd (fetch request clk comments))
  end.

(** The module-level [let comments = []]. *)
Definition initial : list Comment := [].

End Ephemeral.

(** ** The D1 worker, [src/unnamed/part_000] *)

Module Persistent.

(** A value held in a column, or returned in a result row.  [VInt n] is a
    number of integer value [n]: the INTEGER key, or a JavaScript number,
    which D1 binds as a REAL. *)
Inductive sqlval : Type :=
| VNull
| VInt (n : Z)
| VText (s : string)
| VBlob (bytes : list Z).

(** A row of the table [comments] (lines 8-16 of the source).  [id] is the
    INTEGER PRIMARY KEY.  The worker never writes [created_at], [ip_hash] or
    [user_agent] other than as text, so these columns are held as strings;
    [email], [comment] and [color] hold what the client sent. *)
Record row : Type := {
  id : Z;
  email : sqlval;
  comment : sqlval;
  color : sqlval;
  created_at : string;
  ip_hash : string;
  user_agent : string
}.

(** The columns the POST handler reads back: [id, email, comment, color,
    created_at as timestamp]. *)
Record comment_view : Type := {
  view_id : Z;
  view_email : sqlval;
  view_comment : sqlval;
  view_color : sqlval;
  view_timestamp : string
}.

Definition view_of (r : row) : comment_view :=
  {| view_id := id r;
     view_email := email r;
     view_comment := comment r;
     view_color := color r;
     view_timestamp := created_at r |}.

(** The statements the worker sends through [env.DB], indexed by what the
    worker reads of the result: [exec] gives nothing back, [first()] a row
    or [null], [all()] the [results], [run()] the [meta] field used. *)
Inductive stmt : Type -> Type :=
| SchemaInit : stmt unit
| CountComments : stmt (option Z)
| SelectPage (limit offset : Z) : stmt (list row)
| InsertComment (email comment : value) (color : Js.json)
    (ipHash userAgent : string) : stmt Z
| SelectById (last_row_id : Z) : stmt (option comment_view)
| DeleteById (id : Js.json) : stmt Z
| DeleteOlder (cutoff : string) : stmt Z
| ListTables : stmt (list string)
| LatestCreated : stmt (option string).

Inductive level : Type := LogLevel | ErrorLevel.

(** A handler: a tree of calls on [env.DB] and [console], each call on the
    database continuing with the rejection message or the result. *)
Inductive prog (A : Type) : Type :=
| Ret (a : A)
| Db {R : Type} (s : stmt R) (k : string + R -> prog A)
| Console (l : level) (text : string) (error : option string) (k : prog A).

Arguments Ret {A} a.
Arguments Db {A R} s k.
Arguments Console {A} l text error k.

Fixpoint pbind {A B : Type} (p : prog A) (f : A -> prog B) : prog B :=
  match p with
  | Ret a => f a
  | Db s k => Db s (fun r => pbind (k r) f)
  | Console l t e k => Console l t e (pbind k f)
  end.

(** Code inside a [try] block: [inl] carries [error.message] to [catch]. *)
Definition attempt (A : Type) : Type := prog (string + A).

Definition ret {A : Type} (a : A) : attempt A := Ret (inr a).

Definition throw {A : Type} (message : string) : attempt A := Ret (inl message).

Definition bind {A B : Type} (m : attempt A) (f : A -> attempt B) : attempt B :=
  pbind m (fun r => match r with inl e => Ret (inl e) | inr a => f a end).

Definition await {R : Type} (s : stmt R) : attempt R := Db s Ret.

Definition catch {A : Type} (body : attempt A) (handler : string -> A) : prog A :=
  pbind body (fun r => match r with inl e => Ret (handler e) | inr a => Ret a end).

Notation "x <- m ;; f" := (bind m (fun x => f))
  (at level 61, m at next level, right associativity).

(** What the platform injects: the digest behind [crypto.subtle.digest]
    rendered as lowercase hex, and [env.DB.database_name]. *)
Record env : Type := {
  sha256_hex : string -> string;
  database_name : option string
}.

Inductive body : Type :=
| NoBody
| Health (timestamp : string) (commentsCount : Z) (storage database : string)
| HealthError (error : string)
| CommentList (results : list row)
| ListFailed (error details : string)
| Posted (id : Z) (message : string) (comment : comment_view)
| PostFailed (error details : string)
| Deleted (success : bool) (deleted : Z)
| Cleaned (deleted maxAge : Z)
| DbInfo (tables : list string) (commentCount : Z)
    (lastCommentTime : option string) (databaseName : option string)
    (timestamp : string)
| Error (error : string).

Definition corsHeaders : list (string * string) :=
  [ ("Access-Control-Allow-Origin", "*");
    ("Access-Control-Allow-Methods", "GET, POST, OPTIONS, DELETE");
    ("Access-Control-Allow-Headers", "Content-Type") ].

Definition json_response (status : Z) (b : body) : outcome body :=
  Responded status (content_type_json :: corsHeaders) b.

(** Lines 4-25.  The [catch] logs and returns: the caller never sees the
    failure. *)
Definition ensureDatabaseInitialized : attempt unit :=
  Db SchemaInit (fun r =>
    match r with
    | inr _ => Console LogLevel "✅ 数据库表已初始化" None (ret tt)
    | inl e => Console ErrorLevel "❌ 数据库初始化失败:" (Some e) (ret tt)
    end).

Definition now_iso (clk : clock) : attempt string :=
  match toISOString (new_date clk) with
  | Some ts => ret ts
  | None => throw invalid_time_value
  end.

Definition read_null : string := "Cannot read properties of null".

(** Lines 43-73. *)
Definition health (e : env) (clk : clock) : prog (outcome body) :=
  catch
    (_ <- ensureDatabaseInitialized ;;
     countResult <- await CountComments ;;
     let commentCount := match countResult with Some c => c | None => 0 end in
     ts <- now_iso clk ;;
     ret (json_response 200
            (Health ts commentCount "D1 Database"
               (text_or (database_name e) "tomoe_hiyori_db"))))
    (fun message => json_response 500 (HealthError message)).

(** Lines 81-82. *)
Definition limit_of (request : request) : Z :=
  or_default (parseInt_param (searchParams_get "limit" (searchParams request))) 100.

Definition offset_of (request : request) : Z :=
  or_default (parseInt_param (searchParams_get "offset" (searchParams request))) 0.

(** Lines 76-105. *)
Definition get_comments (request : request) : prog (outcome body) :=
  catch
    (_ <- ensureDatabaseInitialized ;;
     let limit := limit_of request in
     let offset := offset_of request in
     results <- await (SelectPage limit offset) ;;
     ret (json_response 200 (CommentList results)))
    (fun message => json_response 500 (ListFailed "获取留言失败" message)).

(** [await request.json()] followed by a destructuring pattern. *)
Definition request_json (request : request) : attempt Js.json :=
  match json request with
  | inl e => throw e
  | inr data => if destructurable data then ret data else throw destructure_null
  end.

(** Lines 108-169. *)
Definition post_comment (e : env) (request : request) : prog (outcome body) :=
  catch
    (_ <- ensureDatabaseInitialized ;;
     data <- request_json request ;;
     let email := get_prop data "email" in
     let comment := get_prop data "comment" in
     let color := default_to (JStr "black") (get_prop data "color") in
     let ip := text_or (header_cf_connecting_ip request) "unknown" in
     let userAgent := text_or (header_user_agent request) "unknown" in
     let ipHash := take 16 (sha256_hex e ip) in
     last_row_id <- await (InsertComment email comment color ipHash (take 255 userAgent)) ;;
     newComment <- await (SelectById last_row_id) ;;
     match newComment with
     | None => throw read_null
     | Some c => ret (json_response 200 (Posted (view_id c) "留言提交成功！" c))
     end)
    (fun message => json_response 500 (PostFailed "提交失败" message)).

(** Lines 172-203. *)
Definition delete_comment (request : request) : prog (outcome body) :=
  catch
    (data <- request_json request ;;
     let id := get_prop data "id" in
     match id with
     | Some j =>
         if falsy id then ret (json_response 400 (Error "需要留言ID"))
         else
           rows_written <- await (DeleteById j) ;;
           ret (json_response 200 (Deleted (0 <? rows_written) rows_written))
     | None => ret (json_response 400 (Error "需要留言ID"))
     end)
    (fun _ => json_response 500 (Error "删除失败")).

(** Line 208. *)
Definition maxAge_of (request : request) : Z :=
  or_default (parseInt_param (searchParams_get "days" (searchParams request))) 30.

(** Line 209: the time value of [cutoffDate]. *)
Definition cutoff_ms (request : request) (clk : clock) : Z :=
  Js.sub (date_now clk)
    (Js.mul (Js.mul (Js.mul (Js.mul (maxAge_of request) 24) 60) 60) 1000).

(** Lines 206-230. *)
Definition cleanup (request : request) (clk : clock) : prog (outcome body) :=
  catch
    (let maxAge := maxAge_of request in
     match toISOString (cutoff_ms request clk) with
     | None => throw invalid_time_value
     | Some cutoff =>
         rows_written <- await (DeleteOlder cutoff) ;;
         ret (json_response 200 (Cleaned rows_written maxAge))
     end)
    (fun _ => json_response 500 (Error "清理失败")).

(** Lines 233-262. *)
Definition db_info (e : env) (clk : clock) : prog (outcome body) :=
  catch
    (tables <- await ListTables ;;
     commentCount <- await CountComments ;;
     recentComments <- await LatestCreated ;;
     match commentCount with
     | None => throw read_null
     | Some count =>
         ts <- now_iso clk ;;
         ret (json_response 200
                (DbInfo tables count recentComments (database_name e) ts))
     end)
    (fun message => json_response 500 (Error message)).

(** Lines 28-268. *)
Definition fetch (e : env) (request : request) (clk : clock) : prog (outcome body) :=
  if String.eqb (method request) "OPTIONS" then
    Ret (Responded 200 corsHeaders NoBody)
  else if String.eqb (pathname request) "/health" then
    health e clk
  else if String.eqb (pathname request) "/api/comments"
          && String.eqb (method request) "GET" then
    get_comments request
  else if String.eqb (pathname request) "/api/comments"
          && String.eqb (method request) "POST" then
    post_comment e request
  else if String.eqb (pathname request) "/api/comments"
          && String.eqb (method request) "DELETE" then
    delete_comment request
  else if String.eqb (pathname request) "/api/comments/cleanup"
          && String.eqb (method request) "POST" then
    cleanup request clk
  else if String.eqb (pathname request) "/admin/db-info" then
    db_info e clk
  else
    Ret (json_response 404 (Error "未找到 API 端点")).

(** *** Running a handler against a database binding *)

(** A binding answers each statement with a rejection message or a result,
    and a new database state. *)
Definition binding (DBS : Type) : Type :=
  forall R : Type, stmt R -> DBS -> (string + R) * DBS.

Inductive issued : Type :=
| Issued {R : Type} (s : stmt R).

Record world (DBS : Type) : Type := {
  db : DBS;
  console : list (level * string * option string);
  trace : list issued
}.

Arguments db {DBS} w.
Arguments console {DBS} w.
Arguments trace {DBS} w.

Definition boot {DBS : Type} (d : DBS) : world DBS :=
  {| db := d; console := []; trace := [] |}.

Fixpoint interp {DBS A : Type} (h : binding DBS) (p : prog A) (w : world DBS)
  : A * world DBS :=
  match p with
  | Ret a => (a, w)
  | Db s k =>
      let '(r, d) := h _ s (db w) in
      interp h (k r)
        {| db := d; console := console w; trace := trace w ++ [Issued s] |}
  | Console l t e k =>
      interp h k
        {| db := db w; console := console w ++ [(l, t, e)]; trace := trace w |}
  end.

(** One request served from database state [d]. *)
Definition serve {DBS : Type} (h : binding DBS) (e : env) (request : request)
  (clk : clock) (d : DBS) : outcome body * world DBS :=
  interp h (fetch e request clk) (boot d).

End Persistent.

(** ** The database behind [env.DB]

    D1 is SQLite behind a Workers binding.  The model gives the statements
    of the worker their SQLite meaning on one table.  Four points on which
    the worker's source is silent are left as parameters of the engine:
    whether [exec] takes the multi-line schema script (D1 splits the text
    of [exec] into lines), what integer a text reads as when it is compared
    with the INTEGER key, how [meta.rows_written] counts the rows a
    statement changed (index entries are counted by D1), and the text a
    TEXT column holds for a bound number (D1 binds a JavaScript number as
    a REAL, so that 5 is stored as the text 5.0). *)

Module D1.

Import Persistent.

Record engine : Type := {
  exec_takes_script : bool;
  text_as_integer : string -> option Z;
  rows_written : nat -> Z;
  number_text : Z -> string
}.

(** The table and its AUTOINCREMENT counter ([sqlite_sequence]). *)
Record table : Type := {
  rows : list row;
  seq : Z
}.

(** [comments] is [None] until the table is created. *)
Record database : Type := {
  comments : option table;
  other_tables : list string
}.

Definition no_such_table : string := "D1_ERROR: no such table: comments: SQLITE_ERROR".
Definition type_error : string := "D1_TYPE_ERROR: Type not supported for value".
Definition exec_error : string := "D1_EXEC_ERROR: Error in line 1: incomplete input".
Definition not_null_email : string := "D1_ERROR: NOT NULL constraint failed: comments.email".
Definition not_null_comment : string := "D1_ERROR: NOT NULL constraint failed: comments.comment".
Definition datatype_mismatch : string := "D1_ERROR: datatype mismatch: SQLITE_MISMATCH".

(** Members of an array that D1 takes as the bytes of a BLOB. *)
Fixpoint bytes_of (items : list Js.json) : option (list Z) :=
  match items with
  | [] => Some []
  | JNum n :: rest =>
      if (0 <=? n) && (n <? 256) then
        match bytes_of rest with
        | Some bs => Some (n :: bs)
        | None => None
        end
      else None
  | _ :: _ => None
  end.

(** What [bind] makes of a JavaScript value; [None] is the type error it
    throws, as for [undefined].  A number or a boolean is bound as a REAL
    of that value; the text it leaves in a TEXT column is [number_text]. *)
Definition to_sql (v : value) : option sqlval :=
  match v with
  | None => None
  | Some JNull => Some VNull
  | Some (JBool b) => Some (VInt (if b then 1 else 0))
  | Some (JNum n) => Some (VInt n)
  | Some (JStr s) => Some (VText s)
  | Some (JArr items) =>
      match bytes_of items with
      | Some bs => Some (VBlob bs)
      | None => None
      end
  | Some (JObj _) => None
  end.

Definition decimal (n : Z) : string :=
  DecimalString.NilZero.string_of_int (Z.to_int n).

(** Storing into a TEXT column: a bound number becomes its text. *)
Definition text_affinity (g : engine) (v : sqlval) : sqlval :=
  match v with
  | VInt n => VText (number_text g n)
  | _ => v
  end.

Definition is_null (v : sqlval) : bool :=
  match v with
  | VNull => true
  | _ => false
  end.

(** CURRENT_TIMESTAMP at [now_s] seconds since the epoch:
    [YYYY-MM-DD HH:MM:SS], in UTC. *)
Definition current_timestamp (now_s : Z) : string :=
  let '(y, m, d) := civil_from_days (now_s / 86400) in
  let s := now_s mod 86400 in
  (pad 4 y ++ "-" ++ pad 2 m ++ "-" ++ pad 2 d ++ " "
   ++ pad 2 (s / 3600) ++ ":" ++ pad 2 (s / 60 mod 60) ++ ":" ++ pad 2 (s mod 60))%string.

(** ORDER BY created_at DESC: text under the BINARY collation. *)
Fixpoint insert_desc (r : row) (l : list row) : list row :=
  match l with
  | [] => [r]
  | x :: rest =>
      if String.leb (created_at x) (created_at r) then r :: l
      else x :: insert_desc r rest
  end.

Definition order_by_created_at_desc (l : list row) : list row :=
  fold_right insert_desc [] l.

(** A bound number serves as LIMIT or OFFSET when it fits a 64-bit
    integer; the statement is refused otherwise. *)
Definition fits_int64 (n : Z) : bool := (- 2 ^ 63 <=? n) && (n <? 2 ^ 63).

(** LIMIT and OFFSET: a negative LIMIT is no limit, a negative OFFSET is 0. *)
Definition page (limit offset : Z) (l : list row) : list row :=
  let l := skipn (Z.to_nat offset) l in
  if limit <? 0 then l else firstn (Z.to_nat limit) l.

Definition max_id (l : list row) : Z :=
  fold_right (fun r m => Z.max (id r) m) 0 l.

(** [WHERE id = ?] *)
Definition id_is (g : engine) (v : sqlval) (r : row) : bool :=
  match v with
  | VInt n => id r =? n
  | VText s =>
      match text_as_integer g s with
      | Some n => id r =? n
      | None => false
      end
  | _ => false
  end.

(** [WHERE created_at < ?] with a text parameter. *)
Definition older_than (cutoff : string) (r : row) : bool :=
  String.ltb (created_at r) cutoff.

Definition on_table {R : Type} (d : database)
  (f : table -> (string + R) * table) : (string + R) * database :=
  match comments d with
  | None => (inl no_such_table, d)
  | Some t =>
      let '(r, t') := f t in
      (r, {| comments := Some t'; other_tables := other_tables d |})
  end.

Definition insert_row (g : engine) (now_s : Z) (e c col : sqlval)
  (ipHash userAgent : string)
  (t : table) : (string + Z) * table :=
  if is_null e then (inl not_null_email, t)
  else if is_null c then (inl not_null_comment, t)
  else
    let new_id := Z.max (seq t) (max_id (rows t)) + 1 in
    (inr new_id,
     {| rows := rows t ++
          [ {| id := new_id;
               email := text_affinity g e;
               comment := text_affinity g c;
               color := text_affinity g col;
               created_at := current_timestamp now_s;
               ip_hash := ipHash;
               user_agent := userAgent |} ];
        seq := new_id |}).

Definition delete_where (g : engine) (p : row -> bool) (t : table)
  : (string + Z) * table :=
  (inr (rows_written g (List.length (filter p (rows t)))),
   {| rows := filter (fun r => negb (p r)) (rows t); seq := seq t |}).

(** The binding, with the database clock at [now_s]. *)
Definition d1 (g : engine) (now_s : Z) : binding database :=
  fun R s =>
    match s in stmt R return database -> (string + R) * database with
    | SchemaInit => fun d =>
        if exec_takes_script g then
          (inr tt,
           match comments d with
           | Some _ => d
           | None => {| comments := Some {| rows := []; seq := 0 |};
                        other_tables := other_tables d |}
           end)
        else (inl exec_error, d)
    | CountComments => fun d =>
        on_table d (fun t => (inr (Some (Z.of_nat (List.length (rows t)))), t))
    | SelectPage limit offset => fun d =>
        if fits_int64 limit && fits_int64 offset then
          on_table d (fun t =>
            (inr (page limit offset (order_by_created_at_desc (rows t))), t))
        else (inl datatype_mismatch, d)
    | InsertComment email comment color ipHash userAgent => fun d =>
        match to_sql email, to_sql comment, to_sql (Some color) with
        | Some e, Some c, Some col =>
            on_table d (insert_row g now_s e c col ipHash userAgent)
        | _, _, _ => (inl type_error, d)
        end
    | SelectById i => fun d =>
        on_table d (fun t =>
          (inr (option_map view_of (find (fun r => id r =? i) (rows t))), t))
    | DeleteById j => fun d =>
        match to_sql (Some j) with
        | Some v => on_table d (delete_where g (id_is g v))
        | None => (inl type_error, d)
        end
    | DeleteOlder cutoff => fun d =>
        on_table d (delete_where g (older_than cutoff))
    | ListTables => fun d =>
        (inr (match comments d with
              | Some _ => ["comments"; "sqlite_sequence"]
              | None => []
              end ++ other_tables d), d)
    | LatestCreated => fun d =>
        on_table d (fun t =>
          (inr (option_map created_at (hd_error (order_by_created_at_desc (rows t)))), t))
    end.

Definition rows_of (d : database) : list row :=
  match comments d with
  | Some t => rows t
  | None => []
  end.

End D1.

(** ** Vocabulary of the properties *)

(** The record a request adds to the in-memory list, if it adds one: the
    request reaches the POST handler and its [try] block does not throw. *)
Definition inserted (i : request * clock) : option Ephemeral.Comment :=
  if String.eqb (pathname (fst i)) "/api/comments"
     && String.eqb (method (fst i)) "POST"
  then
    match Ephemeral.newComment (fst i) (snd i) with
    | inr c => Some c
    | inl _ => None
    end
  else None.

(** The records added over a sequence of requests, oldest first, each with
    the clock reads of its request. *)
Fixpoint inserts (inputs : list (request * clock))
  : list (clock * Ephemeral.Comment) :=
  match inputs with
  | [] => []
  | i :: rest =>
      match inserted i with
      | Some c => (snd i, c) :: inserts rest
      | None => inserts rest
      end
  end.

(** A list of in-memory records is newest first when the timestamps are the
    renderings of instants that never increase along the list. *)
Definition newest_first (cs : list Ephemeral.Comment) : Prop :=
  exists ts : list Z,
    Forall2 (fun c t => toISOString t = Some (Ephemeral.timestamp c)) cs ts
    /\ StronglySorted (fun newer older => older <= newer) ts.

(** Rows in the order of ORDER BY created_at DESC. *)
Definition created_desc (a b : Persistent.row) : Prop :=
  String.leb (Persistent.created_at b) (Persistent.created_at a) = true.

(** The request tests of [fetch], in source order. *)
Definition is_options (r : request) : bool := String.eqb (method r) "OPTIONS".

Definition at_route (m p : string) (r : request) : bool :=
  String.eqb (pathname r) p && String.eqb (method r) m.

Definition at_path (p : string) (r : request) : bool := String.eqb (pathname r) p.

(** A submission body in the shape the handlers destructure: an object
    with text [email] and [comment], and [color] text or absent. *)
Definition valid_submission (data : Js.json) (e c : string) (col : option string) : Prop :=
  get_prop data "email" = Some (JStr e)
  /\ get_prop data "comment" = Some (JStr c)
  /\ get_prop data "color" = option_map JStr col.

(** The text stored for [color]: the submitted one, or the default. *)
Definition stored_color (col : option string) : string :=
  match col with
  | Some s => s
  | None => "black"
  end.

(** ** Sample requests, clocks and databases *)

Definition request_to (m p : string) (query : list (string * string))
  (body : string + Js.json) : request :=
  {| method := m;
     pathname := p;
     searchParams := query;
     header_cf_connecting_ip := Some "203.0.113.7";
     header_user_agent := Some "curl/8.5.0";
     json := body |}.

Definition no_body : string + Js.json := inl "Unexpected end of JSON input".

Definition hello : Js.json :=
  JObj [("email", JStr "a@b.com"); ("comment", JStr "hi"); ("color", JStr "red")].

Definition submission (data : Js.json) : request :=
  request_to "POST" "/api/comments" [] (inr data).

(** 2023-11-14T22:13:20Z, and [k] milliseconds later. *)
Definition at_ms (k : Z) : clock :=
  {| date_now := 1700000000000 + k; new_date := 1700000000000 + k |}.

(** 2026-11-03T05:02:00Z *)
Definition morning : clock :=
  {| date_now := 1793682120000; new_date := 1793682120000 |}.

Definition sample_env : Persistent.env :=
  {| Persistent.sha256_hex := fun _ =>
       "fec52565aa0cf18f57d7cf5b3ac728503b8992d2d6f7d46da1d1201090902b02";
     Persistent.database_name := None |}.

(** An engine whose [exec] takes the whole schema script, as a local SQLite
    does; the D1 binding splits the text into lines and refuses it, which
    is [line_split_engine] below. *)
Definition sample_engine : D1.engine :=
  {| D1.exec_takes_script := true;
     D1.text_as_integer := fun _ => None;
     D1.rows_written := Z.of_nat;
     D1.number_text := fun n => (D1.decimal n ++ ".0")%string |}.

(** An engine whose [exec] refuses the multi-line script. *)
Definition line_split_engine : D1.engine :=
  {| D1.exec_takes_script := false;
     D1.text_as_integer := fun _ => None;
     D1.rows_written := Z.of_nat;
     D1.number_text := fun n => (D1.decimal n ++ ".0")%string |}.

(** A database in which the table has not been created. *)
Definition fresh_database : D1.database :=
  {| D1.comments := None; D1.other_tables := [] |}.

Definition yesterday_row : Persistent.row :=
  {| Persistent.id := 1;
     Persistent.email := Persistent.VText "a@b.com";
     Persistent.comment := Persistent.VText "hi";
     Persistent.color := Persistent.VText "black";
     Persistent.created_at := "2026-11-02 05:00:00";
     Persistent.ip_hash := "fec52565aa0cf18f";
     Persistent.user_agent := "curl/8.5.0" |}.

Definition one_row_database : D1.database :=
  {| D1.comments := Some {| D1.rows := [yesterday_row]; D1.seq := 1 |};
     D1.other_tables := [] |}.

(** 101 submissions, one millisecond apart. *)
Definition submissions_101 : list (request * clock) :=
  map (fun k => (submission hello, at_ms (Z.of_nat k))) (seq 0 101).

Definition records_101 : list Ephemeral.Comment :=
  map snd (inserts submissions_101).

(** The first of the 101 records. *)
Definition oldest_of_101 : Ephemeral.Comment :=
  {| Ephemeral.id := 1700000000000;
     Ephemeral.email := Some (JStr "a@b.com");
     Ephemeral.comment := Some (JStr "hi");
     Ephemeral.color := JStr "red";
     Ephemeral.timestamp := "2023-11-14T22:13:20.000Z" |}.

(** Two submissions within one millisecond. *)
Definition same_millisecond : list (request * clock) :=
  [(submission hello, at_ms 0); (submission hello, at_ms 0)].

(** Three submissions, the first two within one millisecond. *)
Definition three_submissions : list (request * clock) :=
  [(submission hello, at_ms 0); (submission hello, at_ms 0); (submission hello, at_ms 5)].

Definition today_row : Persistent.row :=
  {| Persistent.id := 2;
     Persistent.email := Persistent.VText "c@d.org";
     Persistent.comment := Persistent.VText "hello";
     Persistent.color := Persistent.VText "red";
     Persistent.created_at := "2026-11-03 04:00:00";
     Persistent.ip_hash := "fec52565aa0cf18f";
     Persistent.user_agent := "curl/8.5.0" |}.

Definition two_row_database : D1.database :=
  {| D1.comments := Some {| D1.rows := [yesterday_row; today_row]; D1.seq := 2 |};
     D1.other_tables := [] |}.

(** ** Vocabulary of the further properties *)

(** Every statement a handler can send satisfies [P], whatever the
    database answers. *)
Fixpoint sends {A : Type} (P : forall R : Type, Persistent.stmt R -> Prop)
  (p : Persistent.prog A) : Prop :=
  match p with
  | Persistent.Ret _ => True
  | Persistent.Db s k => P _ s /\ forall r, sends P (k r)
  | Persistent.Console _ _ _ k => sends P k
  end.

(** Every value a handler can return satisfies [Q], whatever the database
    answers. *)
Fixpoint yields {A : Type} (Q : A -> Prop) (p : Persistent.prog A) : Prop :=
  match p with
  | Persistent.Ret a => Q a
  | Persistent.Db _ k => forall r, yields Q (k r)
  | Persistent.Console _ _ _ k => yields Q k
  end.

(** The statements that write no row: the schema script and the SELECTs. *)
Definition reads (R : Type) (s : Persistent.stmt R) : Prop :=
  match s with
  | Persistent.InsertComment _ _ _ _ _ => False
  | Persistent.DeleteById _ => False
  | Persistent.DeleteOlder _ => False
  | _ => True
  end.

(** The three routes whose handlers send an INSERT or a DELETE. *)
Definition writer (r : request) : bool :=
  at_route "POST" "/api/comments" r
  || at_route "DELETE" "/api/comments" r
  || at_route "POST" "/api/comments/cleanup" r.

(** A response with a status among [statuses], carrying the CORS headers
    alone or behind the JSON content type. *)
Definition responds {body : Type} (cors : list (string * string))
  (statuses : list Z) (o : outcome body) : Prop :=
  match o with
  | Responded st hs _ =>
      In st statuses /\ (hs = cors \/ hs = content_type_json :: cors)
  | Uncaught _ => False
  end.

(** The keys of the table are distinct and none exceeds the AUTOINCREMENT
    counter. *)
Definition keys_ok (d : D1.database) : Prop :=
  match D1.comments d with
  | Some t =>
      NoDup (map Persistent.id (D1.rows t))
      /\ Forall (fun r => Persistent.id r <= D1.seq t) (D1.rows t)
  | None => True
  end.

(** The counter of the table, once it exists, never goes back. *)
Definition counter_le (d d' : D1.database) : Prop :=
  forall t, D1.comments d = Some t ->
  exists t', D1.comments d' = Some t' /\ D1.seq t <= D1.seq t'.

(** The D1 worker over a sequence of requests, each with its clock reads
    and the reading of the database clock. *)
Fixpoint serve_all (g : D1.engine) (e : Persistent.env)
  (inputs : list (request * clock * Z)) (d : D1.database) : D1.database :=
  match inputs with
  | [] => d
  | (r, clk, now_s) :: rest =>
      serve_all g e rest
        (Persistent.db (snd (Persistent.serve (D1.d1 g now_s) e r clk d)))
  end.

(** The row a successful POST /api/comments appends: the key generated, the
    three bound values under the TEXT affinity of their columns, the
    timestamp of the database, and what lines 117-140 make of the two
    headers. *)
Definition posted_row (g : D1.engine) (e : Persistent.env) (r : request)
  (now_s i : Z)
  (e0 c0 col0 : Persistent.sqlval) : Persistent.row :=
  {| Persistent.id := i;
     Persistent.email := D1.text_affinity g e0;
     Persistent.comment := D1.text_affinity g c0;
     Persistent.color := D1.text_affinity g col0;
     Persistent.created_at := D1.current_timestamp now_s;
     Persistent.ip_hash :=
       Js.take 16
         (Persistent.sha256_hex e (Js.text_or (header_cf_connecting_ip r) "unknown"));
     Persistent.user_agent :=
       Js.take 255 (Js.text_or (header_user_agent r) "unknown") |}.

(** The statements that add no row: all but the INSERT. *)
Definition adds_nothing (R : Type) (s : Persistent.stmt R) : Prop :=
  match s with
  | Persistent.InsertComment _ _ _ _ _ => False
  | _ => True
  end.

(** ** Further sample requests *)

Definition delete_request (j : Js.json) : request :=
  request_to "DELETE" "/api/comments" [] (inr (Js.JObj [("id", j)])).

(** A delete, a cleanup and a submission, in that order. *)
Definition busy_session : list (request * clock * Z) :=
  [ (delete_request (Js.JNum 2), morning, 1793682120);
    (request_to "POST" "/api/comments/cleanup" [("days", "1")] no_body, morning,
     1793682121);
    (submission hello, morning, 1793682125) ].

(** A request without the two headers the POST handler reads. *)
Definition bare_submission : request :=
  {| method := "POST";
     pathname := "/api/comments";
     searchParams := [];
     header_cf_connecting_ip := None;
     header_user_agent := None;
     json := inr hello |}.

(** ** Vocabulary of the cleanup by age *)

(** A date as a number that orders dates. *)
Definition date_key (date : Z * Z * Z) : Z :=
  let '(y, m, d) := date in (12 * y + m) * 32 + d.

(** The same number read off the day count before [civil_from_days] turns
    the year that starts in March into the calendar year. *)
Definition march_key (days : Z) : Z :=
  let z := days + 719468 in
  let era := z / 146097 in
  let doe := z - era * 146097 in
  let yoe := (doe - doe / 1460 + doe / 36524 - doe / 146096) / 365 in
  let doy := doe - (365 * yoe + yoe / 4 - yoe / 100) in
  let mp := (5 * doy + 2) / 153 in
  (12 * (yoe + era * 400) + mp) * 32 + (doy - (153 * mp + 2) / 5 + 1).

(** The character [pad] writes for one decimal digit. *)
Definition digit (x : Z) : ascii := ascii_of_nat (Z.to_nat (48 + x)).

(** 0000-01-01T00:00:00Z and 10000-01-01T00:00:00Z, in seconds since the
    epoch. *)
Definition year_0000 : Z := - 62167219200.
Definition year_10000 : Z := 253402300800.

(** Seconds since the epoch whose UTC year has four digits. *)
Definition four_digit_year (s : Z) : Prop := year_0000 <= s < year_10000.

(** A row written by the INSERT of the worker when the database clock read
    [s]: its [created_at] is the CURRENT_TIMESTAMP of that second. *)
Definition created_at_second (x : Persistent.row) (s : Z) : Prop :=
  four_digit_year s /\ Persistent.created_at x = D1.current_timestamp s.

(** 2026-11-02 23:59:59 *)
Definition evening_row : Persistent.row :=
  {| Persistent.id := 3;
     Persistent.email := Persistent.VText "e@f.net";
     Persistent.comment := Persistent.VText "good night";
     Persistent.color := Persistent.VText "blue";
     Persistent.created_at := "2026-11-02 23:59:59";
     Persistent.ip_hash := "fec52565aa0cf18f";
     Persistent.user_agent := "curl/8.5.0" |}.

(** 2026-11-03 05:01:00 *)
Definition morning_row : Persistent.row :=
  {| Persistent.id := 4;
     Persistent.email := Persistent.VText "g@h.io";
     Persistent.comment := Persistent.VText "good morning";
     Persistent.color := Persistent.VText "green";
     Persistent.created_at := "2026-11-03 05:01:00";
     Persistent.ip_hash := "fec52565aa0cf18f";
     Persistent.user_agent := "curl/8.5.0" |}.

(** Rows of 2026-11-02 05:00:00, 2026-11-02 23:59:59 and
    2026-11-03 05:01:00. *)
Definition three_row_database : D1.database :=
  {| D1.comments :=
       Some {| D1.rows := [yesterday_row; evening_row; morning_row]; D1.seq := 4 |};
     D1.other_tables := [] |}.

(** A time value whose UTC year has four digits. *)
Definition four_digit_year_ms (t : Z) : Prop :=
  year_0000 * 1000 <= t < year_10000 * 1000.

(** Two submissions, the clock of the second read 5 ms before the first. *)
Definition backwards_clock : list (request * clock) :=
  [(submission hello, at_ms 5); (submission hello, at_ms 0)].

(** The records of those two submissions. *)
Definition older_record : Ephemeral.Comment :=
  {| Ephemeral.id := 1700000000000;
     Ephemeral.email := Some (JStr "a@b.com");
     Ephemeral.comment := Some (JStr "hi");
     Ephemeral.color := JStr "red";
     Ephemeral.timestamp := "2023-11-14T22:13:20.000Z" |}.

Definition newer_record : Ephemeral.Comment :=
  {| Ephemeral.id := 1700000000005;
     Ephemeral.email := Some (JStr "a@b.com");
     Ephemeral.comment := Some (JStr "hi");
     Ephemeral.color := JStr "red";
     Ephemeral.timestamp := "2023-11-14T22:13:20.005Z" |}.

(** ** The routes of the specification *)

(** The table of routes of the specification (its section 4.1), read as a
    test on the method and the path, with OPTIONS answered on any path.
    These two definitions follow the specification, not the source; the
    routes marked for the persistent variant only are routes of that variant
    alone. *)
Definition spec_route_ephemeral (m p : string) : bool :=
  String.eqb m "OPTIONS"
  || String.eqb m "GET" && String.eqb p "/health"
  || String.eqb m "GET" && String.eqb p "/api/comments"
  || String.eqb m "POST" && String.eqb p "/api/comments".

Definition spec_route_persistent (m p : string) : bool :=
  spec_route_ephemeral m p
  || String.eqb m "DELETE" && String.eqb p "/api/comments"
  || String.eqb m "POST" && String.eqb p "/api/comments/cleanup"
  || String.eqb m "GET" && String.eqb p "/admin/db-info".

(** The tests of [fetch] that a request answered with 404 has failed. *)
Definition fell_through (r : request) : Prop :=
  is_options r = false
  /\ at_path "/health" r = false
  /\ at_route "GET" "/api/comments" r = false
  /\ at_route "POST" "/api/comments" r = false
  /\ at_route "DELETE" "/api/comments" r = false
  /\ at_route "POST" "/api/comments/cleanup" r = false
  /\ at_path "/admin/db-info" r = false.

(** ** A database out of reach *)

(** The message of a statement that did not reach the database. *)
Definition unavailable : string := "D1_ERROR: Network connection lost.".

(** A database that refuses the statements [p] picks and answers the
    others as [h] does: between two statements of one request the database
    may stop answering. *)
Definition refusing {DBS : Type} (p : forall R : Type, Persistent.stmt R -> bool)
  (h : Persistent.binding DBS) : Persistent.binding DBS :=
  fun R s d => if p R s then (inl unavailable, d) else h R s d.

(** The re-read by id is refused; every other statement is answered. *)
Definition no_reread (R : Type) (s : Persistent.stmt R) : bool :=
  match s with
  | Persistent.SelectById _ => true
  | _ => false
  end.

(** ** Lists in order *)

Lemma StronglySorted_snoc {A : Type} (R : A -> A -> Prop) (l : list A) (a : A) :
  StronglySorted R l -> Forall (fun x => R x a) l -> StronglySorted R (l ++ [a]).
Proof.
  induction 1 as [|x l Hl IH Hx]; intros Ha; cbn.
  - repeat constructor.
  - inversion Ha; subst. constructor.
    + now apply IH.
    + apply Forall_app. split; [assumption|]. now repeat constructor.
Qed.

Section Order.

Context {A : Type} (R : A -> A -> Prop).

Lemma StronglySorted_rev (l : list A) :
  StronglySorted R l -> StronglySorted (fun a b => R b a) (rev l).
Proof.
  induction 1 as [|x l Hl IH Hx]; cbn.
  - constructor.
  - apply StronglySorted_snoc; [assumption|]. now apply Forall_rev.
Qed.

Lemma Forall_firstn (P : A -> Prop) (n : nat) (l : list A) :
  Forall P l -> Forall P (firstn n l).
Proof.
  intros H. revert n. induction H; intros [|n]; cbn; auto.
Qed.

Lemma Forall_skipn (P : A -> Prop) (n : nat) (l : list A) :
  Forall P l -> Forall P (skipn n l).
Proof.
  intros H. revert n. induction H; intros [|n]; cbn; auto.
Qed.

Lemma StronglySorted_firstn (n : nat) (l : list A) :
  StronglySorted R l -> StronglySorted R (firstn n l).
Proof.
  intros H. revert n. induction H as [|x l Hl IH Hx]; intros [|n]; cbn;
    try constructor; auto using Forall_firstn.
Qed.

Lemma StronglySorted_skipn (n : nat) (l : list A) :
  StronglySorted R l -> StronglySorted R (skipn n l).
Proof.
  intros H. revert n. induction H as [|x l Hl IH Hx]; intros [|n]; cbn;
    try constructor; auto.
Qed.

Lemma StronglySorted_irrefl_NoDup (l : list A) :
  (forall a, ~ R a a) -> StronglySorted R l -> NoDup l.
Proof.
  intros Hirr. induction 1 as [|x l Hl IH Hx]; constructor; [|assumption].
  intros Hin. rewrite Forall_forall in Hx. exact (Hirr x (Hx x Hin)).
Qed.

End Order.

Lemma Forall2_of_pairs {A B C : Type} (P : B -> C -> Prop) (f : A -> B) (g : A -> C)
  (l : list A) :
  Forall (fun p => P (f p) (g p)) l -> Forall2 P (map f l) (map g l).
Proof. induction 1; cbn; constructor; assumption. Qed.

(** ** The in-memory worker: how the list evolves *)

Section EphemeralStore.

Import Ephemeral.

Lemma eqb_true (a b : string) : String.eqb a b = true -> a = b.
Proof. apply String.eqb_eq. Qed.

Lemma unshift_capped_firstn (c : Comment) (cs : list Comment) :
  unshift_capped c cs = firstn 100 (c :: cs).
Proof.
  unfold unshift_capped.
  destruct (100 <? List.length (c :: cs))%nat eqn:E; [reflexivity|].
  apply Nat.ltb_ge in E. symmetry. now apply firstn_all2.
Qed.

(** The list after one request. *)
Lemma snd_fetch (request : request) (clk : clock) (cs : list Comment) :
  snd (fetch request clk cs) =
  match inserted (request, clk) with
  | Some c => unshift_capped c cs
  | None => cs
  end.
Proof.
  unfold fetch, inserted, unshift_capped; cbn [fst snd].
  destruct (String.eqb (method request) "OPTIONS") eqn:Eo.
  - apply eqb_true in Eo. rewrite Eo. cbn.
    now rewrite andb_false_r.
  - destruct (String.eqb (pathname request) "/health") eqn:Eh.
    + apply eqb_true in Eh. rewrite Eh. cbn.
      now destruct (toISOString (new_date clk)).
    + destruct (String.eqb (pathname request) "/api/comments") eqn:Ep; cbn [andb].
      * destruct (String.eqb (method request) "GET") eqn:Eg.
        -- apply eqb_true in Eg. rewrite Eg. reflexivity.
        -- destruct (String.eqb (method request) "POST"); [|reflexivity].
           now destruct (newComment request clk).
      * reflexivity.
Qed.

Lemma firstn_app_firstn {A : Type} (n : nat) (a b : list A) :
  firstn n (a ++ firstn n b) = firstn n (a ++ b).
Proof.
  rewrite !firstn_app, firstn_firstn.
  f_equal. f_equal. lia.
Qed.

(** The list after a sequence of requests: the records added, newest first,
    in front of what was there, cut to 100. *)
Lemma run_inserts (inputs : list (request * clock)) (cs : list Comment) :
  (List.length cs <= 100)%nat ->
  run inputs cs = firstn 100 (rev (map snd (inserts inputs)) ++ cs).
Proof.
  revert cs. induction inputs as [|[request clk] rest IH]; intros cs Hlen.
  - cbn [run inserts map rev app]. symmetry. now apply firstn_all2.
  - cbn [run inserts]. rewrite snd_fetch.
    destruct (inserted (request, clk)) as [c|].
    + rewrite unshift_capped_firstn, IH.
      * rewrite firstn_app_firstn. cbn [map rev snd].
        now rewrite <- app_assoc.
      * rewrite length_firstn. lia.
    + now apply IH.
Qed.

Lemma run_initial (inputs : list (request * clock)) :
  run inputs initial = firstn 100 (rev (map snd (inserts inputs))).
Proof.
  rewrite run_inserts by (unfold initial; cbn [List.length]; lia).
  now rewrite app_nil_r.
Qed.

(** When every request adds its record, [inserts] is the list of records. *)
Lemma inserts_all (inputs : list (request * clock)) (cs : list Comment) :
  map inserted inputs = map Some cs -> map snd (inserts inputs) = cs.
Proof.
  revert cs. induction inputs as [|i rest IH]; intros [|c cs] H; try discriminate.
  - reflexivity.
  - cbn in H. injection H as Hi Hrest. cbn [inserts]. rewrite Hi.
    cbn. f_equal. now apply IH.
Qed.

End EphemeralStore.

(** *** Keys of the records along a run *)

Section EphemeralKeys.

Import Ephemeral.

Lemma inserted_newComment (i : request * clock) (c : Comment) :
  inserted i = Some c -> newComment (fst i) (snd i) = inr c.
Proof.
  unfold inserted.
  destruct (String.eqb (pathname (fst i)) "/api/comments"
            && String.eqb (method (fst i)) "POST"); [|discriminate].
  destruct (newComment (fst i) (snd i)); congruence.
Qed.

(** What [newComment] puts in the record. *)
Lemma newComment_fields (request : request) (clk : clock) (c : Comment) :
  newComment request clk = inr c ->
  exists data,
    json request = inr data
    /\ id c = date_now clk
    /\ email c = get_prop data "email"
    /\ comment c = get_prop data "comment"
    /\ color c = default_to (JStr "black") (get_prop data "color")
    /\ toISOString (new_date clk) = Some (timestamp c).
Proof.
  unfold newComment.
  destruct (json request) as [e|data]; [discriminate|].
  destruct (destructurable data); [|discriminate].
  destruct (toISOString (new_date clk)) as [ts|]; [|discriminate].
  intros H. injection H as <-. exists data. cbn. repeat split.
Qed.

Lemma inserts_keys (inputs : list (request * clock)) :
  Forall (fun p => id (snd p) = date_now (fst p)
                   /\ toISOString (new_date (fst p)) = Some (timestamp (snd p)))
    (inserts inputs).
Proof.
  induction inputs as [|i rest IH]; cbn [inserts]; [constructor|].
  destruct (inserted i) as [c|] eqn:E; [|assumption].
  constructor; [|assumption]. cbn [fst snd].
  apply inserted_newComment, newComment_fields in E.
  destruct E as (data & _ & Hid & _ & _ & _ & Hts). now split.
Qed.

Context (R : Z -> Z -> Prop) (key : clock -> Z).

Lemma inserts_Forall (P : Z -> Prop) (inputs : list (request * clock)) :
  Forall P (map (fun i => key (snd i)) inputs) ->
  Forall P (map (fun p => key (fst p)) (inserts inputs)).
Proof.
  induction inputs as [|i rest IH]; cbn [inserts map]; intros H; [constructor|].
  inversion H; subst.
  destruct (inserted i); cbn [map fst]; auto.
Qed.

Lemma inserts_sorted (inputs : list (request * clock)) :
  StronglySorted R (map (fun i => key (snd i)) inputs) ->
  StronglySorted R (map (fun p => key (fst p)) (inserts inputs)).
Proof.
  induction inputs as [|i rest IH]; cbn [inserts map]; intros H; [constructor|].
  apply StronglySorted_inv in H. destruct H as [Hrest Hi].
  destruct (inserted i); cbn [map fst]; auto.
  constructor; auto using inserts_Forall.
Qed.

(** The keys of the stored records, newest first. *)
Lemma stored_keys_sorted (inputs : list (request * clock)) :
  StronglySorted R (map (fun i => key (snd i)) inputs) ->
  StronglySorted (fun newer older => R older newer)
    (map (fun p => key (fst p)) (firstn 100 (rev (inserts inputs)))).
Proof.
  intros H. rewrite <- firstn_map, map_rev.
  now apply StronglySorted_firstn, StronglySorted_rev, inserts_sorted.
Qed.

End EphemeralKeys.

Lemma run_pairs (inputs : list (request * clock)) :
  Ephemeral.run inputs Ephemeral.initial =
  map snd (firstn 100 (rev (inserts inputs))).
Proof. now rewrite run_initial, <- firstn_map, map_rev. Qed.

Lemma stored_ids (inputs : list (request * clock)) :
  map Ephemeral.id (Ephemeral.run inputs Ephemeral.initial) =
  map (fun p => date_now (fst p)) (firstn 100 (rev (inserts inputs))).
Proof.
  rewrite run_pairs, map_map. apply map_ext_Forall.
  apply Forall_firstn, Forall_rev.
  eapply Forall_impl; [|apply inserts_keys]. now intros p [H _].
Qed.

(** ** Routing *)

Section Routing.

Lemma at_route_inv (m p : string) (r : request) :
  at_route m p r = true -> pathname r = p /\ method r = m.
Proof.
  unfold at_route. intros H. apply andb_prop in H.
  destruct H as [Hp Hm]. split; now apply String.eqb_eq.
Qed.

Lemma ephemeral_fetch_get (r : request) (clk : clock) (cs : list Ephemeral.Comment) :
  at_route "GET" "/api/comments" r = true ->
  Ephemeral.fetch r clk cs =
  (Ephemeral.json_response 200 (Ephemeral.CommentList cs), cs).
Proof.
  intros H. apply at_route_inv in H. destruct H as [Hp Hm].
  unfold Ephemeral.fetch. now rewrite Hp, Hm.
Qed.

Lemma ephemeral_fetch_post (r : request) (clk : clock) (cs : list Ephemeral.Comment) :
  at_route "POST" "/api/comments" r = true ->
  Ephemeral.fetch r clk cs =
  match Ephemeral.newComment r clk with
  | inr c =>
      (Ephemeral.json_response 200 (Ephemeral.Posted (Ephemeral.id c) "留言提交成功！"),
       Ephemeral.unshift_capped c cs)
  | inl _ => (Ephemeral.json_response 400 (Ephemeral.Error "请求格式错误"), cs)
  end.
Proof.
  intros H. apply at_route_inv in H. destruct H as [Hp Hm].
  unfold Ephemeral.fetch. now rewrite Hp, Hm.
Qed.

Lemma ephemeral_fetch_unmatched (r : request) (clk : clock) (cs : list Ephemeral.Comment) :
  is_options r = false ->
  at_path "/health" r = false ->
  at_route "GET" "/api/comments" r = false ->
  at_route "POST" "/api/comments" r = false ->
  Ephemeral.fetch r clk cs =
  (Ephemeral.json_response 404 (Ephemeral.Error "未找到 API 端点"), cs).
Proof.
  unfold is_options, at_path, at_route, Ephemeral.fetch.
  now intros -> -> -> ->.
Qed.

Context (e : Persistent.env) (clk : clock).

Lemma persistent_fetch_get (r : request) :
  at_route "GET" "/api/comments" r = true ->
  Persistent.fetch e r clk = Persistent.get_comments r.
Proof.
  intros H. apply at_route_inv in H. destruct H as [Hp Hm].
  unfold Persistent.fetch. now rewrite Hp, Hm.
Qed.

Lemma persistent_fetch_post (r : request) :
  at_route "POST" "/api/comments" r = true ->
  Persistent.fetch e r clk = Persistent.post_comment e r.
Proof.
  intros H. apply at_route_inv in H. destruct H as [Hp Hm].
  unfold Persistent.fetch. now rewrite Hp, Hm.
Qed.

Lemma persistent_fetch_delete (r : request) :
  at_route "DELETE" "/api/comments" r = true ->
  Persistent.fetch e r clk = Persistent.delete_comment r.
Proof.
  intros H. apply at_route_inv in H. destruct H as [Hp Hm].
  unfold Persistent.fetch. now rewrite Hp, Hm.
Qed.

Lemma persistent_fetch_cleanup (r : request) :
  at_route "POST" "/api/comments/cleanup" r = true ->
  Persistent.fetch e r clk = Persistent.cleanup r clk.
Proof.
  intros H. apply at_route_inv in H. destruct H as [Hp Hm].
  unfold Persistent.fetch. now rewrite Hp, Hm.
Qed.

Lemma persistent_fetch_unmatched (r : request) :
  is_options r = false ->
  at_path "/health" r = false ->
  at_route "GET" "/api/comments" r = false ->
  at_route "POST" "/api/comments" r = false ->
  at_route "DELETE" "/api/comments" r = false ->
  at_route "POST" "/api/comments/cleanup" r = false ->
  at_path "/admin/db-info" r = false ->
  Persistent.fetch e r clk =
  Persistent.Ret (Persistent.json_response 404 (Persistent.Error "未找到 API 端点")).
Proof.
  unfold is_options, at_path, at_route, Persistent.fetch.
  now intros -> -> -> -> -> -> ->.
Qed.

End Routing.

(** ** Running handlers *)

Section Running.

Import Persistent.

Context {DBS : Type} (h : binding DBS).

(** The world after a call on the database. *)
Lemma interp_pbind {A B : Type} (p : prog A) (f : A -> prog B) (w : world DBS) :
  interp h (pbind p f) w =
  let '(a, w') := interp h p w in interp h (f a) w'.
Proof.
  revert w. induction p as [a|R s k IH|l t er k IH]; intros w; cbn [pbind interp].
  - reflexivity.
  - destruct (h R s (db w)) as [r d]. apply IH.
  - apply IH.
Qed.

Lemma interp_bind {A B : Type} (m : attempt A) (f : A -> attempt B) (w : world DBS) :
  interp h (bind m f) w =
  match interp h m w with
  | (inl er, w') => (inl er, w')
  | (inr a, w') => interp h (f a) w'
  end.
Proof.
  unfold bind. rewrite interp_pbind.
  destruct (interp h m w) as [[er|a] w']; reflexivity.
Qed.

Lemma interp_catch {A : Type} (b : attempt A) (handler : string -> A) (w : world DBS) :
  interp h (catch b handler) w =
  match interp h b w with
  | (inl er, w') => (handler er, w')
  | (inr a, w') => (a, w')
  end.
Proof.
  unfold catch. rewrite interp_pbind.
  destruct (interp h b w) as [[er|a] w']; reflexivity.
Qed.

Lemma interp_await {R : Type} (s : stmt R) (w : world DBS) :
  interp h (await s) w =
  (fst (h R s (db w)),
   {| db := snd (h R s (db w));
      console := console w;
      trace := trace w ++ [Issued s] |}).
Proof.
  unfold await. cbn [interp]. now destruct (h R s (db w)).
Qed.

(** [ensureDatabaseInitialized] sends the schema script and returns
    normally whatever the answer. *)
Lemma interp_ensure (w : world DBS) :
  exists entry,
    interp h ensureDatabaseInitialized w =
    (inr tt,
     {| db := snd (h unit SchemaInit (db w));
        console := console w ++ [entry];
        trace := trace w ++ [Issued SchemaInit] |})
    /\ (forall er, fst (h unit SchemaInit (db w)) = inl er ->
        entry = (ErrorLevel, "❌ 数据库初始化失败:", Some er)).
Proof.
  unfold ensureDatabaseInitialized. cbn [interp].
  destruct (h unit SchemaInit (db w)) as [[er|u] d]; cbn [interp ret fst snd db console trace].
  - eexists. split; [reflexivity|]. now intros ? [= <-].
  - eexists. split; [reflexivity|]. discriminate.
Qed.

End Running.

(** ** Requests that are refused *)

Section Refusals.

Import Persistent.

(** C3, as stated, fails on the D1 worker: a POST /api/comments whose body
    is not JSON is answered with status 500 there, not 400. *)
Lemma malformed_body_d1_is_500 :
  let response :=
    fst (serve (D1.d1 sample_engine 1793682120) sample_env
           (request_to "POST" "/api/comments" [] no_body) morning fresh_database) in
  status_of response = Some 500 /\ status_of response <> Some 400.
Proof. vm_compute. split; [reflexivity|discriminate]. Qed.

(** C3, amended: a POST /api/comments whose body is not valid JSON is
    answered by the in-memory worker with status 400 and the body
    [{error}], the list left as it is; the D1 worker answers it with status
    500 and the body [{success: false, error, details}], [details] being
    the message of the parse error, whatever the database answers to the
    schema script sent first. *)
Theorem malformed_body_status :
  (forall (r : request) (clk : clock) (cs : list Ephemeral.Comment) (msg : string),
      at_route "POST" "/api/comments" r = true ->
      json r = inl msg ->
      Ephemeral.fetch r clk cs =
      (Ephemeral.json_response 400 (Ephemeral.Error "请求格式错误"), cs))
  /\
  (forall (DBS : Type) (h : binding DBS) (e : env) (r : request) (clk : clock)
          (d : DBS) (msg : string),
      at_route "POST" "/api/comments" r = true ->
      json r = inl msg ->
      fst (serve h e r clk d) = json_response 500 (PostFailed "提交失败" msg)).
Proof.
  split.
  - intros r clk cs msg Hr Hj.
    rewrite ephemeral_fetch_post by assumption.
    unfold Ephemeral.newComment. now rewrite Hj.
  - intros DBS h e r clk d msg Hr Hj.
    unfold serve. rewrite (persistent_fetch_post e clk r Hr).
    unfold post_comment. rewrite interp_catch, interp_bind.
    destruct (interp_ensure h (boot d)) as (entry & -> & _).
    rewrite interp_bind. unfold request_json. rewrite Hj. reflexivity.
Qed.

Lemma malformed_body_status_witness :
  Ephemeral.fetch (request_to "POST" "/api/comments" [] no_body) morning [] =
  (Ephemeral.json_response 400 (Ephemeral.Error "请求格式错误"), [])
  /\ fst (serve (D1.d1 sample_engine 1793682120) sample_env
            (request_to "POST" "/api/comments" [] no_body) morning fresh_database) =
     json_response 500 (PostFailed "提交失败" "Unexpected end of JSON input").
Proof.
  split.
  - eapply (proj1 malformed_body_status); reflexivity.
  - eapply (proj2 malformed_body_status); reflexivity.
Defined.

(** C2: the DELETE, cleanup and db-info handlers send their statements
    without the schema script.  On a database in which the table does not
    exist yet, each is answered with status 500 and the table is still
    missing afterwards, while GET /api/comments on the same database sends
    the script first and answers 200.  Where the script is refused, GET
    logs the failure and still serves the rows. *)
Theorem schema_init_not_in_every_handler :
  serve (D1.d1 sample_engine 1793682120) sample_env
    (request_to "DELETE" "/api/comments" [] (inr (JObj [("id", JNum 1)])))
    morning fresh_database =
  (json_response 500 (Error "删除失败"),
   {| db := fresh_database; console := [];
      trace := [Issued (DeleteById (JNum 1))] |})
  /\
  serve (D1.d1 sample_engine 1793682120) sample_env
    (request_to "POST" "/api/comments/cleanup" [] no_body)
    morning fresh_database =
  (json_response 500 (Error "清理失败"),
   {| db := fresh_database; console := [];
      trace := [Issued (DeleteOlder "2026-10-04T05:02:00.000Z")] |})
  /\
  serve (D1.d1 sample_engine 1793682120) sample_env
    (request_to "GET" "/admin/db-info" [] no_body)
    morning fresh_database =
  (json_response 500 (Error D1.no_such_table),
   {| db := fresh_database; console := [];
      trace := [Issued ListTables; Issued CountComments] |})
  /\
  serve (D1.d1 sample_engine 1793682120) sample_env
    (request_to "GET" "/api/comments" [] no_body)
    morning fresh_database =
  (json_response 200 (CommentList []),
   {| db := {| D1.comments := Some {| D1.rows := []; D1.seq := 0 |};
               D1.other_tables := [] |};
      console := [(LogLevel, "✅ 数据库表已初始化", None)];
      trace := [Issued SchemaInit; Issued (SelectPage 100 0)] |})
  /\
  serve (D1.d1 line_split_engine 1793682120) sample_env
    (request_to "GET" "/api/comments" [] no_body)
    morning one_row_database =
  (json_response 200 (CommentList [yesterday_row]),
   {| db := one_row_database;
      console := [(ErrorLevel, "❌ 数据库初始化失败:", Some D1.exec_error)];
      trace := [Issued SchemaInit; Issued (SelectPage 100 0)] |}).
Proof. repeat split; vm_compute; reflexivity. Qed.

End Refusals.

(** ** The in-memory list: cap and identifiers *)

Section EphemeralClaims.

Import Ephemeral.

(** C4: starting from the empty list, the list holds at most 100 records
    after any sequence of requests; and after 101 requests that each insert
    a record, it holds exactly the last 100 of them, newest first, the
    oldest one gone. *)
Theorem ephemeral_cap_100 :
  (forall inputs : list (request * clock),
      (List.length (run inputs initial) <= 100)%nat)
  /\
  (forall (inputs : list (request * clock)) (oldest : Comment) (cs : list Comment),
      map inserted inputs = map Some (oldest :: cs) ->
      List.length cs = 100%nat ->
      run inputs initial = rev cs).
Proof.
  split.
  - intros inputs. rewrite run_initial, length_firstn. apply Nat.le_min_l.
  - intros inputs oldest cs H Hlen.
    rewrite run_initial, (inserts_all inputs (oldest :: cs) H).
    cbn [rev]. rewrite firstn_app, length_rev, Hlen, Nat.sub_diag, firstn_O, app_nil_r.
    apply firstn_all2. rewrite length_rev. lia.
Qed.

Lemma ephemeral_cap_100_witness :
  run submissions_101 initial = rev (tl records_101).
Proof.
  apply (proj2 ephemeral_cap_100 submissions_101 oldest_of_101 (tl records_101)).
  - vm_compute. reflexivity.
  - vm_compute. reflexivity.
Defined.

(** C6, as stated, fails: two submissions served within one millisecond
    are both stored, under the same id. *)
Lemma same_millisecond_same_id :
  List.length (inserts same_millisecond) = 2%nat
  /\ map id (run same_millisecond initial) = [1700000000000; 1700000000000]
  /\ ~ NoDup (map id (run same_millisecond initial)).
Proof.
  repeat split; try (vm_compute; reflexivity).
  intros H. vm_compute in H. inversion H as [|x l Hin _]; subst.
  apply Hin. now left.
Qed.

Lemma inserts_In (inputs : list (request * clock)) (p : clock * Comment) :
  In p (inserts inputs) ->
  exists i, In i inputs /\ snd i = fst p /\ inserted i = Some (snd p).
Proof.
  induction inputs as [|i rest IH]; cbn [inserts]; [contradiction|].
  destruct (inserted i) as [c|] eqn:E.
  - intros [<-|Hin].
    + exists i. cbn. auto.
    + destruct (IH Hin) as (j & Hj & Hrest). exists j. cbn. auto.
  - intros Hin. destruct (IH Hin) as (j & Hj & Hrest). exists j. cbn. auto.
Qed.

(** C6, amended: the id of a stored record is the [Date.now()] read by the
    request that inserted it.  When the reads never decrease along the
    requests, a later insert receives an id greater than or equal to those
    of earlier inserts; when the reads strictly increase, the stored ids
    are strictly increasing in insertion order and no two records share
    an id. *)
Theorem ephemeral_ids_follow_clock (inputs : list (request * clock)) :
  Forall (fun c => exists i, In i inputs /\ inserted i = Some c
                             /\ id c = date_now (snd i))
    (run inputs initial)
  /\ (Sorted Z.le (map (fun i => date_now (snd i)) inputs) ->
      StronglySorted (fun newer older => older <= newer)
        (map id (run inputs initial)))
  /\ (Sorted Z.lt (map (fun i => date_now (snd i)) inputs) ->
      StronglySorted (fun newer older => older < newer)
        (map id (run inputs initial))
      /\ NoDup (map id (run inputs initial))).
Proof.
  split; [|split].
  - rewrite run_pairs. apply Forall_map, Forall_firstn, Forall_rev.
    apply Forall_forall. intros p Hp.
    destruct (inserts_In inputs p Hp) as (i & Hi & Hclk & Hins).
    exists i. repeat split; try assumption.
    pose proof (inserts_keys inputs) as K. rewrite Forall_forall in K.
    destruct (K p Hp) as [Hid _]. now rewrite Hid, Hclk.
  - intros H. rewrite stored_ids.
    apply (stored_keys_sorted Z.le date_now).
    apply Sorted_StronglySorted; [exact Z.le_trans|assumption].
  - intros H.
    assert (S : StronglySorted (fun newer older => older < newer)
                  (map id (run inputs initial))).
    { rewrite stored_ids. apply (stored_keys_sorted Z.lt date_now).
      apply Sorted_StronglySorted; [exact Z.lt_trans|assumption]. }
    split; [assumption|].
    apply (StronglySorted_irrefl_NoDup (fun newer older => older < newer));
      [intros a; lia|assumption].
Qed.

Lemma ephemeral_ids_follow_clock_witness :
  StronglySorted (fun newer older => older < newer)
    (map id (run submissions_101 initial))
  /\ NoDup (map id (run submissions_101 initial)).
Proof.
  apply (proj2 (proj2 (ephemeral_ids_follow_clock submissions_101))).
  vm_compute. repeat constructor.
Defined.

End EphemeralClaims.

(** ** Text order and ORDER BY *)

Section TextOrder.

Import Persistent.

Lemma string_compare_le_trans (a b c : string) :
  String.compare a b <> Gt -> String.compare b c <> Gt -> String.compare a c <> Gt.
Proof.
  revert b c. induction a as [|x a IH]; intros [|y b] [|z c]; cbn; try congruence.
  change (Ascii.compare x y) with (N.compare (N_of_ascii x) (N_of_ascii y)).
  change (Ascii.compare y z) with (N.compare (N_of_ascii y) (N_of_ascii z)).
  change (Ascii.compare x z) with (N.compare (N_of_ascii x) (N_of_ascii z)).
  destruct (N.compare_spec (N_of_ascii x) (N_of_ascii y)) as [Hxy|Hxy|Hxy];
    destruct (N.compare_spec (N_of_ascii y) (N_of_ascii z)) as [Hyz|Hyz|Hyz];
    destruct (N.compare_spec (N_of_ascii x) (N_of_ascii z)) as [Hxz|Hxz|Hxz];
    try congruence; try lia.
  apply IH.
Qed.

Lemma string_leb_trans (a b c : string) :
  String.leb a b = true -> String.leb b c = true -> String.leb a c = true.
Proof.
  unfold String.leb. intros H1 H2.
  pose proof (string_compare_le_trans a b c) as T.
  destruct (String.compare a b), (String.compare b c), (String.compare a c);
    try discriminate; try reflexivity; exfalso; apply T; congruence.
Qed.

Lemma insert_desc_Forall (P : row -> Prop) (r : row) (l : list row) :
  P r -> Forall P l -> Forall P (D1.insert_desc r l).
Proof.
  intros Hr H. induction H as [|x l Hx Hl IH]; cbn [D1.insert_desc].
  - now repeat constructor.
  - destruct (String.leb (created_at x) (created_at r)); repeat constructor; assumption.
Qed.

Lemma insert_desc_sorted (r : row) (l : list row) :
  StronglySorted created_desc l -> StronglySorted created_desc (D1.insert_desc r l).
Proof.
  induction 1 as [|x l Hl IH Hx]; cbn [D1.insert_desc].
  - repeat constructor.
  - destruct (String.leb (created_at x) (created_at r)) eqn:E.
    + constructor; [now constructor|].
      constructor; [exact E|].
      eapply Forall_impl; [|exact Hx].
      intros y Hy. unfold created_desc in *. eapply string_leb_trans; eassumption.
    + constructor; [assumption|].
      apply insert_desc_Forall; [|assumption].
      unfold created_desc.
      destruct (String.leb_total (created_at x) (created_at r)) as [T|T];
        [congruence|assumption].
Qed.

Lemma order_by_sorted (l : list row) :
  StronglySorted created_desc (D1.order_by_created_at_desc l).
Proof.
  induction l as [|r l IH]; cbn; [constructor|]. now apply insert_desc_sorted.
Qed.

Lemma page_sorted (limit offset : Z) (l : list row) :
  StronglySorted created_desc l -> StronglySorted created_desc (D1.page limit offset l).
Proof.
  intros H. unfold D1.page.
  destruct (limit <? 0); auto using StronglySorted_firstn, StronglySorted_skipn.
Qed.

End TextOrder.

(** ** The calendar *)

Section Dates.

Import Persistent.

Lemma year_of_era_mono (a b : Z) :
  0 <= a <= b -> b <= 146096 ->
  (a - a / 1460 + a / 36524 - a / 146096) / 365
  <= (b - b / 1460 + b / 36524 - b / 146096) / 365.
Proof.
  intros H1 H2. apply Z.div_le_mono; [lia|].
  Z.div_mod_to_equations. lia.
Qed.

Lemma day_of_year_range (doe : Z) :
  0 <= doe <= 146096 ->
  let yoe := (doe - doe / 1460 + doe / 36524 - doe / 146096) / 365 in
  0 <= yoe <= 399 /\ 0 <= doe - (365 * yoe + yoe / 4 - yoe / 100) <= 365.
Proof.
  intros H. cbv zeta.
  Z.div_mod_to_equations. lia.
Qed.

Lemma month_day_range (doy : Z) :
  0 <= doy <= 365 ->
  let mp := (5 * doy + 2) / 153 in
  0 <= mp <= 11 /\ 1 <= doy - (153 * mp + 2) / 5 + 1 <= 31.
Proof. intros H. cbv zeta. Z.div_mod_to_equations. lia. Qed.

Lemma month_day_mono (a b : Z) :
  0 <= a < b -> b <= 365 ->
  let mp1 := (5 * a + 2) / 153 in
  let mp2 := (5 * b + 2) / 153 in
  mp1 * 32 + (a - (153 * mp1 + 2) / 5 + 1) < mp2 * 32 + (b - (153 * mp2 + 2) / 5 + 1).
Proof. intros H1 H2. cbv zeta. Z.div_mod_to_equations. lia. Qed.


Lemma civil_range (days : Z) :
  let '(y, m, d) := civil_from_days days in
  1 <= m <= 12 /\ 1 <= d <= 31 /\ date_key (y, m, d) = march_key days + 96.
Proof.
  unfold civil_from_days, march_key, date_key.
  set (z := days + 719468). set (era := z / 146097).
  set (doe := z - era * 146097).
  assert (Hdoe : 0 <= doe <= 146096).
  { subst doe era. Z.div_mod_to_equations. lia. }
  destruct (day_of_year_range doe Hdoe) as [Hy Hdoy]. cbv zeta in Hy, Hdoy.
  set (yoe := (doe - doe / 1460 + doe / 36524 - doe / 146096) / 365) in *.
  set (doy := doe - (365 * yoe + yoe / 4 - yoe / 100)) in *.
  destruct (month_day_range doy Hdoy) as [Hmp Hd]. cbv zeta in Hmp, Hd.
  set (mp := (5 * doy + 2) / 153) in *.
  set (d := doy - (153 * mp + 2) / 5 + 1) in *.
  destruct (mp <? 10) eqn:E.
  - apply Z.ltb_lt in E. destruct (mp + 3 <=? 2) eqn:E2.
    + apply Z.leb_le in E2. lia.
    + lia.
  - apply Z.ltb_ge in E. destruct (mp - 9 <=? 2) eqn:E2.
    + lia.
    + apply Z.leb_gt in E2. lia.
Qed.

Lemma march_key_mono (a b : Z) : a < b -> march_key a < march_key b.
Proof.
  intros Hab. unfold march_key.
  set (z1 := a + 719468). set (era1 := z1 / 146097).
  set (doe1 := z1 - era1 * 146097).
  set (z2 := b + 719468). set (era2 := z2 / 146097).
  set (doe2 := z2 - era2 * 146097).
  assert (H1 : 0 <= doe1 <= 146096).
  { subst doe1 era1. Z.div_mod_to_equations. lia. }
  assert (H2 : 0 <= doe2 <= 146096).
  { subst doe2 era2. Z.div_mod_to_equations. lia. }
  assert (Hlex : era1 < era2 \/ era1 = era2 /\ doe1 < doe2).
  { subst doe1 doe2 era1 era2 z1 z2. Z.div_mod_to_equations. lia. }
  destruct (day_of_year_range doe1 H1) as [Hy1 Hd1].
  destruct (day_of_year_range doe2 H2) as [Hy2 Hd2].
  cbv zeta in Hy1, Hd1, Hy2, Hd2.
  pose proof (year_of_era_mono doe1 doe2) as Hmono.
  set (yoe1 := (doe1 - doe1 / 1460 + doe1 / 36524 - doe1 / 146096) / 365) in *.
  set (yoe2 := (doe2 - doe2 / 1460 + doe2 / 36524 - doe2 / 146096) / 365) in *.
  set (doy1 := doe1 - (365 * yoe1 + yoe1 / 4 - yoe1 / 100)) in *.
  set (doy2 := doe2 - (365 * yoe2 + yoe2 / 4 - yoe2 / 100)) in *.
  destruct (month_day_range doy1 Hd1) as [Hm1 Hday1].
  destruct (month_day_range doy2 Hd2) as [Hm2 Hday2].
  cbv zeta in Hm1, Hday1, Hm2, Hday2.
  pose proof (month_day_mono doy1 doy2) as Hmd. cbv zeta in Hmd.
  set (mp1 := (5 * doy1 + 2) / 153) in *.
  set (mp2 := (5 * doy2 + 2) / 153) in *.
  set (d1 := doy1 - (153 * mp1 + 2) / 5 + 1) in *.
  set (d2 := doy2 - (153 * mp2 + 2) / 5 + 1) in *.
  destruct Hlex as [Hera|[Hera Hdoe]].
  - lia.
  - assert (Hyy : yoe1 <= yoe2) by (apply Hmono; lia).
    destruct (Z.eq_dec yoe1 yoe2) as [Heq|Hne].
    + assert (Hdd : doy1 < doy2) by (subst doy1 doy2; rewrite Heq; lia).
      specialize (Hmd ltac:(lia) ltac:(lia)). lia.
    + lia.
Qed.

(** ** Dates as text *)

Lemma length_append (a b : string) :
  String.length (a ++ b) = (String.length a + String.length b)%nat.
Proof. induction a as [|x a IH]; cbn; [reflexivity|now rewrite IH]. Qed.

Lemma length_pad (w : nat) (n : Z) : String.length (pad w n) = w.
Proof.
  revert n. induction w as [|w IH]; intros n; cbn [pad]; [reflexivity|].
  rewrite length_append, IH. cbn. lia.
Qed.

Lemma compare_append (a b s1 s2 : string) :
  String.length a = String.length b ->
  String.compare (a ++ s1) (b ++ s2) =
  match String.compare a b with
  | Eq => String.compare s1 s2
  | c => c
  end.
Proof.
  revert b. induction a as [|x a IH]; intros [|y b] H; cbn in H; try discriminate.
  - reflexivity.
  - cbn [append String.compare]. destruct (Ascii.compare x y); try reflexivity.
    apply IH. now injection H.
Qed.


Lemma digit_cases (x : Z) :
  0 <= x < 10 ->
  x = 0 \/ x = 1 \/ x = 2 \/ x = 3 \/ x = 4 \/ x = 5 \/ x = 6 \/ x = 7 \/ x = 8
  \/ x = 9.
Proof. lia. Qed.

Lemma digit_compare (x y : Z) :
  0 <= x < 10 -> 0 <= y < 10 ->
  Ascii.compare (digit x) (digit y) = (x ?= y).
Proof.
  intros Hx Hy.
  destruct (digit_cases x Hx) as [->|[->|[->|[->|[->|[->|[->|[->|[->| ->]]]]]]]]];
    destruct (digit_cases y Hy) as [->|[->|[->|[->|[->|[->|[->|[->|[->| ->]]]]]]]]];
    reflexivity.
Qed.

Lemma pad_compare (w : nat) (a b : Z) :
  0 <= a < 10 ^ Z.of_nat w -> 0 <= b < 10 ^ Z.of_nat w ->
  String.compare (pad w a) (pad w b) = (a ?= b).
Proof.
  revert a b. induction w as [|w IH]; intros a b Ha Hb.
  - cbn in Ha, Hb. cbn [pad String.compare]. symmetry. apply Z.compare_eq_iff. lia.
  - rewrite Nat2Z.inj_succ, Z.pow_succ_r in Ha, Hb by lia.
    cbn [pad]. rewrite compare_append by now rewrite !length_pad.
    rewrite IH by (Z.div_mod_to_equations; lia).
    cbn [String.compare]. fold (digit (a mod 10)). fold (digit (b mod 10)).
    rewrite digit_compare by (apply Z.mod_pos_bound; lia).
    destruct (Z.compare_spec (a / 10) (b / 10)) as [E|E|E].
    + destruct (Z.compare_spec (a mod 10) (b mod 10)) as [F|F|F];
        symmetry; [apply Z.compare_eq_iff|apply Z.compare_lt_iff|apply Z.compare_gt_iff];
        Z.div_mod_to_equations; lia.
    + symmetry. apply Z.compare_lt_iff. Z.div_mod_to_equations; lia.
    + symmetry. apply Z.compare_gt_iff. Z.div_mod_to_equations; lia.
Qed.

Lemma some_inj {A : Type} (x y : A) : Some x = Some y -> x = y.
Proof. congruence. Qed.

Lemma compare_same_head (c : ascii) (s1 s2 : string) :
  String.compare (String c s1) (String c s2) = String.compare s1 s2.
Proof.
  cbn [String.compare]. unfold Ascii.compare. now rewrite N.compare_refl.
Qed.

Lemma civil_compare (a b : Z) :
  let '(y1, m1, d1) := civil_from_days a in
  let '(y2, m2, d2) := civil_from_days b in
  match y1 ?= y2 with
  | Eq => match m1 ?= m2 with
          | Eq => d1 ?= d2
          | c => c
          end
  | c => c
  end = (a ?= b).
Proof.
  pose proof (civil_range a) as Ha. pose proof (civil_range b) as Hb.
  destruct (civil_from_days a) as [[y1 m1] d1].
  destruct (civil_from_days b) as [[y2 m2] d2].
  destruct Ha as (Hm1 & Hd1 & Hk1). destruct Hb as (Hm2 & Hd2 & Hk2).
  unfold date_key in Hk1, Hk2.
  assert (Hkey : (a ?= b) = ((12 * y1 + m1) * 32 + d1 ?= (12 * y2 + m2) * 32 + d2)).
  { rewrite Hk1, Hk2. destruct (Z.compare_spec a b) as [E|E|E]; symmetry.
    - subst b. apply Z.compare_refl.
    - apply Z.compare_lt_iff. apply march_key_mono in E. lia.
    - apply Z.compare_gt_iff. apply march_key_mono in E. lia. }
  rewrite Hkey.
  destruct (Z.compare_spec y1 y2) as [E|E|E];
    [destruct (Z.compare_spec m1 m2) as [F|F|F];
       [destruct (Z.compare_spec d1 d2) as [G|G|G]|..]|..];
    symmetry;
    first [apply Z.compare_eq_iff; lia|apply Z.compare_lt_iff; lia
          |apply Z.compare_gt_iff; lia].
Qed.

Lemma civil_year (days : Z) :
  let '(y, m, d) := civil_from_days days in
  (- 719528 <= days <-> 0 <= y) /\ (days <= 2932896 <-> y <= 9999).
Proof.
  pose proof (civil_range days) as H.
  destruct (civil_from_days days) as [[y m] d].
  destruct H as (Hm & Hd & Hk). unfold date_key in Hk.
  assert (F : march_key (- 719528) = 33 - 96) by reflexivity.
  assert (L : march_key 2932896 = (12 * 9999 + 12) * 32 + 31 - 96) by reflexivity.
  split; split; intros H.
  - destruct (Z.eq_dec days (- 719528)) as [->|N]; [lia|].
    pose proof (march_key_mono (- 719528) days). lia.
  - destruct (Z_lt_le_dec days (- 719528)) as [N|N]; [|lia].
    pose proof (march_key_mono days (- 719528)). lia.
  - destruct (Z.eq_dec days 2932896) as [->|N]; [lia|].
    pose proof (march_key_mono days 2932896). lia.
  - destruct (Z_lt_le_dec 2932896 days) as [N|N]; [|lia].
    pose proof (march_key_mono 2932896 days). lia.
Qed.

Lemma pad_head (w : nat) (n : Z) :
  pad (S w) n = String (digit (n / 10 ^ Z.of_nat w mod 10)) (pad w n).
Proof.
  revert n. induction w as [|w IH]; intros n.
  - cbn [pad append]. unfold digit. now rewrite Z.pow_0_r, Z.div_1_r.
  - change (pad (S (S w)) n)
      with (pad (S w) (n / 10) ++ String (digit (n mod 10)) EmptyString)%string.
    rewrite IH. cbn [append pad]. unfold digit.
    rewrite Nat2Z.inj_succ, Z.pow_succ_r, Z.div_div by lia.
    reflexivity.
Qed.

Lemma digit_above_sign (x : Z) (c : ascii) :
  0 <= x < 10 -> c = "-"%char \/ c = "+"%char ->
  Ascii.compare (digit x) c = Gt.
Proof.
  intros Hx Hc.
  destruct (digit_cases x Hx) as [->|[->|[->|[->|[->|[->|[->|[->|[->| ->]]]]]]]]];
    destruct Hc as [-> | ->]; reflexivity.
Qed.


(** [created_at < ?] between a [CURRENT_TIMESTAMP] text and an ISO text is
    decided by the two calendar days alone: the texts agree on the ten
    characters of the date, and then a space stands against the [T]. *)
Lemma stamp_below_iso (s c : Z) (cutoff : string) :
  four_digit_year s ->
  toISOString c = Some cutoff ->
  String.ltb (D1.current_timestamp s) cutoff =
  (s / 86400 <=? c / 86400000) && (c <? 253402300800000).
Proof.
  intros Hs Hc. unfold toISOString in Hc.
  destruct (time_clip c) as [c'|] eqn:Hclip; [|discriminate].
  assert (c' = c) as ->.
  { unfold time_clip in Hclip. destruct (Z.abs c >? max_time); congruence. }
  unfold D1.current_timestamp.
  pose proof (civil_compare (s / 86400) (c / 86400000)) as Hcmp.
  pose proof (civil_year (s / 86400)) as Hys.
  pose proof (civil_year (c / 86400000)) as Hyc.
  pose proof (civil_range (s / 86400)) as Hrs.
  pose proof (civil_range (c / 86400000)) as Hrc.
  destruct (civil_from_days (s / 86400)) as [[y1 m1] d1].
  destruct (civil_from_days (c / 86400000)) as [[y2 m2] d2].
  apply some_inj in Hc. subst cutoff.
  destruct Hys as [Hys1 Hys2]. destruct Hyc as [Hyc1 Hyc2].
  destruct Hrs as (Hm1 & Hd1 & _). destruct Hrc as (Hm2 & Hd2 & _).
  assert (Hy1 : 0 <= y1 <= 9999).
  { unfold four_digit_year, year_0000, year_10000 in Hs. split; [apply Hys1|apply Hys2];
      Z.div_mod_to_equations; lia. }
  unfold String.ltb, iso_year.
  destruct ((0 <=? y2) && (y2 <=? 9999)) eqn:E.
  - apply andb_prop in E. destruct E as [E1 E2].
    apply Z.leb_le in E1, E2. cbn [append].
    rewrite compare_append by now rewrite !length_pad.
    rewrite pad_compare by (cbn; lia).
    rewrite compare_same_head.
    rewrite compare_append by now rewrite !length_pad.
    rewrite pad_compare by (cbn; lia).
    rewrite compare_same_head.
    rewrite compare_append by now rewrite !length_pad.
    rewrite pad_compare by (cbn; lia).
    assert (Hlt : (c <? 253402300800000) = true).
    { apply Z.ltb_lt. apply Hyc2 in E2. Z.div_mod_to_equations. lia. }
    rewrite Hlt, andb_true_r.
    destruct (y1 ?= y2) eqn:Cy;
      [destruct (m1 ?= m2) eqn:Cm; [destruct (d1 ?= d2) eqn:Cd|..]|..];
      unfold Z.leb; rewrite <- Hcmp; reflexivity.
  - assert (Hout : y2 < 0 \/ 9999 < y2).
    { apply andb_false_iff in E. destruct E as [E|E];
        [apply Z.leb_gt in E|apply Z.leb_gt in E]; lia. }
    assert (Hres : (s / 86400 <=? c / 86400000) && (c <? 253402300800000) = false).
    { destruct Hout as [Hneg|Hbig].
      - apply andb_false_iff. left. apply Z.leb_gt.
        assert (~ (- 719528 <= c / 86400000)) by (intros K; apply Hyc1 in K; lia).
        unfold four_digit_year, year_0000, year_10000 in Hs. Z.div_mod_to_equations. lia.
      - apply andb_false_iff. right. apply Z.ltb_ge.
        assert (~ (c / 86400000 <= 2932896)) by (intros K; apply Hyc2 in K; lia).
        Z.div_mod_to_equations. lia. }
    rewrite Hres. rewrite (pad_head 3 y1).
    destruct (y2 <? 0); cbn [append String.compare];
      rewrite digit_above_sign; try reflexivity;
      try (apply Z.mod_pos_bound; lia); auto.
Qed.

Lemma clock_compare (a b : Z) :
  match a / 86400000 ?= b / 86400000 with
  | Eq =>
      match a mod 86400000 / 3600000 ?= b mod 86400000 / 3600000 with
      | Eq =>
          match (a mod 86400000 / 60000) mod 60 ?= (b mod 86400000 / 60000) mod 60 with
          | Eq =>
              match (a mod 86400000 / 1000) mod 60 ?= (b mod 86400000 / 1000) mod 60 with
              | Eq => (a mod 86400000) mod 1000 ?= (b mod 86400000) mod 1000
              | c => c
              end
          | c => c
          end
      | c => c
      end
  | c => c
  end = (a ?= b).
Proof.
  destruct (Z.compare_spec (a / 86400000) (b / 86400000)) as [E1|E1|E1];
    [destruct (Z.compare_spec (a mod 86400000 / 3600000) (b mod 86400000 / 3600000))
       as [E2|E2|E2];
     [destruct (Z.compare_spec ((a mod 86400000 / 60000) mod 60)
                  ((b mod 86400000 / 60000) mod 60)) as [E3|E3|E3];
      [destruct (Z.compare_spec ((a mod 86400000 / 1000) mod 60)
                   ((b mod 86400000 / 1000) mod 60)) as [E4|E4|E4];
       [destruct (Z.compare_spec ((a mod 86400000) mod 1000)
                    ((b mod 86400000) mod 1000)) as [E5|E5|E5]|..]|..]|..]|..];
    symmetry;
    first [apply Z.compare_eq_iff; Z.div_mod_to_equations; lia
          |apply Z.compare_lt_iff; Z.div_mod_to_equations; lia
          |apply Z.compare_gt_iff; Z.div_mod_to_equations; lia].
Qed.

Lemma compare_refl (s : string) : String.compare s s = Eq.
Proof. induction s as [|c s IH]; [reflexivity|now rewrite compare_same_head]. Qed.

(** Between two dates of four-digit years, the ISO texts compare as the
    instants do. *)
Lemma iso_compare (t1 t2 : Z) (a b : string) :
  four_digit_year_ms t1 -> four_digit_year_ms t2 ->
  toISOString t1 = Some a -> toISOString t2 = Some b ->
  String.compare a b = (t1 ?= t2).
Proof.
  unfold four_digit_year_ms, year_0000, year_10000. intros H1 H2 Ha Hb.
  unfold toISOString in Ha, Hb.
  destruct (time_clip t1) as [t1'|] eqn:Hc1; [|discriminate].
  destruct (time_clip t2) as [t2'|] eqn:Hc2; [|discriminate].
  assert (t1' = t1) as ->.
  { unfold time_clip in Hc1. destruct (Z.abs t1 >? max_time); congruence. }
  assert (t2' = t2) as ->.
  { unfold time_clip in Hc2. destruct (Z.abs t2 >? max_time); congruence. }
  pose proof (civil_compare (t1 / 86400000) (t2 / 86400000)) as Hcmp.
  pose proof (civil_year (t1 / 86400000)) as Hy1.
  pose proof (civil_year (t2 / 86400000)) as Hy2.
  pose proof (civil_range (t1 / 86400000)) as Hr1.
  pose proof (civil_range (t2 / 86400000)) as Hr2.
  destruct (civil_from_days (t1 / 86400000)) as [[y1 m1] d1].
  destruct (civil_from_days (t2 / 86400000)) as [[y2 m2] d2].
  apply some_inj in Ha, Hb. subst a b.
  destruct Hy1 as [Hy1a Hy1b]. destruct Hy2 as [Hy2a Hy2b].
  destruct Hr1 as (Hm1 & Hd1 & _). destruct Hr2 as (Hm2 & Hd2 & _).
  assert (Y1 : 0 <= y1 <= 9999).
  { split; [apply Hy1a|apply Hy1b]; Z.div_mod_to_equations; lia. }
  assert (Y2 : 0 <= y2 <= 9999).
  { split; [apply Hy2a|apply Hy2b]; Z.div_mod_to_equations; lia. }
  unfold iso_year.
  replace ((0 <=? y1) && (y1 <=? 9999)) with true
    by (symmetry; apply andb_true_iff; split; apply Z.leb_le; lia).
  replace ((0 <=? y2) && (y2 <=? 9999)) with true
    by (symmetry; apply andb_true_iff; split; apply Z.leb_le; lia).
  cbn [append].
  rewrite <- clock_compare, <- Hcmp.
  repeat (rewrite compare_append by (now rewrite !length_pad);
          rewrite pad_compare by (cbn; Z.div_mod_to_equations; lia);
          try rewrite compare_same_head).
  cbn [String.compare].
  destruct (y1 ?= y2); try reflexivity.
  destruct (m1 ?= m2); try reflexivity.
  destruct (d1 ?= d2); try reflexivity.
  repeat (destruct (_ ?= _); try reflexivity).
Qed.

(** Outside the four-digit years the ISO text opens with a sign. *)
Lemma iso_sign (t : Z) (a : string) :
  toISOString t = Some a -> ~ four_digit_year_ms t ->
  exists rest, a = String "-" rest \/ a = String "+" rest.
Proof.
  unfold four_digit_year_ms, year_0000, year_10000. intros Ha Ht.
  unfold toISOString in Ha.
  destruct (time_clip t) as [t'|] eqn:Hc; [|discriminate].
  assert (t' = t) as ->.
  { unfold time_clip in Hc. destruct (Z.abs t >? max_time); congruence. }
  pose proof (civil_year (t / 86400000)) as Hy.
  destruct (civil_from_days (t / 86400000)) as [[y m] d].
  apply some_inj in Ha. subst a. destruct Hy as [Hya Hyb].
  unfold iso_year.
  destruct ((0 <=? y) && (y <=? 9999)) eqn:E.
  - apply andb_prop in E. destruct E as [E1 E2]. apply Z.leb_le in E1, E2.
    apply Hya in E1. apply Hyb in E2. exfalso. apply Ht.
    Z.div_mod_to_equations. lia.
  - destruct (y <? 0); cbn [append]; eexists; [left|right]; reflexivity.
Qed.

(** A text that opens with a digit is the ISO text of four-digit years
    only. *)
Lemma iso_of_four_digits (t : Z) (c : ascii) (rest : string) :
  toISOString t = Some (String c rest) ->
  c <> "-"%char -> c <> "+"%char ->
  four_digit_year_ms t.
Proof.
  intros H Hminus Hplus.
  destruct (Z_le_dec (year_0000 * 1000) t) as [L|L];
    [destruct (Z_lt_dec t (year_10000 * 1000)) as [U|U]|];
    [split; assumption|..];
    (destruct (iso_sign t _ H) as [rest' [E|E]];
     [unfold four_digit_year_ms; lia|congruence|congruence]).
Qed.

End Dates.

(** ** Lists are served newest first *)

Section NewestFirst.

Lemma ephemeral_newest_first (inputs : list (request * clock)) :
  Sorted Z.le (map (fun i => new_date (snd i)) inputs) ->
  newest_first (Ephemeral.run inputs Ephemeral.initial).
Proof.
  intros H.
  exists (map (fun p => new_date (fst p)) (firstn 100 (rev (inserts inputs)))).
  split.
  - rewrite run_pairs.
    apply (Forall2_of_pairs
             (fun c t => toISOString t = Some (Ephemeral.timestamp c))).
    apply Forall_firstn, Forall_rev.
    eapply Forall_impl; [|apply inserts_keys]. now intros p [_ K].
  - apply (stored_keys_sorted Z.le new_date).
    apply Sorted_StronglySorted; [exact Z.le_trans|assumption].
Qed.

Lemma d1_list_sorted (g : D1.engine) (now_s : Z) (e : Persistent.env)
  (r : request) (clk : clock) (d : D1.database) :
  at_route "GET" "/api/comments" r = true ->
  status_of (fst (Persistent.serve (D1.d1 g now_s) e r clk d)) = Some 200 ->
  exists results,
    fst (Persistent.serve (D1.d1 g now_s) e r clk d) =
    Persistent.json_response 200 (Persistent.CommentList results)
    /\ StronglySorted created_desc results.
Proof.
  intros Hr. unfold Persistent.serve.
  rewrite (persistent_fetch_get e clk r Hr). unfold Persistent.get_comments.
  rewrite interp_catch, interp_bind.
  destruct (interp_ensure (D1.d1 g now_s) (Persistent.boot d)) as (entry & -> & _).
  rewrite interp_bind, interp_await. cbn [Persistent.db D1.d1].
  destruct (D1.fits_int64 _ && D1.fits_int64 _); [|cbn; discriminate].
  unfold D1.on_table.
  destruct (D1.comments _) as [t|]; cbn; [|discriminate].
  intros _. eexists. split; [reflexivity|].
  apply page_sorted, order_by_sorted.
Qed.

(** C7, as stated, fails in the in-memory worker: the handler puts each new
    record in front and never sorts, so when the clock of the second
    submission reads an earlier instant than that of the first, the record
    with the older timestamp is served first. *)
Lemma backwards_clock_serves_older_first :
  fst (Ephemeral.fetch (request_to "GET" "/api/comments" [] no_body) (at_ms 9)
         (Ephemeral.run backwards_clock Ephemeral.initial)) =
  Ephemeral.json_response 200 (Ephemeral.CommentList [older_record; newer_record])
  /\ ~ newest_first [older_record; newer_record].
Proof.
  split; [reflexivity|].
  intros (ts & F & S).
  inversion F as [|c0 t0 cs0 ts0 H0 F0]; subst.
  inversion F0 as [|c1 t1 cs1 ts1 H1 F1]; subst.
  inversion F1; subst.
  inversion S as [|? ? _ Hle]; subst. inversion Hle as [|? ? Ht _]; subst.
  unfold older_record, newer_record in H0, H1.
  cbn [Ephemeral.timestamp] in H0, H1.
  assert (R0 : four_digit_year_ms t0).
  { apply (iso_of_four_digits _ _ _ H0); discriminate. }
  assert (R1 : four_digit_year_ms t1).
  { apply (iso_of_four_digits _ _ _ H1); discriminate. }
  pose proof (iso_compare t0 t1 _ _ R0 R1 H0 H1) as C.
  change (Lt = (t0 ?= t1)) in C.
  symmetry in C. apply -> Z.compare_lt_iff in C. lia.
Qed.

(** C7, amended.  In the in-memory worker a GET /api/comments serves the
    records in reverse order of insertion, the most recently inserted
    first, cut to 100; when the clock never runs backwards between requests
    that list is newest first, its timestamps being those of instants that
    never increase along it.  In the D1 worker, from any state of the
    table, the rows of a successful GET are in descending order of
    [created_at]. *)
Theorem lists_are_newest_first :
  (forall (inputs : list (request * clock)) (r : request) (clk : clock),
      at_route "GET" "/api/comments" r = true ->
      fst (Ephemeral.fetch r clk (Ephemeral.run inputs Ephemeral.initial)) =
      Ephemeral.json_response 200
        (Ephemeral.CommentList (firstn 100 (rev (map snd (inserts inputs))))))
  /\
  (forall (inputs : list (request * clock)) (r : request) (clk : clock),
      Sorted Z.le (map (fun i => new_date (snd i)) inputs) ->
      at_route "GET" "/api/comments" r = true ->
      exists cs,
        fst (Ephemeral.fetch r clk (Ephemeral.run inputs Ephemeral.initial)) =
        Ephemeral.json_response 200 (Ephemeral.CommentList cs)
        /\ newest_first cs)
  /\
  (forall (g : D1.engine) (now_s : Z) (e : Persistent.env) (r : request)
          (clk : clock) (d : D1.database),
      at_route "GET" "/api/comments" r = true ->
      status_of (fst (Persistent.serve (D1.d1 g now_s) e r clk d)) = Some 200 ->
      exists results,
        fst (Persistent.serve (D1.d1 g now_s) e r clk d) =
        Persistent.json_response 200 (Persistent.CommentList results)
        /\ StronglySorted created_desc results).
Proof.
  split; [|split].
  - intros inputs r clk Hr. rewrite (ephemeral_fetch_get r clk _ Hr).
    cbn [fst]. now rewrite run_initial.
  - intros inputs r clk H Hr. eexists. split.
    + now rewrite ephemeral_fetch_get.
    + now apply ephemeral_newest_first.
  - intros. now apply d1_list_sorted.
Qed.

End NewestFirst.

Lemma lists_are_newest_first_witness :
  fst (Ephemeral.fetch (request_to "GET" "/api/comments" [] no_body) (at_ms 9)
         (Ephemeral.run backwards_clock Ephemeral.initial)) =
  Ephemeral.json_response 200
    (Ephemeral.CommentList (firstn 100 (rev (map snd (inserts backwards_clock)))))
  /\
  (exists cs,
      fst (Ephemeral.fetch (request_to "GET" "/api/comments" [] no_body) morning
             (Ephemeral.run three_submissions Ephemeral.initial)) =
      Ephemeral.json_response 200 (Ephemeral.CommentList cs)
      /\ newest_first cs)
  /\
  (exists results,
      fst (Persistent.serve (D1.d1 sample_engine 1793682120) sample_env
             (request_to "GET" "/api/comments" [] no_body) morning two_row_database) =
      Persistent.json_response 200 (Persistent.CommentList results)
      /\ StronglySorted created_desc results).
Proof.
  destruct lists_are_newest_first as (Rev & Eph & Per).
  split; [|split].
  - apply Rev. reflexivity.
  - apply Eph.
    + cbn. repeat constructor; lia.
    + reflexivity.
  - apply Per; reflexivity.
Defined.

(** ** Submissions *)

Section Submissions.

Import Persistent.

Lemma max_id_bound (l : list row) : Forall (fun r => id r <= D1.max_id l) l.
Proof.
  induction l as [|x l IH]; [constructor|].
  unfold D1.max_id. cbn [fold_right]. fold (D1.max_id l). constructor.
  - apply Z.le_max_l.
  - eapply Forall_impl; [|exact IH]. cbn beta. intros; lia.
Qed.

Lemma find_appended (l : list row) (x : row) :
  Forall (fun r => id r < id x) l ->
  find (fun r => id r =? id x) (l ++ [x]) = Some x.
Proof.
  induction 1 as [|y l Hy Hl IH]; cbn.
  - now rewrite Z.eqb_refl.
  - destruct (id y =? id x) eqn:E; [apply Z.eqb_eq in E; lia|assumption].
Qed.

(** INSERT of three texts into an existing table, then the lookup by the
    generated id. *)
Lemma d1_insert_then_select (g : D1.engine) (now_s : Z) (d : D1.database)
  (t : D1.table) (em c col ip ua : string) :
  D1.comments d = Some t ->
  exists i d',
    D1.d1 g now_s _ (InsertComment (Some (JStr em)) (Some (JStr c)) (JStr col) ip ua) d
    = (inr i, d')
    /\ forall now',
         D1.d1 g now' _ (SelectById i) d' =
         (inr (Some {| view_id := i;
                       view_email := VText em;
                       view_comment := VText c;
                       view_color := VText col;
                       view_timestamp := D1.current_timestamp now_s |}), d').
Proof.
  intros Ht. cbn [D1.d1 D1.to_sql]. unfold D1.on_table. rewrite Ht.
  unfold D1.insert_row. cbn [D1.is_null D1.text_affinity].
  eexists. eexists. split; [reflexivity|].
  intros now'. cbn [D1.d1]. unfold D1.on_table.
  cbn [D1.comments D1.rows D1.other_tables D1.seq].
  set (x := {| id := _ |}).
  change (find _ (D1.rows t ++ [x]))
    with (find (fun r => id r =? id x) (D1.rows t ++ [x])).
  rewrite (find_appended (D1.rows t) x).
  - reflexivity.
  - eapply Forall_impl; [|apply max_id_bound]. subst x; cbn. intros; lia.
Qed.

Lemma d1_post (g : D1.engine) (now_s : Z) (e : env) (r : request) (clk : clock)
  (d : D1.database) (data : Js.json) (em c : string) (col : option string) :
  at_route "POST" "/api/comments" r = true ->
  json r = inr data ->
  valid_submission data em c col ->
  status_of (fst (serve (D1.d1 g now_s) e r clk d)) = Some 200 ->
  exists i view,
    fst (serve (D1.d1 g now_s) e r clk d) =
    json_response 200 (Posted i "留言提交成功！" view)
    /\ (forall now',
           fst (D1.d1 g now' _ (SelectById i)
                  (db (snd (serve (D1.d1 g now_s) e r clk d)))) = inr (Some view))
    /\ view_id view = i
    /\ view_email view = VText em
    /\ view_comment view = VText c
    /\ view_color view = VText (stored_color col).
Proof.
  intros Hr Hj (He & Hc & Hcol). unfold serve.
  rewrite (persistent_fetch_post e clk r Hr). unfold post_comment.
  rewrite interp_catch, interp_bind.
  destruct (interp_ensure (D1.d1 g now_s) (boot d)) as (entry & -> & _).
  rewrite interp_bind. unfold request_json. rewrite Hj.
  assert (Hd : destructurable data = true).
  { destruct data; try reflexivity. discriminate. }
  rewrite Hd. cbn [interp ret].
  rewrite interp_bind, interp_await. rewrite He, Hc, Hcol.
  unfold boot. cbn [db console trace].
  set (d0 := snd (D1.d1 g now_s unit SchemaInit d)).
  assert (Hcolor : default_to (JStr "black") (option_map JStr col)
                   = JStr (stored_color col)).
  { now destruct col. }
  rewrite Hcolor.
  destruct (D1.comments d0) as [t|] eqn:Ht.
  - destruct (d1_insert_then_select g now_s d0 t em c (stored_color col)
                (take 16 (sha256_hex e (text_or (header_cf_connecting_ip r) "unknown")))
                (take 255 (text_or (header_user_agent r) "unknown")) Ht)
      as (i & d' & Hins & Hsel).
    rewrite Hins. cbn [fst snd]. rewrite interp_bind, interp_await. cbn [db].
    rewrite Hsel. cbn [fst snd interp ret]. intros _.
    eexists. eexists. split; [reflexivity|]. cbn [fst snd db].
    split; [|repeat split]. intros now'. now rewrite Hsel.
  - cbn [D1.d1 D1.to_sql]. unfold D1.on_table. rewrite Ht. cbn. discriminate.
Qed.

Lemma ephemeral_post (r : request) (clk : clock) (cs : list Ephemeral.Comment)
  (data : Js.json) (em c : string) (col : option string) :
  at_route "POST" "/api/comments" r = true ->
  json r = inr data ->
  valid_submission data em c col ->
  status_of (fst (Ephemeral.fetch r clk cs)) = Some 200 ->
  exists rec,
    fst (Ephemeral.fetch r clk cs) =
    Ephemeral.json_response 200 (Ephemeral.Posted (Ephemeral.id rec) "留言提交成功！")
    /\ (forall (q : request) (clk' : clock),
           at_route "GET" "/api/comments" q = true ->
           exists rest,
             fst (Ephemeral.fetch q clk' (snd (Ephemeral.fetch r clk cs))) =
             Ephemeral.json_response 200 (Ephemeral.CommentList (rec :: rest)))
    /\ Ephemeral.email rec = Some (JStr em)
    /\ Ephemeral.comment rec = Some (JStr c)
    /\ Ephemeral.color rec = JStr (stored_color col).
Proof.
  intros Hr Hj (He & Hc & Hcol).
  rewrite (ephemeral_fetch_post r clk cs Hr).
  destruct (Ephemeral.newComment r clk) as [er|rec] eqn:E; [discriminate|].
  intros _. exists rec. cbn [fst snd]. split; [reflexivity|].
  apply newComment_fields in E.
  destruct E as (data' & Hj' & _ & Hem & Hco & Hcl & _).
  rewrite Hj in Hj'. injection Hj' as <-.
  split; [|repeat split].
  - intros q clk' Hq. rewrite (ephemeral_fetch_get q clk' _ Hq).
    rewrite unshift_capped_firstn. cbn [fst firstn]. eexists. reflexivity.
  - congruence.
  - congruence.
  - rewrite Hcl, Hcol. now destruct col.
Qed.

(** C8: when a POST /api/comments with a valid body is answered with
    success, the id of the response is the id of a record that carries the
    submitted email, comment and color (the default when none was sent):
    in the in-memory worker that record is at the head of the list any
    GET /api/comments returns next; in the D1 worker it is the row a lookup
    by that id returns. *)
Theorem posted_id_is_retrievable :
  (forall (r : request) (clk : clock) (cs : list Ephemeral.Comment)
          (data : Js.json) (em c : string) (col : option string),
      at_route "POST" "/api/comments" r = true ->
      json r = inr data ->
      valid_submission data em c col ->
      status_of (fst (Ephemeral.fetch r clk cs)) = Some 200 ->
      exists rec,
        fst (Ephemeral.fetch r clk cs) =
        Ephemeral.json_response 200
          (Ephemeral.Posted (Ephemeral.id rec) "留言提交成功！")
        /\ (forall (q : request) (clk' : clock),
               at_route "GET" "/api/comments" q = true ->
               exists rest,
                 fst (Ephemeral.fetch q clk' (snd (Ephemeral.fetch r clk cs))) =
                 Ephemeral.json_response 200 (Ephemeral.CommentList (rec :: rest)))
        /\ Ephemeral.email rec = Some (JStr em)
        /\ Ephemeral.comment rec = Some (JStr c)
        /\ Ephemeral.color rec = JStr (stored_color col))
  /\
  (forall (g : D1.engine) (now_s : Z) (e : env) (r : request) (clk : clock)
          (d : D1.database) (data : Js.json) (em c : string) (col : option string),
      at_route "POST" "/api/comments" r = true ->
      json r = inr data ->
      valid_submission data em c col ->
      status_of (fst (serve (D1.d1 g now_s) e r clk d)) = Some 200 ->
      exists i view,
        fst (serve (D1.d1 g now_s) e r clk d) =
        json_response 200 (Posted i "留言提交成功！" view)
        /\ (forall now',
               fst (D1.d1 g now' _ (SelectById i)
                      (db (snd (serve (D1.d1 g now_s) e r clk d)))) = inr (Some view))
        /\ view_id view = i
        /\ view_email view = VText em
        /\ view_comment view = VText c
        /\ view_color view = VText (stored_color col)).
Proof.
  split.
  - intros. eapply ephemeral_post; eassumption.
  - intros. eapply d1_post; eassumption.
Qed.

Lemma posted_id_is_retrievable_witness :
  (exists rec,
      fst (Ephemeral.fetch (submission hello) morning []) =
      Ephemeral.json_response 200
        (Ephemeral.Posted (Ephemeral.id rec) "留言提交成功！")
      /\ (forall (q : request) (clk' : clock),
             at_route "GET" "/api/comments" q = true ->
             exists rest,
               fst (Ephemeral.fetch q clk'
                      (snd (Ephemeral.fetch (submission hello) morning []))) =
               Ephemeral.json_response 200 (Ephemeral.CommentList (rec :: rest)))
      /\ Ephemeral.email rec = Some (JStr "a@b.com")
      /\ Ephemeral.comment rec = Some (JStr "hi")
      /\ Ephemeral.color rec = JStr (stored_color (Some "red")))
  /\
  (exists i view,
      fst (serve (D1.d1 line_split_engine 1793682120) sample_env
             (submission hello) morning two_row_database) =
      json_response 200 (Posted i "留言提交成功！" view)
      /\ (forall now',
             fst (D1.d1 line_split_engine now' _ (SelectById i)
                    (db (snd (serve (D1.d1 line_split_engine 1793682120) sample_env
                                (submission hello) morning two_row_database))))
             = inr (Some view))
      /\ view_id view = i
      /\ view_email view = VText "a@b.com"
      /\ view_comment view = VText "hi"
      /\ view_color view = VText (stored_color (Some "red"))).
Proof.
  split.
  - apply (proj1 posted_id_is_retrievable (submission hello) morning [] hello);
      try reflexivity.
    repeat split.
  - apply (proj2 posted_id_is_retrievable line_split_engine 1793682120 sample_env
             (submission hello) morning two_row_database hello);
      try reflexivity.
    repeat split.
Defined.

End Submissions.

(** ** Submissions without email or comment *)

Section MissingFields.

Import Persistent.

(** C5, as stated, fails on the in-memory worker: a POST /api/comments
    whose body is the empty object is answered with success, and a record
    without email and comment is stored. *)
Lemma empty_submission_is_stored :
  Ephemeral.fetch (submission (JObj [])) morning [] =
  (Ephemeral.json_response 200 (Ephemeral.Posted 1793682120000 "留言提交成功！"),
   [ {| Ephemeral.id := 1793682120000;
        Ephemeral.email := None;
        Ephemeral.comment := None;
        Ephemeral.color := JStr "black";
        Ephemeral.timestamp := "2026-11-03T05:02:00.000Z" |} ]).
Proof. vm_compute. reflexivity. Qed.

Lemma rows_of_schema_init (g : D1.engine) (now_s : Z) (d : D1.database) :
  D1.rows_of (snd (D1.d1 g now_s unit SchemaInit d)) = D1.rows_of d.
Proof.
  cbn [D1.d1]. destruct (D1.exec_takes_script g); [|reflexivity].
  unfold D1.rows_of. cbn [snd]. now destruct (D1.comments d) eqn:E; cbn; rewrite ?E.
Qed.

Lemma d1_insert_undefined (g : D1.engine) (now_s : Z) (d : D1.database)
  (em c : value) (col : Js.json) (ip ua : string) :
  em = None \/ c = None ->
  D1.d1 g now_s _ (InsertComment em c col ip ua) d = (inl D1.type_error, d).
Proof.
  intros H. cbn [D1.d1].
  destruct H as [-> | ->]; cbn [D1.to_sql].
  - reflexivity.
  - now destruct (D1.to_sql em).
Qed.

Lemma d1_post_missing (g : D1.engine) (now_s : Z) (e : env) (r : request)
  (clk : clock) (d : D1.database) (data : Js.json) :
  at_route "POST" "/api/comments" r = true ->
  json r = inr data ->
  get_prop data "email" = None \/ get_prop data "comment" = None ->
  status_of (fst (serve (D1.d1 g now_s) e r clk d)) = Some 500
  /\ D1.rows_of (db (snd (serve (D1.d1 g now_s) e r clk d))) = D1.rows_of d.
Proof.
  intros Hr Hj Hmiss. unfold serve.
  rewrite (persistent_fetch_post e clk r Hr). unfold post_comment.
  rewrite interp_catch, interp_bind.
  destruct (interp_ensure (D1.d1 g now_s) (boot d)) as (entry & -> & _).
  rewrite interp_bind. unfold request_json. rewrite Hj.
  unfold boot. cbn [db console trace].
  destruct (destructurable data).
  - cbn [interp ret]. rewrite interp_bind, interp_await. cbn [db].
    rewrite d1_insert_undefined by assumption.
    cbn [fst snd db status_of json_response]. split; [reflexivity|].
    apply rows_of_schema_init.
  - cbn [interp throw fst snd db status_of json_response]. split; [reflexivity|].
    apply rows_of_schema_init.
Qed.

(** C5, amended: in the D1 worker a POST /api/comments whose JSON body
    lacks [email] or [comment] is answered with status 500 and leaves the
    rows of the table as they were.  The in-memory worker has no such check:
    whatever fields the (non-null) body has, the request is answered with
    success and the record is stored with the missing fields undefined. *)
Theorem missing_fields :
  (forall (g : D1.engine) (now_s : Z) (e : env) (r : request) (clk : clock)
          (d : D1.database) (data : Js.json),
      at_route "POST" "/api/comments" r = true ->
      json r = inr data ->
      get_prop data "email" = None \/ get_prop data "comment" = None ->
      status_of (fst (serve (D1.d1 g now_s) e r clk d)) = Some 500
      /\ D1.rows_of (db (snd (serve (D1.d1 g now_s) e r clk d))) = D1.rows_of d)
  /\
  (forall (r : request) (clk : clock) (cs : list Ephemeral.Comment)
          (data : Js.json) (ts : string),
      at_route "POST" "/api/comments" r = true ->
      json r = inr data ->
      destructurable data = true ->
      toISOString (new_date clk) = Some ts ->
      get_prop data "email" = None \/ get_prop data "comment" = None ->
      Ephemeral.fetch r clk cs =
      (Ephemeral.json_response 200 (Ephemeral.Posted (date_now clk) "留言提交成功！"),
       Ephemeral.unshift_capped
         {| Ephemeral.id := date_now clk;
            Ephemeral.email := get_prop data "email";
            Ephemeral.comment := get_prop data "comment";
            Ephemeral.color := default_to (JStr "black") (get_prop data "color");
            Ephemeral.timestamp := ts |} cs)).
Proof.
  split.
  - intros. eapply d1_post_missing; eassumption.
  - intros r clk cs data ts Hr Hj Hd Hts _.
    rewrite (ephemeral_fetch_post r clk cs Hr).
    unfold Ephemeral.newComment. now rewrite Hj, Hd, Hts.
Qed.

Lemma missing_fields_witness :
  (status_of (fst (serve (D1.d1 sample_engine 1793682120) sample_env
                     (submission (JObj [("comment", JStr "hi")])) morning
                     one_row_database)) = Some 500
   /\ D1.rows_of (db (snd (serve (D1.d1 sample_engine 1793682120) sample_env
                             (submission (JObj [("comment", JStr "hi")])) morning
                             one_row_database))) = D1.rows_of one_row_database)
  /\
  Ephemeral.fetch (submission (JObj [("comment", JStr "hi")])) morning [] =
  (Ephemeral.json_response 200 (Ephemeral.Posted (date_now morning) "留言提交成功！"),
   Ephemeral.unshift_capped
     {| Ephemeral.id := date_now morning;
        Ephemeral.email := get_prop (JObj [("comment", JStr "hi")]) "email";
        Ephemeral.comment := get_prop (JObj [("comment", JStr "hi")]) "comment";
        Ephemeral.color :=
          default_to (JStr "black") (get_prop (JObj [("comment", JStr "hi")]) "color");
        Ephemeral.timestamp := "2026-11-03T05:02:00.000Z" |} []).
Proof.
  split.
  - eapply (proj1 missing_fields); [reflexivity|reflexivity|left; reflexivity].
  - eapply (proj2 missing_fields);
      [reflexivity|reflexivity|reflexivity|reflexivity|left; reflexivity].
Defined.

End MissingFields.

(** ** Query parameters *)

Section QueryParameters.

Import Persistent.

(** C10: GET /api/comments sends the schema script and then one SELECT
    bound to [limit] and [offset] as parsed.  A [limit] that is absent,
    that [parseInt] reads as NaN, or that it reads as 0 becomes 100; an
    [offset] read as NaN becomes 0; a negative value of either is bound
    as it is. *)
Theorem list_parameters :
  (forall (DBS : Type) (h : binding DBS) (e : env) (r : request) (clk : clock)
          (d : DBS),
      at_route "GET" "/api/comments" r = true ->
      trace (snd (serve h e r clk d)) =
      [Issued SchemaInit; Issued (SelectPage (limit_of r) (offset_of r))])
  /\ (forall r : request,
        searchParams_get "limit" (searchParams r) = None -> limit_of r = 100)
  /\ (forall (r : request) (s : string),
        searchParams_get "limit" (searchParams r) = Some s ->
        parseInt s = None \/ parseInt s = Some 0 ->
        limit_of r = 100)
  /\ (forall r : request,
        parseInt_param (searchParams_get "offset" (searchParams r)) = None ->
        offset_of r = 0)
  /\ (forall (r : request) (s : string) (n : Z),
        searchParams_get "limit" (searchParams r) = Some s ->
        parseInt s = Some n -> n < 0 ->
        limit_of r = n)
  /\ (forall (r : request) (s : string) (n : Z),
        searchParams_get "offset" (searchParams r) = Some s ->
        parseInt s = Some n -> n < 0 ->
        offset_of r = n).
Proof.
  split; [|repeat split].
  - intros DBS h e r clk d Hr. unfold serve.
    rewrite (persistent_fetch_get e clk r Hr). unfold get_comments.
    rewrite interp_catch, interp_bind.
    destruct (interp_ensure h (boot d)) as (entry & -> & _).
    rewrite interp_bind, interp_await. cbn [db console trace boot].
    now destruct (fst (h _ (SelectPage (limit_of r) (offset_of r)) _)).
  - intros r H. unfold limit_of. now rewrite H.
  - intros r s H [P|P]; unfold limit_of; rewrite H; cbn [parseInt_param];
      now rewrite P.
  - intros r H. unfold offset_of. now rewrite H.
  - intros r s n H P Hn. unfold limit_of. rewrite H. cbn [parseInt_param].
    rewrite P. cbn [or_default]. destruct (n =? 0) eqn:E; [lia|reflexivity].
  - intros r s n H P Hn. unfold offset_of. rewrite H. cbn [parseInt_param].
    rewrite P. cbn [or_default]. destruct (n =? 0) eqn:E; [lia|reflexivity].
Qed.

Lemma list_parameters_witness :
  trace (snd (serve (D1.d1 sample_engine 1793682120) sample_env
                (request_to "GET" "/api/comments" [("limit", "0"); ("offset", "-3")]
                   no_body) morning two_row_database)) =
  [Issued SchemaInit; Issued (SelectPage 100 (-3))]
  /\ limit_of (request_to "GET" "/api/comments" [("limit", "abc")] no_body) = 100
  /\ offset_of (request_to "GET" "/api/comments" [("offset", "x1")] no_body) = 0
  /\ limit_of (request_to "GET" "/api/comments" [("limit", "-5")] no_body) = -5.
Proof.
  destruct list_parameters as (T & _ & L0 & O0 & Ln & _).
  split; [|split; [|split]].
  - apply (T D1.database (D1.d1 sample_engine 1793682120) sample_env
             (request_to "GET" "/api/comments" [("limit", "0"); ("offset", "-3")]
                no_body) morning two_row_database).
    reflexivity.
  - apply (L0 _ "abc"); [reflexivity|left; reflexivity].
  - apply O0. reflexivity.
  - apply (Ln _ "-5" (-5)); [reflexivity|reflexivity|lia].
Defined.

End QueryParameters.

(** ** Numbers as doubles *)

Section Doubles.

Lemma to_double_small (n : Z) : Z.abs n < 2 ^ 53 -> to_double n = n.
Proof.
  intros H. unfold to_double. cbv zeta.
  destruct (Z.abs n <? 2 ^ 53) eqn:E; [reflexivity|].
  apply Z.ltb_ge in E. lia.
Qed.

Lemma to_double_opp (n : Z) : to_double (- n) = - to_double n.
Proof.
  unfold to_double. cbv zeta. rewrite Z.abs_opp, Z.sgn_opp.
  destruct (Z.abs n <? 2 ^ 53); [reflexivity|]. lia.
Qed.

(** A double is at least the power of two its argument has reached. *)
Lemma to_double_pow2 (k n : Z) : 0 <= k -> 2 ^ k <= n -> 2 ^ k <= to_double n.
Proof.
  intros Hk Hn. unfold to_double. cbv zeta.
  assert (Hpos : 0 < n) by (pose proof (Z.pow_pos_nonneg 2 k); lia).
  rewrite (Z.abs_eq n), (Z.sgn_pos n) by lia.
  destruct (n <? 2 ^ 53) eqn:E; [assumption|].
  apply Z.ltb_ge in E.
  assert (Hlog : 53 <= Z.log2 n) by (apply Z.log2_le_pow2; lia).
  set (e := Z.log2 n - 52).
  assert (He : 1 <= e) by (subst e; lia).
  pose proof (Z.log2_spec n Hpos) as [Hlo Hhi].
  assert (Hk' : k <= Z.log2 n) by (apply Z.log2_le_pow2; lia).
  assert (Hsplit : 2 ^ Z.log2 n = 2 ^ 52 * 2 ^ e).
  { rewrite <- Z.pow_add_r by lia. f_equal. subst e. lia. }
  assert (H2e : 0 < 2 ^ e) by (apply Z.pow_pos_nonneg; lia).
  assert (Hq : 2 ^ 52 <= n / 2 ^ e).
  { apply Z.div_le_lower_bound; [assumption|]. lia. }
  assert (Hkl : 2 ^ k <= 2 ^ Z.log2 n) by (apply Z.pow_le_mono_r; lia).
  set (q := n / 2 ^ e) in *.
  destruct (_ || _); nia.
Qed.

(** A number of at most 53 bits shifted to the left is a double. *)
Lemma to_double_shift (k j : Z) :
  Z.abs k < 2 ^ 53 -> 0 <= j -> to_double (k * 2 ^ j) = k * 2 ^ j.
Proof.
  intros Hk Hj.
  assert (Hpos : forall k, 0 < k < 2 ^ 53 -> to_double (k * 2 ^ j) = k * 2 ^ j).
  { clear k Hk. intros k Hk. unfold to_double. cbv zeta.
    assert (H2j : 0 < 2 ^ j) by (apply Z.pow_pos_nonneg; lia).
    assert (Hn : 0 < k * 2 ^ j) by nia.
    rewrite (Z.abs_eq (k * 2 ^ j)), (Z.sgn_pos (k * 2 ^ j)) by lia.
    destruct (k * 2 ^ j <? 2 ^ 53) eqn:E; [reflexivity|].
    apply Z.ltb_ge in E.
    rewrite Z.log2_mul_pow2 by lia.
    assert (Hlk : Z.log2 k <= 52).
    { assert (Z.log2 k < 53); [|lia]. apply Z.log2_lt_pow2; lia. }
    assert (Hlog : 53 <= j + Z.log2 k).
    { rewrite <- Z.log2_mul_pow2 by lia. apply Z.log2_le_pow2; lia. }
    set (e := j + Z.log2 k - 52).
    assert (He : 1 <= e <= j) by (subst e; lia).
    assert (Hj' : 2 ^ j = 2 ^ (j - e) * 2 ^ e).
    { rewrite <- Z.pow_add_r by lia. f_equal. lia. }
    assert (H2e : 0 < 2 ^ e) by (apply Z.pow_pos_nonneg; lia).
    assert (Hmod : (k * 2 ^ j) mod 2 ^ e = 0).
    { rewrite Hj', Z.mul_assoc. apply Z.mod_mul. lia. }
    assert (Hdiv : k * 2 ^ j / 2 ^ e = k * 2 ^ (j - e)).
    { rewrite Hj', Z.mul_assoc. apply Z.div_mul. lia. }
    rewrite Hmod, Hdiv.
    assert (Hhalf : 0 < 2 ^ (e - 1)) by (apply Z.pow_pos_nonneg; lia).
    replace (2 ^ (e - 1) <? 0) with false by (symmetry; apply Z.ltb_ge; lia).
    replace (0 =? 2 ^ (e - 1)) with false by (symmetry; apply Z.eqb_neq; lia).
    cbn [orb andb]. rewrite Hj'. ring. }
  destruct (Z.lt_trichotomy k 0) as [N|[->|P]].
  - replace (k * 2 ^ j) with (- (- k * 2 ^ j)) by ring.
    rewrite to_double_opp, Hpos by lia. ring.
  - reflexivity.
  - apply Hpos. lia.
Qed.

Lemma product_exact (m : Z) :
  84375 * Z.abs m < 2 ^ 53 ->
  Js.mul (Js.mul (Js.mul (Js.mul m 24) 60) 60) 1000 = m * 86400000.
Proof.
  intros H. unfold Js.mul.
  replace (m * 24) with (3 * m * 2 ^ 3) by lia.
  rewrite to_double_shift by lia.
  replace (3 * m * 2 ^ 3 * 60) with (45 * m * 2 ^ 5) by lia.
  rewrite to_double_shift by lia.
  replace (45 * m * 2 ^ 5 * 60) with (675 * m * 2 ^ 7) by lia.
  rewrite to_double_shift by lia.
  replace (675 * m * 2 ^ 7 * 1000) with (84375 * m * 2 ^ 10) by lia.
  rewrite to_double_shift by lia.
  lia.
Qed.

Lemma product_large (m : Z) :
  2 ^ 36 <= m -> 2 ^ 59 <= Js.mul (Js.mul (Js.mul (Js.mul m 24) 60) 60) 1000.
Proof.
  intros H. unfold Js.mul.
  assert (H1 : 2 ^ 40 <= to_double (m * 24)) by (apply to_double_pow2; lia).
  assert (H2 : 2 ^ 45 <= to_double (to_double (m * 24) * 60))
    by (apply to_double_pow2; lia).
  assert (H3 : 2 ^ 50 <= to_double (to_double (to_double (m * 24) * 60) * 60))
    by (apply to_double_pow2; lia).
  apply to_double_pow2; lia.
Qed.

Lemma to_double_far (n : Z) : 2 ^ 53 <= Z.abs n -> 2 ^ 53 <= Z.abs (to_double n).
Proof.
  intros H. destruct (Z_le_dec 0 n) as [P|N].
  - rewrite Z.abs_eq in H by lia.
    pose proof (to_double_pow2 53 n ltac:(lia) H). lia.
  - rewrite Z.abs_neq in H by lia.
    pose proof (to_double_pow2 53 (- n) ltac:(lia) H) as K.
    rewrite to_double_opp in K. lia.
Qed.

End Doubles.

(** ** Cleanup by age *)

Section Cleanup.

Import Persistent.


Lemma invalid_cutoff (t : Z) : max_time < Z.abs t -> toISOString t = None.
Proof.
  intros H. unfold toISOString, time_clip.
  destruct (Z.abs t >? max_time) eqn:E; [reflexivity|].
  rewrite Z.gtb_ltb in E. apply Z.ltb_ge in E. lia.
Qed.

(** Line 209 in exact arithmetic: while the product and the difference stay
    below 2^53 nothing is rounded. *)
Lemma cutoff_exact (r : request) (clk : clock) :
  84375 * Z.abs (maxAge_of r) < 2 ^ 53 ->
  Z.abs (date_now clk - maxAge_of r * 86400000) < 2 ^ 53 ->
  cutoff_ms r clk = date_now clk - maxAge_of r * 86400000.
Proof.
  intros Hm Hv. unfold cutoff_ms, Js.sub.
  rewrite product_exact by assumption. now apply to_double_small.
Qed.

(** An age whose exact cutoff lies before the range of [Date] has no cutoff
    text, rounded or not. *)
Lemma cutoff_out_of_range (r : request) (clk : clock) :
  Z.abs (date_now clk) <= max_time ->
  max_time < maxAge_of r * 86400000 - date_now clk ->
  toISOString (cutoff_ms r clk) = None.
Proof.
  unfold max_time. intros Hnow Hbig. apply invalid_cutoff. unfold max_time.
  destruct (Z_lt_dec (84375 * Z.abs (maxAge_of r)) (2 ^ 53)) as [S|L].
  - unfold cutoff_ms, Js.sub. rewrite product_exact by assumption.
    destruct (Z_lt_dec (Z.abs (date_now clk - maxAge_of r * 86400000)) (2 ^ 53))
      as [S'|L'].
    + rewrite to_double_small by assumption. lia.
    + pose proof (to_double_far (date_now clk - maxAge_of r * 86400000)). lia.
  - assert (Hm : 2 ^ 36 <= maxAge_of r) by lia.
    pose proof (product_large (maxAge_of r) Hm) as Hp.
    unfold cutoff_ms, Js.sub.
    set (p := Js.mul _ 1000) in *.
    pose proof (to_double_far (date_now clk - p)). lia.
Qed.

Lemma valid_cutoff (t : Z) :
  Z.abs t <= max_time -> exists cutoff, toISOString t = Some cutoff.
Proof.
  intros H. unfold toISOString, time_clip.
  destruct (Z.abs t >? max_time) eqn:E.
  - rewrite Z.gtb_ltb in E. apply Z.ltb_lt in E. lia.
  - destruct (civil_from_days (t / 86400000)) as [[y m] d]. eexists. reflexivity.
Qed.

(** What the handler does with a cutoff that has a text: one DELETE bound to
    it, answered by the database with the rows it took. *)
Lemma cleanup_on_table (g : D1.engine) (now_s : Z) (e : env) (r : request)
  (clk : clock) (d : D1.database) (t : D1.table) (cutoff : string) :
  at_route "POST" "/api/comments/cleanup" r = true ->
  D1.comments d = Some t ->
  toISOString (cutoff_ms r clk) = Some cutoff ->
  serve (D1.d1 g now_s) e r clk d =
  (json_response 200
     (Cleaned (D1.rows_written g
                 (List.length (filter (D1.older_than cutoff) (D1.rows t))))
        (maxAge_of r)),
   {| db := {| D1.comments :=
                 Some {| D1.rows :=
                           filter (fun x => negb (D1.older_than cutoff x))
                             (D1.rows t);
                         D1.seq := D1.seq t |};
               D1.other_tables := D1.other_tables d |};
      console := [];
      trace := [Issued (DeleteOlder cutoff)] |}).
Proof.
  intros Hr Ht Hc. unfold serve.
  rewrite (persistent_fetch_cleanup e clk r Hr). unfold cleanup.
  rewrite Hc, interp_catch, interp_bind, interp_await.
  unfold boot. cbn [db console trace D1.d1].
  unfold D1.on_table. rewrite Ht. reflexivity.
Qed.

(** The cutoff of 2026-11-02T05:02:00Z takes the row of 05:00:00 of that
    day and keeps the row of the day after; it also takes the row of
    23:59:59 of that day, which [created_at < ?] places below the cutoff
    because the stored text goes on with a space where the bound text goes
    on with a [T]. *)
Lemma cleanup_of_the_cutoff_day :
  D1.rows_of
    (db (snd (serve (D1.d1 sample_engine 1793682120) sample_env
                (request_to "POST" "/api/comments/cleanup" [("days", "1")] no_body)
                morning three_row_database))) = [morning_row].
Proof. reflexivity. Qed.



End Cleanup.

(** ** What every handler does *)

Section Handlers.

Import Persistent.

Lemma sends_pbind {A B : Type} (P : forall R : Type, stmt R -> Prop)
  (p : prog A) (f : A -> prog B) :
  sends P p -> (forall a, sends P (f a)) -> sends P (pbind p f).
Proof.
  intros Hp Hf. induction p as [a|R s k IH|l t er k IH]; cbn [pbind sends] in *.
  - apply Hf.
  - destruct Hp as [Hs Hk]. split; [assumption|]. intros r. apply IH, Hk.
  - now apply IH.
Qed.

Lemma sends_bind {A B : Type} (P : forall R : Type, stmt R -> Prop)
  (m : attempt A) (f : A -> attempt B) :
  sends P m -> (forall a, sends P (f a)) -> sends P (bind m f).
Proof.
  intros Hm Hf. apply sends_pbind; [assumption|]. intros [er|a]; [exact I|apply Hf].
Qed.

Lemma sends_catch {A : Type} (P : forall R : Type, stmt R -> Prop)
  (b : attempt A) (handler : string -> A) :
  sends P b -> sends P (catch b handler).
Proof.
  intros Hb. apply sends_pbind; [assumption|]. now intros [er|a].
Qed.

Lemma yields_pbind {A B : Type} (Q : B -> Prop) (p : prog A) (f : A -> prog B) :
  yields (fun a => yields Q (f a)) p -> yields Q (pbind p f).
Proof.
  induction p as [a|R s k IH|l t er k IH]; cbn [pbind yields]; auto.
Qed.

Lemma yields_weaken {A : Type} (Q Q' : A -> Prop) (p : prog A) :
  (forall a, Q a -> Q' a) -> yields Q p -> yields Q' p.
Proof.
  intros H. induction p as [a|R s k IH|l t er k IH]; cbn [yields]; auto.
Qed.

(** A [try] block whose normal results all satisfy [Q], under a [catch]
    whose results all satisfy [Q]. *)
Lemma yields_catch {A : Type} (Q : A -> Prop) (b : attempt A) (handler : string -> A) :
  (forall er, Q (handler er)) ->
  yields (fun r => match r with inl _ => True | inr a => Q a end) b ->
  yields Q (catch b handler).
Proof.
  intros Hh Hb. apply yields_pbind.
  eapply yields_weaken; [|exact Hb]. intros [er|a]; cbn [yields]; auto.
Qed.

Lemma yields_bind {A B : Type} (Q : string + B -> Prop)
  (m : attempt A) (f : A -> attempt B) :
  (forall er, Q (inl er)) ->
  yields (fun r => match r with inl _ => True | inr a => yields Q (f a) end) m ->
  yields Q (bind m f).
Proof.
  intros He Hm. apply yields_pbind.
  eapply yields_weaken; [|exact Hm]. intros [er|a]; cbn [yields]; auto.
Qed.

Context {DBS : Type} (h : binding DBS).

Lemma interp_yields {A : Type} (Q : A -> Prop) (p : prog A) (w : world DBS) :
  yields Q p -> Q (fst (interp h p w)).
Proof.
  revert w. induction p as [a|R s k IH|l t er k IH]; intros w Hp; cbn [interp yields] in *.
  - exact Hp.
  - destruct (h R s (db w)) as [r d]. apply IH, Hp.
  - now apply IH.
Qed.

(** A relation between database states that every statement a handler can
    send respects is respected by the handler. *)
Lemma interp_related {A : Type} (P : forall R : Type, stmt R -> Prop)
  (rel : DBS -> DBS -> Prop) (p : prog A) (w : world DBS) :
  (forall d, rel d d) ->
  (forall a b c, rel a b -> rel b c -> rel a c) ->
  (forall R (s : stmt R) d, P R s -> rel d (snd (h R s d))) ->
  sends P p ->
  rel (db w) (db (snd (interp h p w))).
Proof.
  intros Hrefl Htrans Hstep. revert w.
  induction p as [a|R s k IH|l t er k IH]; intros w Hp; cbn [interp sends] in *.
  - apply Hrefl.
  - destruct Hp as [Hs Hk]. specialize (Hstep R s (db w) Hs).
    destruct (h R s (db w)) as [r d]. cbn [snd] in Hstep.
    eapply Htrans; [exact Hstep|].
    exact (IH r {| db := d; console := console w; trace := trace w ++ [Issued s] |} (Hk r)).
  - exact (IH {| db := db w; console := console w ++ [(l, t, er)]; trace := trace w |} Hp).
Qed.

End Handlers.

(** ** Every request is answered *)

Section Answers.

Import Persistent.

Ltac leaf :=
  first
    [ exact I
    | split; [cbn [In]; auto 10 | first [left; reflexivity | right; reflexivity]] ].

Ltac walk :=
  repeat
    (unfold bind, catch, await, ret, throw, ensureDatabaseInitialized,
       now_iso, request_json;
     cbn [yields pbind];
     intros;
     try match goal with
         | |- context [match ?x with _ => _ end] => destruct x
         end).

Lemma fetch_yields (e : env) (r : request) (clk : clock) :
  yields (responds corsHeaders [200; 400; 404; 500]) (fetch e r clk).
Proof.
  unfold fetch.
  destruct (String.eqb (method r) "OPTIONS"); [cbn [yields responds]; leaf|].
  destruct (String.eqb (pathname r) "/health");
    [unfold health; walk; cbn [responds json_response]; leaf|].
  destruct (String.eqb (pathname r) "/api/comments" && String.eqb (method r) "GET");
    [unfold get_comments; walk; cbn [responds json_response]; leaf|].
  destruct (String.eqb (pathname r) "/api/comments" && String.eqb (method r) "POST");
    [unfold post_comment; walk; cbn [responds json_response]; leaf|].
  destruct (String.eqb (pathname r) "/api/comments" && String.eqb (method r) "DELETE");
    [unfold delete_comment; walk; cbn [responds json_response]; leaf|].
  destruct (String.eqb (pathname r) "/api/comments/cleanup" && String.eqb (method r) "POST");
    [unfold cleanup; walk; cbn [responds json_response]; leaf|].
  destruct (String.eqb (pathname r) "/admin/db-info");
    [unfold db_info; walk; cbn [responds json_response]; leaf|].
  cbn [yields responds json_response]. leaf.
Qed.

Ltac not_404 :=
  walk;
  match goal with
  | K : status_of _ = Some 404 |- _ => discriminate K
  end.

Lemma fetch_404_fell_through (e : env) (r : request) (clk : clock) :
  yields (fun o => status_of o = Some 404 -> fell_through r) (fetch e r clk).
Proof.
  unfold fetch, fell_through, is_options, at_path, at_route.
  destruct (String.eqb (method r) "OPTIONS");
    [cbn [yields status_of]; intros K; discriminate K|].
  destruct (String.eqb (pathname r) "/health"); [unfold health; not_404|].
  destruct (String.eqb (pathname r) "/api/comments" && String.eqb (method r) "GET");
    [unfold get_comments; not_404|].
  destruct (String.eqb (pathname r) "/api/comments" && String.eqb (method r) "POST");
    [unfold post_comment; not_404|].
  destruct (String.eqb (pathname r) "/api/comments" && String.eqb (method r) "DELETE");
    [unfold delete_comment; not_404|].
  destruct (String.eqb (pathname r) "/api/comments/cleanup" && String.eqb (method r) "POST");
    [unfold cleanup; not_404|].
  destruct (String.eqb (pathname r) "/admin/db-info");
    [unfold db_info; not_404|].
  cbn [yields]. intros _. repeat split.
Qed.

End Answers.

(** ** Requests that match no route *)

Section Routes.

Import Persistent.

Lemma spec_route_ephemeral_false (m p : string) :
  spec_route_ephemeral m p = false ->
  String.eqb m "OPTIONS" = false
  /\ String.eqb p "/api/comments" && String.eqb m "GET" = false
  /\ String.eqb p "/api/comments" && String.eqb m "POST" = false.
Proof.
  unfold spec_route_ephemeral. intros H.
  repeat (apply orb_false_iff in H; destruct H as [H ?]).
  split; [assumption|split; now rewrite andb_comm].
Qed.

Lemma spec_route_persistent_false (m p : string) :
  spec_route_persistent m p = false ->
  spec_route_ephemeral m p = false
  /\ String.eqb p "/api/comments" && String.eqb m "DELETE" = false
  /\ String.eqb p "/api/comments/cleanup" && String.eqb m "POST" = false.
Proof.
  unfold spec_route_persistent. intros H.
  do 3 (apply orb_false_iff in H; destruct H as [H ?]).
  split; [assumption|split; now rewrite andb_comm].
Qed.

Lemma fell_through_no_route (r : request) :
  fell_through r -> spec_route_persistent (method r) (pathname r) = false.
Proof.
  unfold fell_through, is_options, at_path, at_route.
  intros (O & H & G & P & D & C & I).
  unfold spec_route_persistent, spec_route_ephemeral.
  rewrite O, H, I, !andb_false_r.
  rewrite (andb_comm (String.eqb (method r) "GET")), G.
  rewrite (andb_comm (String.eqb (method r) "POST") (String.eqb (pathname r) "/api/comments")), P.
  rewrite (andb_comm (String.eqb (method r) "DELETE")), D.
  rewrite (andb_comm (String.eqb (method r) "POST")), C.
  reflexivity.
Qed.

(** C9, as stated, fails twice.  The body of the 404 carries the message of
    the source, not [endpoint not found]; and DELETE /health, which is no
    route of the specification, is answered by the health handler with
    status 200 in both workers, as POST /admin/db-info is by the D1 worker,
    because [fetch] tests these two paths without the method. *)
Lemma unrouted_requests_as_served :
  let nowhere :=
    fst (Ephemeral.fetch (request_to "GET" "/nowhere" [] no_body) morning []) in
  (spec_route_ephemeral "GET" "/nowhere" = false
   /\ status_of nowhere = Some 404
   /\ body_of nowhere <> Some (Ephemeral.Error "endpoint not found"))
  /\ (spec_route_ephemeral "DELETE" "/health" = false
      /\ status_of
           (fst (Ephemeral.fetch (request_to "DELETE" "/health" [] no_body) morning []))
         = Some 200)
  /\ (spec_route_persistent "DELETE" "/health" = false
      /\ status_of
           (fst (serve (D1.d1 line_split_engine 1793682120) sample_env
                   (request_to "DELETE" "/health" [] no_body) morning
                   two_row_database))
         = Some 200)
  /\ (spec_route_persistent "POST" "/admin/db-info" = false
      /\ status_of
           (fst (serve (D1.d1 line_split_engine 1793682120) sample_env
                   (request_to "POST" "/admin/db-info" [] no_body) morning
                   two_row_database))
         = Some 200).
Proof. vm_compute. repeat split; discriminate. Qed.

(** C9, amended.  A request whose method and path match no route of the
    specification and whose path is not [/health] (nor, in the D1 worker,
    [/admin/db-info]) is answered by both workers with status 404 and the
    JSON body [{"error": "未找到 API 端点"}], the in-memory list left as it
    is and no call made on the database; and no request that matches a route
    is answered with 404. *)
Theorem unmatched_route_404 :
  (forall (r : request) (clk : clock) (cs : list Ephemeral.Comment),
      spec_route_ephemeral (method r) (pathname r) = false ->
      pathname r <> "/health" ->
      Ephemeral.fetch r clk cs =
      (Ephemeral.json_response 404 (Ephemeral.Error "未找到 API 端点"), cs))
  /\
  (forall (r : request) (clk : clock) (cs : list Ephemeral.Comment),
      status_of (fst (Ephemeral.fetch r clk cs)) = Some 404 ->
      spec_route_ephemeral (method r) (pathname r) = false)
  /\
  (forall (DBS : Type) (h : binding DBS) (e : env) (r : request) (clk : clock)
          (d : DBS),
      spec_route_persistent (method r) (pathname r) = false ->
      pathname r <> "/health" ->
      pathname r <> "/admin/db-info" ->
      serve h e r clk d =
      (json_response 404 (Error "未找到 API 端点"), boot d))
  /\
  (forall (DBS : Type) (h : binding DBS) (e : env) (r : request) (clk : clock)
          (d : DBS),
      status_of (fst (serve h e r clk d)) = Some 404 ->
      spec_route_persistent (method r) (pathname r) = false).
Proof.
  split; [|split; [|split]].
  - intros r clk cs Hs Hh.
    apply spec_route_ephemeral_false in Hs. destruct Hs as (O & G & P).
    apply String.eqb_neq in Hh.
    now apply ephemeral_fetch_unmatched.
  - intros r clk cs. unfold Ephemeral.fetch, spec_route_ephemeral.
    destruct (String.eqb (method r) "OPTIONS"); [discriminate|].
    destruct (String.eqb (pathname r) "/health").
    + destruct (toISOString (new_date clk)); discriminate.
    + rewrite andb_false_r.
      rewrite (andb_comm (String.eqb (method r) "GET")).
      rewrite (andb_comm (String.eqb (method r) "POST")).
      destruct (String.eqb (pathname r) "/api/comments" && String.eqb (method r) "GET");
        [discriminate|].
      destruct (String.eqb (pathname r) "/api/comments" && String.eqb (method r) "POST");
        [|reflexivity].
      destruct (Ephemeral.newComment r clk); discriminate.
  - intros DBS h e r clk d Hs Hh Hi.
    apply spec_route_persistent_false in Hs. destruct Hs as (Hs & D & C).
    apply spec_route_ephemeral_false in Hs. destruct Hs as (O & G & P).
    apply String.eqb_neq in Hh, Hi.
    unfold serve. now rewrite persistent_fetch_unmatched.
  - intros DBS h e r clk d H.
    apply fell_through_no_route. revert H. unfold serve.
    apply (interp_yields h (fun o => status_of o = Some 404 -> fell_through r)).
    apply fetch_404_fell_through.
Qed.

Lemma unmatched_route_404_witness :
  Ephemeral.fetch (request_to "DELETE" "/api/comments" [] no_body) morning [] =
  (Ephemeral.json_response 404 (Ephemeral.Error "未找到 API 端点"), [])
  /\ spec_route_ephemeral "GET" "/nowhere" = false
  /\ serve (D1.d1 line_split_engine 1793682120) sample_env
       (request_to "PUT" "/api/comments" [] no_body) morning two_row_database =
     (json_response 404 (Error "未找到 API 端点"), boot two_row_database)
  /\ spec_route_persistent "GET" "/api/comment" = false.
Proof.
  destruct unmatched_route_404 as (E1 & E2 & P1 & P2).
  split; [|split; [|split]].
  - apply E1; [reflexivity|discriminate].
  - apply (E2 (request_to "GET" "/nowhere" [] no_body) morning []). reflexivity.
  - apply P1; [reflexivity|discriminate|discriminate].
  - apply (P2 D1.database (D1.d1 line_split_engine 1793682120) sample_env
             (request_to "GET" "/api/comment" [] no_body) morning two_row_database).
    reflexivity.
Defined.

End Routes.

(** ** Statements on the table *)

Section Statements.

Import Persistent.

Context (g : D1.engine) (now_s : Z).

Lemma on_table_rows {R : Type} (d : D1.database)
  (f : D1.table -> (string + R) * D1.table) :
  (forall t, D1.rows (snd (f t)) = D1.rows t) ->
  D1.rows_of (snd (D1.on_table d f)) = D1.rows_of d.
Proof.
  intros H. unfold D1.on_table, D1.rows_of.
  destruct (D1.comments d) as [t|] eqn:E; cbn [snd].
  - specialize (H t). destruct (f t) as [r t']. cbn [snd D1.comments] in *. exact H.
  - now rewrite E.
Qed.

(** The schema script and the SELECTs leave the rows as they are. *)
Lemma d1_reads_keep_rows (R : Type) (s : stmt R) (d : D1.database) :
  reads R s -> D1.rows_of (snd (D1.d1 g now_s R s d)) = D1.rows_of d.
Proof.
  destruct s; cbn [reads]; intros H; try contradiction;
    try (cbn [D1.d1]; now apply on_table_rows).
  - apply rows_of_schema_init.
  - cbn [D1.d1]. destruct (D1.fits_int64 limit && D1.fits_int64 offset);
      [now apply on_table_rows|reflexivity].
  - reflexivity.
Qed.

(** What an INSERT answers, and what it leaves. *)
Lemma d1_insert_result (d : D1.database) (em c : Js.value) (col : Js.json)
  (ip ua : string) :
  match D1.d1 g now_s _ (InsertComment em c col ip ua) d with
  | (inl _, d') => d' = d
  | (inr i, d') =>
      exists t e0 c0 col0,
        D1.comments d = Some t
        /\ D1.to_sql em = Some e0
        /\ D1.to_sql c = Some c0
        /\ D1.to_sql (Some col) = Some col0
        /\ i = Z.max (D1.seq t) (D1.max_id (D1.rows t)) + 1
        /\ d' = {| D1.comments :=
                     Some {| D1.rows :=
                               D1.rows t ++
                               [ {| id := i;
                                    email := D1.text_affinity g e0;
                                    comment := D1.text_affinity g c0;
                                    color := D1.text_affinity g col0;
                                    created_at := D1.current_timestamp now_s;
                                    ip_hash := ip;
                                    user_agent := ua |} ];
                             D1.seq := i |};
                   D1.other_tables := D1.other_tables d |}
  end.
Proof.
  cbn [D1.d1].
  destruct (D1.to_sql em) as [e0|]; [|reflexivity].
  destruct (D1.to_sql c) as [c0|]; [|reflexivity].
  destruct (D1.to_sql (Some col)) as [col0|]; [|reflexivity].
  unfold D1.on_table. destruct (D1.comments d) as [t|] eqn:Ht; [|reflexivity].
  unfold D1.insert_row.
  destruct (D1.is_null e0); [now destruct d; cbn in *; subst|].
  destruct (D1.is_null c0); [now destruct d; cbn in *; subst|].
  exists t, e0, c0, col0. repeat split.
Qed.

(** The lookup of a key that exceeds every key the table held before the
    row was appended. *)
Lemma d1_select_appended (d : D1.database) (t : D1.table) (x : row) (now' : Z) :
  id x = Z.max (D1.seq t) (D1.max_id (D1.rows t)) + 1 ->
  D1.comments d = Some {| D1.rows := D1.rows t ++ [x]; D1.seq := id x |} ->
  D1.d1 g now' _ (SelectById (id x)) d = (inr (Some (view_of x)), d).
Proof.
  intros Hid Hd. cbn [D1.d1]. unfold D1.on_table. rewrite Hd.
  cbn [D1.rows D1.seq]. rewrite find_appended.
  - destruct d; cbn in *; now subst.
  - eapply Forall_impl; [|apply max_id_bound]. cbn beta. intros; lia.
Qed.

Lemma filter_all {A : Type} (f : A -> bool) (l : list A) :
  Forall (fun x => f x = true) l -> filter f l = l.
Proof. induction 1 as [|x l Hx Hl IH]; cbn; [reflexivity|]. now rewrite Hx, IH. Qed.

Lemma filter_none {A : Type} (f : A -> bool) (l : list A) :
  Forall (fun x => f x = false) l -> filter f l = [].
Proof. induction 1 as [|x l Hx Hl IH]; cbn; [reflexivity|]. now rewrite Hx. Qed.

(** Every statement keeps the keys distinct and under the counter. *)
Lemma d1_keys_ok (R : Type) (s : stmt R) (d : D1.database) :
  keys_ok d -> keys_ok (snd (D1.d1 g now_s R s d)).
Proof.
  intros K.
  assert (Hfilter : forall p, keys_ok (snd (D1.on_table d (D1.delete_where g p)))).
  { intros p. unfold D1.on_table, keys_ok in *.
    destruct (D1.comments d) as [t|] eqn:E; cbn [snd D1.delete_where D1.comments];
      [|now rewrite E].
    cbn [D1.rows D1.seq]. destruct K as [Kd Kb]. split.
    - clear Kb. induction (D1.rows t) as [|x l IH]; cbn; [constructor|].
      inversion Kd as [|? ? Hin Hl]; subst.
      destruct (negb (p x)); cbn [map]; [|now apply IH].
      constructor; [|now apply IH].
      intros Hx. apply Hin. apply in_map_iff in Hx. destruct Hx as (y & Hy & Hyin).
      apply filter_In in Hyin. apply in_map_iff. exists y. tauto.
    - apply Forall_forall. intros x Hx. apply filter_In in Hx.
      rewrite Forall_forall in Kb. now apply Kb. }
  assert (Hsame : forall (f : D1.table -> (string + R) * D1.table),
             (forall t, snd (f t) = t) -> keys_ok (snd (D1.on_table d f))).
  { intros f Hf. unfold D1.on_table, keys_ok in *.
    destruct (D1.comments d) as [t|] eqn:E; cbn [snd]; [|now rewrite E].
    specialize (Hf t). destruct (f t) as [r t']. cbn [snd D1.comments] in *. now subst. }
  destruct s as [| |lim off|em c col ip ua|i0|j|cut| |];
    cbn [D1.d1]; try (now apply Hsame); try exact K.
  - destruct (D1.exec_takes_script g); [|exact K]. cbn [snd].
    unfold keys_ok in *. destruct (D1.comments d) eqn:E; [now rewrite E|].
    cbn. split; constructor.
  - destruct (D1.fits_int64 lim && D1.fits_int64 off); [now apply Hsame|exact K].
  - pose proof (d1_insert_result d em c col ip ua) as H.
    cbn [D1.d1] in H.
    destruct (match D1.to_sql em with Some _ => _ | None => _ end) as [[er|i] d'].
    + cbn [snd]. now subst.
    + destruct H as (t & e0 & c0 & col0 & Ht & _ & _ & _ & Hi & ->).
      cbn [snd]. unfold keys_ok in *. rewrite Ht in K. destruct K as [Kd Kb].
      cbn [D1.comments D1.rows D1.seq].
      assert (Hlt : Forall (fun r => Persistent.id r < i) (D1.rows t)).
      { eapply Forall_impl; [|exact Kb]. cbn beta. intros; lia. }
      split.
      * rewrite map_app. cbn [map Persistent.id].
        apply NoDup_rev in Kd. rewrite <- (rev_involutive (map _ _ ++ [i])).
        apply NoDup_rev. rewrite rev_app_distr. cbn [rev app].
        constructor; [|assumption].
        intros Hin. apply in_rev, in_map_iff in Hin. destruct Hin as (y & Hy & Hyin).
        rewrite Forall_forall in Hlt. specialize (Hlt y Hyin). lia.
      * apply Forall_app. split.
        -- eapply Forall_impl; [|exact Hlt]. cbn beta. intros; lia.
        -- repeat constructor. cbn. lia.
  - destruct (D1.to_sql (Some j)); [apply Hfilter|exact K].
  - apply Hfilter.
Qed.

(** No statement lowers the counter or drops the table. *)
Lemma d1_counter_le (R : Type) (s : stmt R) (d : D1.database) :
  counter_le d (snd (D1.d1 g now_s R s d)).
Proof.
  assert (Hsame : forall (f : D1.table -> (string + R) * D1.table),
             (forall t, D1.seq (snd (f t)) = D1.seq t) ->
             counter_le d (snd (D1.on_table d f))).
  { intros f Hf t Ht. unfold D1.on_table. rewrite Ht.
    specialize (Hf t). destruct (f t) as [r t']. cbn [snd D1.comments] in *.
    exists t'. split; [reflexivity|lia]. }
  assert (Hrefl : counter_le d d).
  { intros t Ht. exists t. split; [assumption|lia]. }
  destruct s as [| |lim off|em c col ip ua|i0|j|cut| |];
    cbn [D1.d1]; try (now apply Hsame); try exact Hrefl.
  - destruct (D1.exec_takes_script g); [|exact Hrefl]. cbn [snd].
    intros t Ht. rewrite Ht. exists t. split; [assumption|lia].
  - destruct (D1.fits_int64 lim && D1.fits_int64 off); [now apply Hsame|exact Hrefl].
  - pose proof (d1_insert_result d em c col ip ua) as H.
    cbn [D1.d1] in H.
    destruct (match D1.to_sql em with Some _ => _ | None => _ end) as [[er|i] d'].
    + cbn [snd]. now subst.
    + destruct H as (t & e0 & c0 & col0 & Ht & _ & _ & _ & Hi & ->).
      cbn [snd]. intros t0 Ht0. rewrite Ht in Ht0. injection Ht0 as <-.
      eexists. split; [reflexivity|]. cbn [D1.seq]. lia.
  - destruct (D1.to_sql (Some j)); [now apply Hsame|exact Hrefl].
Qed.

End Statements.

(** ** The POST handler on the table *)

Section Posting.

Import Persistent.

Context (g : D1.engine) (now_s : Z) (e : env).

(** A POST /api/comments either appends one row and answers with its key,
    or answers 500 and leaves the database as the schema script left it. *)
Lemma d1_post_cases (r : request) (clk : clock) (d : D1.database) :
  at_route "POST" "/api/comments" r = true ->
  let d0 := snd (D1.d1 g now_s unit SchemaInit d) in
  let out := serve (D1.d1 g now_s) e r clk d in
  (exists data t e0 c0 col0,
      json r = inr data
      /\ D1.comments d0 = Some t
      /\ D1.to_sql (Js.get_prop data "email") = Some e0
      /\ D1.to_sql (Js.get_prop data "comment") = Some c0
      /\ D1.to_sql (Some (Js.default_to (Js.JStr "black") (Js.get_prop data "color")))
         = Some col0
      /\ let i := Z.max (D1.seq t) (D1.max_id (D1.rows t)) + 1 in
         let x := posted_row g e r now_s i e0 c0 col0 in
         fst out = json_response 200 (Posted i "留言提交成功！" (view_of x))
         /\ db (snd out) =
            {| D1.comments := Some {| D1.rows := D1.rows t ++ [x]; D1.seq := i |};
               D1.other_tables := D1.other_tables d0 |})
  \/ ((exists msg, fst out = json_response 500 (PostFailed "提交失败" msg))
      /\ db (snd out) = d0).
Proof.
  intros Hr d0 out. subst out. unfold serve.
  rewrite (persistent_fetch_post e clk r Hr). unfold post_comment.
  rewrite interp_catch, interp_bind.
  destruct (interp_ensure (D1.d1 g now_s) (boot d)) as (entry & -> & _).
  unfold boot. cbn [db console trace]. fold d0.
  rewrite interp_bind. unfold request_json.
  destruct (json r) as [msg|data] eqn:Hj.
  { right. cbn [interp throw fst snd db]. split; [now exists msg|reflexivity]. }
  destruct (Js.destructurable data).
  2:{ right. cbn [interp throw fst snd db]. split; [eexists; reflexivity|reflexivity]. }
  cbn [interp ret]. rewrite interp_bind, interp_await. cbn [db console trace].
  pose proof (d1_insert_result g now_s d0 (Js.get_prop data "email")
                (Js.get_prop data "comment")
                (Js.default_to (Js.JStr "black") (Js.get_prop data "color"))
                (Js.take 16 (sha256_hex e (Js.text_or (header_cf_connecting_ip r) "unknown")))
                (Js.take 255 (Js.text_or (header_user_agent r) "unknown"))) as H.
  destruct (D1.d1 g now_s Z _ d0) as [[er|i] d'].
  { right. cbn [fst snd db]. split; [eexists; reflexivity|assumption]. }
  destruct H as (t & e0 & c0 & col0 & Ht & He & Hc & Hcol & Hi & Hd').
  left. exists data, t, e0, c0, col0. split; [reflexivity|].
  cbn [fst snd]. rewrite interp_bind, interp_await. cbn [db console trace].
  cbn zeta. rewrite <- Hi.
  change {| id := i; email := _; comment := _; color := _; created_at := _;
            ip_hash := _; user_agent := _ |}
    with (posted_row g e r now_s i e0 c0 col0) in Hd'.
  set (x := posted_row g e r now_s i e0 c0 col0) in *.
  assert (Hsel : D1.d1 g now_s _ (SelectById i) d' = (inr (Some (view_of x)), d')).
  { apply (d1_select_appended g d' t x now_s); [exact Hi|]. rewrite Hd'. reflexivity. }
  rewrite Hsel. cbn [fst snd interp ret db]. repeat split; assumption.
Qed.

End Posting.

(** ** The table across requests *)

Section AcrossRequests.

Import Persistent.

Context (g : D1.engine) (e : env).

Lemma sends_anything {A : Type} (p : prog A) : sends (fun _ _ => True) p.
Proof. induction p as [a|R s k IH|l t er k IH]; cbn [sends]; auto. Qed.

Lemma serve_keys_ok (now_s : Z) (r : request) (clk : clock) (d : D1.database) :
  keys_ok d -> keys_ok (db (snd (serve (D1.d1 g now_s) e r clk d))).
Proof.
  unfold serve.
  apply (interp_related (D1.d1 g now_s) (fun _ _ => True)
           (fun a b => keys_ok a -> keys_ok b) (fetch e r clk) (boot d)); auto.
  - intros R s d0 _. apply d1_keys_ok.
  - apply sends_anything.
Qed.

Lemma counter_le_trans (a b c : D1.database) :
  counter_le a b -> counter_le b c -> counter_le a c.
Proof.
  intros Hab Hbc t Ht. destruct (Hab t Ht) as (t1 & Ht1 & H1).
  destruct (Hbc t1 Ht1) as (t2 & Ht2 & H2). exists t2. split; [assumption|lia].
Qed.

Lemma counter_le_refl (a : D1.database) : counter_le a a.
Proof. intros t Ht. exists t. split; [assumption|lia]. Qed.

Lemma serve_counter_le (now_s : Z) (r : request) (clk : clock) (d : D1.database) :
  counter_le d (db (snd (serve (D1.d1 g now_s) e r clk d))).
Proof.
  unfold serve.
  apply (interp_related (D1.d1 g now_s) (fun _ _ => True) counter_le
           (fetch e r clk) (boot d)).
  - apply counter_le_refl.
  - apply counter_le_trans.
  - intros R s d0 _. apply d1_counter_le.
  - apply sends_anything.
Qed.

Lemma serve_all_keys_ok (inputs : list (request * clock * Z)) (d : D1.database) :
  keys_ok d -> keys_ok (serve_all g e inputs d).
Proof.
  revert d. induction inputs as [|[[r clk] now_s] rest IH]; intros d K; cbn [serve_all].
  - exact K.
  - apply IH. now apply serve_keys_ok.
Qed.

Lemma serve_all_counter_le (inputs : list (request * clock * Z)) (d : D1.database) :
  counter_le d (serve_all g e inputs d).
Proof.
  revert d. induction inputs as [|[[r clk] now_s] rest IH]; intros d; cbn [serve_all].
  - apply counter_le_refl.
  - eapply counter_le_trans; [apply serve_counter_le|apply IH].
Qed.

(** X9: whatever the requests, the keys in the table stay pairwise distinct. *)
Theorem keys_stay_distinct (inputs : list (request * clock * Z)) (d : D1.database) :
  keys_ok d ->
  NoDup (map id (D1.rows_of (serve_all g e inputs d))).
Proof.
  intros K. pose proof (serve_all_keys_ok inputs d K) as K'.
  unfold keys_ok, D1.rows_of in *.
  destruct (D1.comments (serve_all g e inputs d)); [tauto|constructor].
Qed.

(** X10: A key is never given twice: the key a POST is answered with exceeds
    every key the table held at any earlier time, deleted rows included. *)
Theorem keys_are_never_reused (inputs : list (request * clock * Z))
  (d : D1.database) (t : D1.table) (r : request) (clk : clock) (now_s i : Z)
  (v : comment_view) :
  keys_ok d ->
  D1.comments d = Some t ->
  at_route "POST" "/api/comments" r = true ->
  fst (serve (D1.d1 g now_s) e r clk (serve_all g e inputs d)) =
  json_response 200 (Posted i "留言提交成功！" v) ->
  Forall (fun x => id x < i) (D1.rows t).
Proof.
  intros K Ht Hr Hresp.
  destruct (serve_all_counter_le inputs d t Ht) as (t1 & Ht1 & H1).
  destruct (d1_counter_le g now_s unit SchemaInit (serve_all g e inputs d) t1 Ht1)
    as (t0 & Ht0 & H0).
  destruct (d1_post_cases g now_s e r clk (serve_all g e inputs d) Hr)
    as [(data & t' & e0 & c0 & col0 & _ & Ht' & _ & _ & _ & Hfst & _)
       |[(msg & Hfst) _]].
  - rewrite Ht0 in Ht'. injection Ht' as <-.
    rewrite Hfst in Hresp. injection Hresp as Hi _.
    unfold keys_ok in K. rewrite Ht in K. destruct K as [_ Kb].
    eapply Forall_impl; [|exact Kb]. cbn beta. intros; lia.
  - rewrite Hfst in Hresp. discriminate.
Qed.

Ltac walk_sends :=
  repeat
    (unfold bind, catch, await, ret, throw, ensureDatabaseInitialized,
       now_iso, request_json;
     cbn [sends pbind reads];
     intros;
     try match goal with
         | |- context [match ?x with _ => _ end] => destruct x
         end;
     try split);
  try exact I.

Lemma sends_reads_fetch (r : request) (clk : clock) :
  writer r = false -> sends reads (fetch e r clk).
Proof.
  unfold writer, at_route. intros H.
  apply orb_false_elim in H. destruct H as [H Hc].
  apply orb_false_elim in H. destruct H as [Hp Hd].
  unfold fetch. rewrite Hp, Hd, Hc.
  destruct (String.eqb (method r) "OPTIONS"); [exact I|].
  destruct (String.eqb (pathname r) "/health"); [unfold health; walk_sends|].
  destruct (String.eqb (pathname r) "/api/comments" && String.eqb (method r) "GET");
    [unfold get_comments; walk_sends|].
  destruct (String.eqb (pathname r) "/admin/db-info"); [|exact I].
  unfold db_info; walk_sends.
Qed.

(** X11: requests outside the three writing routes leave the rows as they are. *)
Theorem readers_keep_rows (now_s : Z) (r : request) (clk : clock) (d : D1.database) :
  writer r = false ->
  D1.rows_of (db (snd (serve (D1.d1 g now_s) e r clk d))) = D1.rows_of d.
Proof.
  intros H. unfold serve. symmetry.
  apply (interp_related (D1.d1 g now_s) reads
           (fun a b => D1.rows_of a = D1.rows_of b) (fetch e r clk) (boot d)).
  - reflexivity.
  - intros a b c -> ->. reflexivity.
  - intros R s d0 Hs. symmetry. now apply d1_reads_keep_rows.
  - now apply sends_reads_fetch.
Qed.

End AcrossRequests.

(** ** The handlers of the D1 worker *)

Section D1Handlers.

Import Persistent.

(** X1: whatever the database answers, the D1 worker answers: with status 200,
    400, 404 or 500, with the CORS headers, and no exception escapes. *)
Theorem d1_worker_always_responds (DBS : Type) (h : binding DBS) (e : env)
  (r : request) (clk : clock) (d : DBS) :
  responds corsHeaders [200; 400; 404; 500] (fst (serve h e r clk d)).
Proof. unfold serve. apply interp_yields, fetch_yields. Qed.

(** X4: DELETE /api/comments with a body whose [id] is missing or falsy (0, the
    empty text, [false], [null]) is answered 400 without any call on the
    database. *)
Theorem delete_without_id (DBS : Type) (h : binding DBS) (e : env)
  (r : request) (clk : clock) (d : DBS) (data : Js.json) :
  at_route "DELETE" "/api/comments" r = true ->
  json r = inr data ->
  Js.destructurable data = true ->
  Js.falsy (Js.get_prop data "id") = true ->
  serve h e r clk d = (json_response 400 (Error "需要留言ID"), boot d).
Proof.
  intros Hr Hj Hd Hf. unfold serve.
  rewrite (persistent_fetch_delete e clk r Hr). unfold delete_comment.
  rewrite interp_catch, interp_bind. unfold request_json. rewrite Hj, Hd.
  cbn [interp ret]. destruct (Js.get_prop data "id") as [j|]; [|reflexivity].
  now rewrite Hf.
Qed.

Context (g : D1.engine) (e : env).

Lemma d1_delete_number (now_s : Z) (r : request) (clk : clock) (d : D1.database)
  (t : D1.table) (data : Js.json) (n : Z) :
  at_route "DELETE" "/api/comments" r = true ->
  json r = inr data ->
  Js.get_prop data "id" = Some (Js.JNum n) ->
  n <> 0 ->
  D1.comments d = Some t ->
  serve (D1.d1 g now_s) e r clk d =
  (json_response 200
     (Deleted (0 <? D1.rows_written g
                      (List.length (filter (fun x => id x =? n) (D1.rows t))))
        (D1.rows_written g (List.length (filter (fun x => id x =? n) (D1.rows t))))),
   {| db := {| D1.comments :=
                 Some {| D1.rows := filter (fun x => negb (id x =? n)) (D1.rows t);
                         D1.seq := D1.seq t |};
               D1.other_tables := D1.other_tables d |};
      console := [];
      trace := [Issued (DeleteById (Js.JNum n))] |}).
Proof.
  intros Hr Hj Hid Hn Ht. unfold serve.
  rewrite (persistent_fetch_delete e clk r Hr). unfold delete_comment.
  rewrite interp_catch, interp_bind. unfold request_json. rewrite Hj.
  assert (Hd : Js.destructurable data = true).
  { destruct data; try reflexivity. discriminate. }
  rewrite Hd. cbn [interp ret]. rewrite Hid. cbn [Js.falsy].
  apply Z.eqb_neq in Hn. rewrite Hn.
  rewrite interp_bind, interp_await. unfold boot. cbn [db console trace D1.d1 D1.to_sql].
  unfold D1.on_table. rewrite Ht. reflexivity.
Qed.

Lemma count_key_le_1 (n : Z) (l : list row) :
  NoDup (map id l) ->
  (List.length (filter (fun x => (id x =? n)%Z) l) <= 1)%nat.
Proof.
  induction l as [|x l IH]; cbn [map filter]; intros H; [cbn; lia|].
  inversion H as [|? ? Hin Hl]; subst.
  destruct (id x =? n) eqn:E; [|now apply IH].
  apply Z.eqb_eq in E. rewrite filter_none; [cbn; lia|].
  apply Forall_forall. intros y Hy. apply Z.eqb_neq. intros Hyn.
  apply Hin. apply in_map_iff. exists y. split; [lia|assumption].
Qed.

(** X5: DELETE /api/comments with a non-zero number as [id], on an existing
    table: the rows with that key are removed and the others kept; at most
    one row goes when the keys are distinct; and when no row has the key
    the rows stay as they are, the count reported being that of no row. *)
Theorem delete_by_key (now_s : Z) (r : request) (clk : clock) (d : D1.database)
  (t : D1.table) (data : Js.json) (n : Z) :
  at_route "DELETE" "/api/comments" r = true ->
  json r = inr data ->
  Js.get_prop data "id" = Some (Js.JNum n) ->
  n <> 0 ->
  D1.comments d = Some t ->
  let gone := filter (fun x => id x =? n) (D1.rows t) in
  let out := serve (D1.d1 g now_s) e r clk d in
  fst out =
  json_response 200
    (Deleted (0 <? D1.rows_written g (List.length gone))
       (D1.rows_written g (List.length gone)))
  /\ D1.rows_of (db (snd out)) = filter (fun x => negb (id x =? n)) (D1.rows t)
  /\ (keys_ok d -> (List.length gone <= 1)%nat)
  /\ (Forall (fun x => id x <> n) (D1.rows t) ->
      gone = [] /\ D1.rows_of (db (snd out)) = D1.rows t).
Proof.
  intros Hr Hj Hid Hn Ht gone out. subst out.
  rewrite (d1_delete_number now_s r clk d t data n Hr Hj Hid Hn Ht).
  cbn [fst snd db]. unfold D1.rows_of. cbn [D1.comments D1.rows].
  split; [reflexivity|]. split; [reflexivity|]. split.
  - unfold keys_ok. rewrite Ht. intros [K _]. now apply count_key_le_1.
  - intros H. split.
    + apply filter_none. eapply Forall_impl; [|exact H].
      cbn beta. intros x Hx. now apply Z.eqb_neq.
    + apply filter_all. eapply Forall_impl; [|exact H].
      cbn beta. intros x Hx. apply Z.eqb_neq in Hx. now rewrite Hx.
Qed.

Lemma max_id_nonneg (l : list row) : 0 <= D1.max_id l.
Proof.
  induction l as [|x l IH]; [cbn; lia|].
  unfold D1.max_id. cbn [fold_right]. fold (D1.max_id l). lia.
Qed.

Lemma refusing_schema_rows (p : forall R : Type, stmt R -> bool) (now_s : Z)
  (d : D1.database) :
  D1.rows_of (snd (refusing p (D1.d1 g now_s) unit SchemaInit d)) = D1.rows_of d.
Proof.
  unfold refusing. destruct (p unit SchemaInit); [reflexivity|].
  apply rows_of_schema_init.
Qed.

Lemma refusing_eq {DBS : Type} (p : forall R : Type, stmt R -> bool)
  (h : binding DBS) (R : Type) (s : stmt R) (d : DBS) :
  refusing p h R s d = if p R s then (inl unavailable, d) else h R s d.
Proof. reflexivity. Qed.

(** X6: a POST /api/comments stores at most one row, and no failure after
    the INSERT takes the row back.  Against a database that may refuse any
    statement, either the response is 500 and the rows are as they were, or
    exactly one row was appended, with a key above every key of the table
    and the current timestamp of the database; the response is then 200
    with that key when the re-read by the key is answered, and 500 when it
    is refused, the row staying in the table. *)
Theorem post_stores_at_most_one_row (p : forall R : Type, stmt R -> bool)
  (now_s : Z) (r : request) (clk : clock) (d : D1.database) :
  at_route "POST" "/api/comments" r = true ->
  let out := serve (refusing p (D1.d1 g now_s)) e r clk d in
  (status_of (fst out) = Some 500
   /\ D1.rows_of (db (snd out)) = D1.rows_of d)
  \/ (exists x,
         D1.rows_of (db (snd out)) = D1.rows_of d ++ [x]
         /\ Forall (fun y => id y < id x) (D1.rows_of d)
         /\ created_at x = D1.current_timestamp now_s
         /\ fst out =
            if p _ (SelectById (id x))
            then json_response 500 (PostFailed "提交失败" unavailable)
            else json_response 200 (Posted (id x) "留言提交成功！" (view_of x))).
Proof.
  intros Hr out. subst out. unfold serve.
  rewrite (persistent_fetch_post e clk r Hr). unfold post_comment.
  rewrite interp_catch, interp_bind.
  destruct (interp_ensure (refusing p (D1.d1 g now_s)) (boot d)) as (entry & -> & _).
  unfold boot. cbn [db console trace].
  pose proof (refusing_schema_rows p now_s d) as Hrows.
  set (d0 := snd (refusing p (D1.d1 g now_s) unit SchemaInit d)) in *.
  rewrite interp_bind. unfold request_json.
  destruct (json r) as [msg|data] eqn:Hj.
  { left. cbn [interp throw fst snd db status_of json_response].
    split; [reflexivity|assumption]. }
  destruct (Js.destructurable data).
  2:{ left. cbn [interp throw fst snd db status_of json_response].
      split; [reflexivity|assumption]. }
  cbn [interp ret]. rewrite interp_bind, interp_await. cbn [db console trace].
  rewrite !refusing_eq.
  destruct (p Z _).
  { left. cbn [fst snd db status_of json_response]. split; [reflexivity|assumption]. }
  cbv iota.
  pose proof (d1_insert_result g now_s d0 (Js.get_prop data "email")
                (Js.get_prop data "comment")
                (Js.default_to (Js.JStr "black") (Js.get_prop data "color"))
                (Js.take 16 (sha256_hex e (Js.text_or (header_cf_connecting_ip r) "unknown")))
                (Js.take 255 (Js.text_or (header_user_agent r) "unknown"))) as H.
  destruct (D1.d1 g now_s Z _ d0) as [[er|i] d'].
  { left. cbn [fst snd db status_of json_response]. subst d'.
    split; [reflexivity|assumption]. }
  destruct H as (t & e0 & c0 & col0 & Ht & He & Hc & Hcol & Hi & Hd').
  right. cbn [fst snd]. rewrite interp_bind, interp_await. cbn [db console trace].
  change {| id := i; email := _; comment := _; color := _; created_at := _;
            ip_hash := _; user_agent := _ |}
    with (posted_row g e r now_s i e0 c0 col0) in Hd'.
  set (x := posted_row g e r now_s i e0 c0 col0) in *.
  exists x.
  assert (Hkeys : Forall (fun y => id y < id x) (D1.rows_of d)).
  { rewrite <- Hrows. unfold D1.rows_of. rewrite Ht.
    eapply Forall_impl; [|apply max_id_bound]. cbn [x posted_row id]. intros; lia. }
  assert (Hafter : D1.rows_of d' = D1.rows_of d ++ [x]).
  { rewrite <- Hrows, Hd'. unfold D1.rows_of. cbn [D1.comments D1.rows].
    now rewrite Ht. }
  change i with (id x).
  rewrite !refusing_eq. destruct (p _ (SelectById (id x))).
  - cbn [fst snd db]. repeat split; assumption.
  - assert (Hsel : D1.d1 g now_s _ (SelectById (id x)) d' = (inr (Some (view_of x)), d')).
    { apply (d1_select_appended g d' t x now_s); [exact Hi|]. rewrite Hd'. reflexivity. }
    rewrite Hsel. cbn [fst snd interp ret db]. repeat split; assumption.
Qed.

Lemma length_take (n : nat) (s : string) : (String.length (Js.take n s) <= n)%nat.
Proof.
  revert s. induction n as [|n IH]; intros [|c s]; cbn; try lia.
  specialize (IH s). lia.
Qed.

(** X7: the row a successful POST stores holds the first 16 characters of the
    digest of the caller's address (of "unknown" when the header is absent
    or empty) and the first 255 of the user agent, never more. *)
Theorem stored_headers_are_cut (now_s : Z) (r : request) (clk : clock)
  (d : D1.database) :
  at_route "POST" "/api/comments" r = true ->
  status_of (fst (serve (D1.d1 g now_s) e r clk d)) = Some 200 ->
  exists x,
    D1.rows_of (db (snd (serve (D1.d1 g now_s) e r clk d))) = D1.rows_of d ++ [x]
    /\ ip_hash x =
       Js.take 16 (sha256_hex e (Js.text_or (header_cf_connecting_ip r) "unknown"))
    /\ user_agent x = Js.take 255 (Js.text_or (header_user_agent r) "unknown")
    /\ (String.length (ip_hash x) <= 16)%nat
    /\ (String.length (user_agent x) <= 255)%nat.
Proof.
  intros Hr Hs.
  destruct (d1_post_cases g now_s e r clk d Hr)
    as [(data & t & e0 & c0 & col0 & _ & Ht & _ & _ & _ & Hfst & Hdb)
       |[(msg & Hfst) Hdb]].
  - cbn zeta in Hfst, Hdb.
    exists (posted_row g e r now_s (Z.max (D1.seq t) (D1.max_id (D1.rows t)) + 1) e0 c0 col0).
    rewrite Hdb.
    pose proof (rows_of_schema_init g now_s d) as Hrows.
    unfold D1.rows_of in Hrows at 1. rewrite Ht in Hrows.
    unfold D1.rows_of at 1. cbn [D1.comments D1.rows]. rewrite <- Hrows.
    split; [reflexivity|]. cbn [ip_hash user_agent posted_row].
    split; [reflexivity|]. split; [reflexivity|]. split; apply length_take.
  - rewrite Hfst in Hs. discriminate.
Qed.


End D1Handlers.

(** ** What the reading handlers report *)

Section Reports.

Import Persistent.

Context (g : D1.engine) (e : env).

Lemma insert_desc_perm (x : row) (l : list row) :
  Permutation (D1.insert_desc x l) (x :: l).
Proof.
  induction l as [|y l IH]; cbn [D1.insert_desc]; [reflexivity|].
  destruct (String.leb (created_at y) (created_at x)); [reflexivity|].
  rewrite IH. apply perm_swap.
Qed.

Lemma order_by_perm (l : list row) :
  Permutation (D1.order_by_created_at_desc l) l.
Proof.
  induction l as [|x l IH]; cbn; [reflexivity|].
  rewrite insert_desc_perm. now constructor.
Qed.

Lemma In_skipn {A : Type} (n : nat) (l : list A) (x : A) :
  In x (skipn n l) -> In x l.
Proof.
  intros H. rewrite <- (firstn_skipn n l). apply in_or_app. now right.
Qed.

Lemma In_firstn {A : Type} (n : nat) (l : list A) (x : A) :
  In x (firstn n l) -> In x l.
Proof.
  intros H. rewrite <- (firstn_skipn n l). apply in_or_app. now left.
Qed.

Lemma limit_of_nonzero (r : request) : limit_of r <> 0.
Proof.
  unfold limit_of, Js.or_default.
  destruct (Js.parseInt_param _) as [n|]; [|lia].
  destruct (n =? 0) eqn:E; [lia|now apply Z.eqb_neq].
Qed.

Lemma d1_get_result (now_s : Z) (r : request) (clk : clock) (d : D1.database)
  (t : D1.table) :
  at_route "GET" "/api/comments" r = true ->
  D1.comments d = Some t ->
  fst (serve (D1.d1 g now_s) e r clk d) =
  if D1.fits_int64 (limit_of r) && D1.fits_int64 (offset_of r) then
    json_response 200
      (CommentList
         (D1.page (limit_of r) (offset_of r)
            (D1.order_by_created_at_desc (D1.rows t))))
  else json_response 500 (ListFailed "获取留言失败" D1.datatype_mismatch).
Proof.
  intros Hr Ht. unfold serve.
  rewrite (persistent_fetch_get e clk r Hr). unfold get_comments.
  rewrite interp_catch, interp_bind.
  destruct (interp_ensure (D1.d1 g now_s) (boot d)) as (entry & -> & _).
  rewrite interp_bind, interp_await. unfold boot. cbn [db console trace].
  assert (Hinit : D1.comments (snd (D1.d1 g now_s unit SchemaInit d)) = Some t).
  { cbn [D1.d1]. destruct (D1.exec_takes_script g); cbn [snd]; [|assumption].
    now rewrite Ht. }
  cbn [D1.d1] in *.
  destruct (D1.fits_int64 (limit_of r) && D1.fits_int64 (offset_of r));
    [|reflexivity].
  unfold D1.on_table. rewrite Hinit. reflexivity.
Qed.


Lemma hd_is_latest (l : list row) (x : row) :
  In x l ->
  exists y,
    hd_error (D1.order_by_created_at_desc l) = Some y
    /\ In y l
    /\ String.leb (created_at x) (created_at y) = true.
Proof.
  intros Hx.
  pose proof (order_by_sorted l) as S. pose proof (order_by_perm l) as P.
  apply (Permutation_in x (Permutation_sym P)) in Hx.
  destruct (D1.order_by_created_at_desc l) as [|y s]; [contradiction|].
  exists y. split; [reflexivity|]. split.
  - apply (Permutation_in y P). now left.
  - destruct Hx as [<-|Hx].
    + destruct (String.leb_total (created_at y) (created_at y)); assumption.
    + apply StronglySorted_inv in S. destruct S as [_ S].
      rewrite Forall_forall in S. exact (S x Hx).
Qed.

(** X14: GET /admin/db-info on an existing table, without touching it: the
    table names, the number of rows, and as last comment time the greatest
    [created_at] of the table, [null] when the table is empty. *)
Theorem db_info_report (now_s : Z) (r : request) (clk : clock) (d : D1.database)
  (t : D1.table) (ts : string) :
  is_options r = false ->
  at_path "/admin/db-info" r = true ->
  D1.comments d = Some t ->
  Js.toISOString (new_date clk) = Some ts ->
  exists last,
    serve (D1.d1 g now_s) e r clk d =
    (json_response 200
       (DbInfo (["comments"; "sqlite_sequence"] ++ D1.other_tables d)
          (Z.of_nat (List.length (D1.rows t))) last (database_name e) ts),
     {| db := d; console := [];
        trace := [Issued ListTables; Issued CountComments; Issued LatestCreated] |})
    /\ (D1.rows t = [] -> last = None)
    /\ (forall x, In x (D1.rows t) ->
        exists y, In y (D1.rows t) /\ last = Some (created_at y)
                  /\ String.leb (created_at x) (created_at y) = true).
Proof.
  unfold is_options, at_path. intros Ho Hp Ht Hts.
  apply String.eqb_eq in Hp.
  exists (option_map created_at (hd_error (D1.order_by_created_at_desc (D1.rows t)))).
  split; [|split].
  - unfold serve, fetch. rewrite Ho, Hp. simpl String.eqb. cbn [andb].
    unfold db_info. rewrite interp_catch.
    repeat (rewrite interp_bind, interp_await; unfold boot;
            cbn [db console trace D1.d1 fst snd app]).
    unfold D1.on_table. rewrite Ht. cbn [fst snd D1.comments].
    unfold now_iso. rewrite Hts.
    rewrite interp_bind. cbn [interp ret fst snd].
    destruct d as [cm ot]. cbn in Ht. subst cm. destruct t. reflexivity.
  - intros ->. reflexivity.
  - intros x Hx. destruct (hd_is_latest (D1.rows t) x Hx) as (y & Hy & Hin & Hle).
    exists y. rewrite Hy. cbn. auto.
Qed.

(** X15: /health where [exec] takes the schema script: the table exists
    afterwards and the count reported is the number of rows. *)
Theorem health_report (now_s : Z) (r : request) (clk : clock) (d : D1.database)
  (ts : string) :
  is_options r = false ->
  at_path "/health" r = true ->
  D1.exec_takes_script g = true ->
  Js.toISOString (new_date clk) = Some ts ->
  fst (serve (D1.d1 g now_s) e r clk d) =
  json_response 200
    (Health ts (Z.of_nat (List.length (D1.rows_of d))) "D1 Database"
       (Js.text_or (database_name e) "tomoe_hiyori_db"))
  /\ D1.comments (db (snd (serve (D1.d1 g now_s) e r clk d))) <> None
  /\ D1.rows_of (db (snd (serve (D1.d1 g now_s) e r clk d))) = D1.rows_of d.
Proof.
  unfold is_options, at_path. intros Ho Hh Hx Hts.
  unfold serve, fetch. rewrite Ho, Hh. unfold health.
  rewrite interp_catch, interp_bind.
  destruct (interp_ensure (D1.d1 g now_s) (boot d)) as (entry & -> & _).
  rewrite interp_bind, interp_await. unfold boot. cbn [db console trace].
  cbn [D1.d1]. rewrite Hx. cbn [snd]. unfold D1.on_table, D1.rows_of.
  unfold now_iso. rewrite Hts.
  destruct (D1.comments d) as [t|] eqn:Ht.
  - rewrite Ht. cbn [fst snd]. rewrite interp_bind. cbn [interp ret fst snd db D1.comments].
    repeat split. discriminate.
  - cbn [D1.comments fst snd D1.rows List.length]. rewrite interp_bind.
    cbn [interp ret fst snd db D1.comments D1.rows]. repeat split. discriminate.
Qed.

End Reports.

(** ** The handlers of the in-memory worker *)

Section EphemeralHandlers.

Import Ephemeral.

(** X16: with a clock in the range of [Date], the in-memory worker answers every
    request with status 200, 400 or 404 and the CORS headers. *)
Theorem ephemeral_always_responds (r : request) (clk : clock) (cs : list Comment) :
  Js.toISOString (new_date clk) <> None ->
  responds corsHeaders [200; 400; 404] (fst (fetch r clk cs)).
Proof.
  intros Hclk. unfold fetch.
  destruct (String.eqb (method r) "OPTIONS");
    [cbn [fst responds In]; auto 10|].
  destruct (String.eqb (pathname r) "/health").
  { destruct (Js.toISOString (new_date clk)); [|contradiction].
    cbn [fst responds json_response In]. auto 10. }
  destruct (String.eqb (pathname r) "/api/comments" && String.eqb (method r) "GET");
    [cbn [fst responds json_response In]; auto 10|].
  destruct (String.eqb (pathname r) "/api/comments" && String.eqb (method r) "POST");
    [|cbn [fst responds json_response In]; auto 10].
  destruct (newComment r clk); cbn [fst responds json_response In]; auto 10.
Qed.

(** X17: A POST /api/comments is answered with success exactly when the body is
    JSON other than [null] (and the clock is in the range of [Date]);
    otherwise it is answered 400. *)
Theorem ephemeral_post_outcome (r : request) (clk : clock) (cs : list Comment) :
  at_route "POST" "/api/comments" r = true ->
  (status_of (fst (fetch r clk cs)) = Some 200 <->
   exists data,
     json r = inr data /\ Js.destructurable data = true
     /\ Js.toISOString (new_date clk) <> None)
  /\ (status_of (fst (fetch r clk cs)) <> Some 200 ->
      fetch r clk cs = (json_response 400 (Error "请求格式错误"), cs)).
Proof.
  intros Hr. rewrite (ephemeral_fetch_post r clk cs Hr). unfold newComment.
  destruct (json r) as [msg|data].
  { cbn [fst status_of json_response].
    split; [split|intros _; reflexivity]; [discriminate|]. intros (x & H & _); discriminate H. }
  destruct (Js.destructurable data) eqn:Ed.
  2:{ cbn [fst status_of json_response].
    split; [split|intros _; reflexivity]; [discriminate|].
    intros (x & Hx & H & _). injection Hx as <-. congruence. }
  destruct (Js.toISOString (new_date clk)) as [ts|].
  - cbn [fst status_of json_response]. split.
    + split; [|reflexivity]. intros _. exists data. repeat split; [assumption|discriminate].
    + intros H. now contradiction H.
  - cbn [fst status_of json_response].
    split; [split|intros _; reflexivity]; [discriminate|]. intros (x & _ & _ & H); now contradiction H.
Qed.

(** X18: the list changes only when a POST /api/comments is answered with
    success: every other request, and every refused POST, leaves it as it
    is. *)
Theorem ephemeral_list_changes_only_on_success (r : request) (clk : clock)
  (cs : list Comment) :
  at_route "POST" "/api/comments" r = false
  \/ status_of (fst (fetch r clk cs)) <> Some 200 ->
  snd (fetch r clk cs) = cs.
Proof.
  intros H. rewrite snd_fetch. unfold inserted. cbn [fst snd].
  unfold at_route in H.
  destruct (String.eqb (pathname r) "/api/comments" && String.eqb (method r) "POST")
    eqn:E; [|reflexivity].
  destruct H as [H|H]; [discriminate|].
  rewrite (ephemeral_fetch_post r clk cs E) in H.
  destruct (newComment r clk); [reflexivity|]. now contradiction H.
Qed.

(** X19: GET /api/comments after any sequence of requests: the records of the
    successful submissions, newest first, the last 100 of them at most. *)
Theorem ephemeral_get_after_run (inputs : list (request * clock)) (r : request)
  (clk : clock) :
  at_route "GET" "/api/comments" r = true ->
  fetch r clk (run inputs initial) =
  (json_response 200 (CommentList (firstn 100 (rev (map snd (inserts inputs))))),
   run inputs initial).
Proof.
  intros Hr. rewrite (ephemeral_fetch_get r clk _ Hr). now rewrite run_initial.
Qed.

(** X20: /health after any sequence of requests reports the number of
    successful submissions, and 100 once there were more. *)
Theorem ephemeral_health_count (inputs : list (request * clock)) (r : request)
  (clk : clock) (ts : string) :
  is_options r = false ->
  at_path "/health" r = true ->
  Js.toISOString (new_date clk) = Some ts ->
  fst (fetch r clk (run inputs initial)) =
  json_response 200 (Health ts (Nat.min 100 (List.length (inserts inputs)))).
Proof.
  unfold is_options, at_path. intros Ho Hh Hts.
  unfold fetch. rewrite Ho, Hh, Hts. cbn [fst].
  now rewrite run_initial, length_firstn, length_rev, length_map.
Qed.

(** X21: records are never rewritten: after further requests the list is the new
    records, newest first, followed by the old list cut at its old end. *)
Theorem ephemeral_old_records_leave_last (more : list (request * clock))
  (cs : list Comment) :
  (List.length cs <= 100)%nat ->
  run more cs =
  firstn 100 (rev (map snd (inserts more)))
  ++ firstn (100 - List.length (inserts more)) cs.
Proof.
  intros H. rewrite (run_inserts more cs H), firstn_app.
  now rewrite length_rev, length_map.
Qed.

End EphemeralHandlers.

(** ** The further properties at sample inputs *)

Section Samples.

Import Persistent.

Lemma delete_without_id_witness :
  serve (D1.d1 sample_engine 1793682120) sample_env (delete_request (Js.JNum 0))
    morning two_row_database =
  (json_response 400 (Error "需要留言ID"), boot two_row_database).
Proof.
  apply (delete_without_id D1.database (D1.d1 sample_engine 1793682120) sample_env
           (delete_request (Js.JNum 0)) morning two_row_database
           (Js.JObj [("id", Js.JNum 0)])); reflexivity.
Defined.

Lemma delete_by_key_witness :
  D1.rows_of (db (snd (serve (D1.d1 sample_engine 1793682120) sample_env
                         (delete_request (Js.JNum 1)) morning two_row_database))) =
  [today_row].
Proof.
  refine (proj1 (proj2 (delete_by_key sample_engine sample_env 1793682120
                          (delete_request (Js.JNum 1)) morning two_row_database
                          {| D1.rows := [yesterday_row; today_row]; D1.seq := 2 |}
                          (Js.JObj [("id", Js.JNum 1)]) 1
                          eq_refl eq_refl eq_refl _ eq_refl))).
  discriminate.
Defined.

Lemma post_stores_at_most_one_row_witness :
  (exists x,
      D1.rows_of (db (snd (serve (refusing no_reread (D1.d1 line_split_engine 1793682120))
                             sample_env (submission hello) morning two_row_database))) =
      [yesterday_row; today_row; x]
      /\ id x = 3
      /\ fst (serve (refusing no_reread (D1.d1 line_split_engine 1793682120))
                sample_env (submission hello) morning two_row_database) =
         json_response 500 (PostFailed "提交失败" unavailable))
  /\
  (exists x,
      D1.rows_of (db (snd (serve (D1.d1 line_split_engine 1793682120)
                             sample_env (submission hello) morning two_row_database))) =
      [yesterday_row; today_row; x]
      /\ fst (serve (D1.d1 line_split_engine 1793682120)
                sample_env (submission hello) morning two_row_database) =
         json_response 200 (Posted (id x) "留言提交成功！" (view_of x))).
Proof.
  split.
  - destruct (post_stores_at_most_one_row line_split_engine sample_env no_reread
                1793682120 (submission hello) morning two_row_database)
      as [[_ Hrows]|(x & Hrows & Hkeys & Hat & Hout)].
    + reflexivity.
    + exfalso. vm_compute in Hrows. discriminate Hrows.
    + exists x. split; [exact Hrows|].
      assert (Hid : id x = 3).
      { vm_compute in Hrows. injection Hrows as <-. reflexivity. }
      split; [exact Hid|]. rewrite Hout, Hid. reflexivity.
  - destruct (post_stores_at_most_one_row line_split_engine sample_env
                (fun _ _ => false)
                1793682120 (submission hello) morning two_row_database)
      as [[_ Hrows]|(x & Hrows & Hkeys & Hat & Hout)].
    + reflexivity.
    + exfalso. vm_compute in Hrows. discriminate Hrows.
    + exists x. split; [exact Hrows|exact Hout].
Defined.

Lemma stored_headers_are_cut_witness :
  exists x,
    D1.rows_of (db (snd (serve (D1.d1 sample_engine 1793682120) sample_env
                           bare_submission morning two_row_database))) =
    D1.rows_of two_row_database ++ [x]
    /\ ip_hash x =
       Js.take 16 (sha256_hex sample_env
                     (Js.text_or (header_cf_connecting_ip bare_submission) "unknown"))
    /\ user_agent x =
       Js.take 255 (Js.text_or (header_user_agent bare_submission) "unknown")
    /\ (String.length (ip_hash x) <= 16)%nat
    /\ (String.length (user_agent x) <= 255)%nat.
Proof.
  apply (stored_headers_are_cut sample_engine sample_env 1793682120
           bare_submission morning two_row_database); reflexivity.
Defined.


Lemma keys_stay_distinct_witness :
  NoDup (map id (D1.rows_of (serve_all sample_engine sample_env busy_session
                               two_row_database))).
Proof.
  apply keys_stay_distinct. unfold keys_ok. cbn. split.
  - repeat constructor; cbn; intuition discriminate.
  - repeat constructor; cbn; lia.
Defined.

Lemma keys_are_never_reused_witness :
  Forall (fun x => id x < 4) [yesterday_row; today_row].
Proof.
  apply (keys_are_never_reused sample_engine sample_env busy_session
           two_row_database {| D1.rows := [yesterday_row; today_row]; D1.seq := 2 |}
           (submission hello) morning 1793682130 4
           {| view_id := 4;
              view_email := VText "a@b.com";
              view_comment := VText "hi";
              view_color := VText "red";
              view_timestamp := "2026-11-03 05:02:10" |}).
  - unfold keys_ok. cbn. split.
    + repeat constructor; cbn; intuition discriminate.
    + repeat constructor; cbn; lia.
  - reflexivity.
  - reflexivity.
  - vm_compute. reflexivity.
Defined.

Lemma readers_keep_rows_witness :
  D1.rows_of (db (snd (serve (D1.d1 sample_engine 1793682120) sample_env
                         (request_to "GET" "/health" [] no_body) morning
                         fresh_database))) =
  D1.rows_of fresh_database.
Proof. apply readers_keep_rows. reflexivity. Defined.


Lemma db_info_report_witness :
  exists last,
    fst (serve (D1.d1 sample_engine 1793682120) sample_env
           (request_to "GET" "/admin/db-info" [] no_body) morning two_row_database) =
    json_response 200
      (DbInfo ["comments"; "sqlite_sequence"] 2 last None "2026-11-03T05:02:00.000Z")
    /\ exists y, In y [yesterday_row; today_row] /\ last = Some (created_at y)
                 /\ String.leb (created_at yesterday_row) (created_at y) = true.
Proof.
  destruct (db_info_report sample_engine sample_env 1793682120
              (request_to "GET" "/admin/db-info" [] no_body) morning
              two_row_database
              {| D1.rows := [yesterday_row; today_row]; D1.seq := 2 |}
              "2026-11-03T05:02:00.000Z" eq_refl eq_refl eq_refl eq_refl)
    as (last & Hserve & _ & Hlast).
  exists last. split.
  - rewrite Hserve. reflexivity.
  - apply Hlast. now left.
Defined.

Lemma health_report_witness :
  fst (serve (D1.d1 sample_engine 1793682120) sample_env
         (request_to "GET" "/health" [] no_body) morning two_row_database) =
  json_response 200
    (Health "2026-11-03T05:02:00.000Z" 2 "D1 Database" "tomoe_hiyori_db").
Proof.
  refine (proj1 (health_report sample_engine sample_env 1793682120
                   (request_to "GET" "/health" [] no_body) morning two_row_database
                   "2026-11-03T05:02:00.000Z" eq_refl eq_refl eq_refl eq_refl)).
Defined.

Lemma ephemeral_always_responds_witness :
  responds Ephemeral.corsHeaders [200; 400; 404]
    (fst (Ephemeral.fetch (request_to "PUT" "/health" [] no_body) morning [])).
Proof. apply ephemeral_always_responds. discriminate. Defined.

Lemma ephemeral_post_outcome_witness :
  Ephemeral.fetch (submission Js.JNull) morning [] =
  (Ephemeral.json_response 400 (Ephemeral.Error "请求格式错误"), []).
Proof.
  apply (proj2 (ephemeral_post_outcome (submission Js.JNull) morning [] eq_refl)).
  discriminate.
Defined.

Lemma ephemeral_list_changes_only_on_success_witness :
  snd (Ephemeral.fetch (request_to "DELETE" "/api/comments" [] (inr hello)) morning
         records_101) = records_101.
Proof. apply ephemeral_list_changes_only_on_success. left. reflexivity. Defined.

Lemma ephemeral_get_after_run_witness :
  Ephemeral.fetch (request_to "GET" "/api/comments" [] no_body) morning
    (Ephemeral.run three_submissions Ephemeral.initial) =
  (Ephemeral.json_response 200
     (Ephemeral.CommentList (firstn 100 (rev (map snd (inserts three_submissions))))),
   Ephemeral.run three_submissions Ephemeral.initial).
Proof. apply ephemeral_get_after_run. reflexivity. Defined.

Lemma ephemeral_health_count_witness :
  fst (Ephemeral.fetch (request_to "GET" "/health" [] no_body) morning
         (Ephemeral.run submissions_101 Ephemeral.initial)) =
  Ephemeral.json_response 200 (Ephemeral.Health "2026-11-03T05:02:00.000Z" 100).
Proof.
  refine (ephemeral_health_count submissions_101
            (request_to "GET" "/health" [] no_body) morning
            "2026-11-03T05:02:00.000Z" eq_refl eq_refl eq_refl).
Defined.

Lemma ephemeral_old_records_leave_last_witness :
  Ephemeral.run three_submissions (tl records_101) =
  firstn 100 (rev (map snd (inserts three_submissions)))
  ++ firstn (100 - List.length (inserts three_submissions)) (tl records_101).
Proof.
  apply ephemeral_old_records_leave_last. vm_compute. repeat constructor.
Defined.

End Samples.

(** ** Preflight, schema script, and what only POST does *)

Section Remaining.

Import Persistent.

(** X3: OPTIONS, on any path, is answered by both workers with status 200, no
    body and the CORS headers alone; the list is left as it is and the D1
    worker makes no call on the database. *)
Theorem options_preflight (r : request) (clk : clock) :
  is_options r = true ->
  (forall cs : list Ephemeral.Comment,
      Ephemeral.fetch r clk cs =
      (Responded 200 Ephemeral.corsHeaders Ephemeral.NoBody, cs))
  /\ (forall e : env, fetch e r clk = Ret (Responded 200 corsHeaders NoBody)).
Proof.
  unfold is_options. intros H. split.
  - intros cs. unfold Ephemeral.fetch. now rewrite H.
  - intros e. unfold fetch. now rewrite H.
Qed.

Lemma options_preflight_witness :
  (forall cs : list Ephemeral.Comment,
      Ephemeral.fetch (request_to "OPTIONS" "/api/comments" [] no_body) morning cs =
      (Responded 200 Ephemeral.corsHeaders Ephemeral.NoBody, cs))
  /\ (forall e : env,
         fetch e (request_to "OPTIONS" "/api/comments" [] no_body) morning =
         Ret (Responded 200 corsHeaders NoBody)).
Proof. apply options_preflight. reflexivity. Defined.

(** X2: [ensureDatabaseInitialized] sends the schema script once and returns
    normally whatever the database answers: a refusal is written to the
    console at error level with its message, an acceptance at log level. *)
Theorem schema_init_never_throws (DBS : Type) (h : binding DBS) (w : world DBS) :
  interp h ensureDatabaseInitialized w =
  (inr tt,
   {| db := snd (h unit SchemaInit (db w));
      console :=
        console w ++
        [ match fst (h unit SchemaInit (db w)) with
          | inl er => (ErrorLevel, "❌ 数据库初始化失败:", Some er)
          | inr _ => (LogLevel, "✅ 数据库表已初始化", None)
          end ];
      trace := trace w ++ [Issued SchemaInit] |}).
Proof.
  unfold ensureDatabaseInitialized. cbn [interp].
  destruct (h unit SchemaInit (db w)) as [[er|u] d]; reflexivity.
Qed.

Context (g : D1.engine) (e : env).

Lemma d1_adds_nothing (now_s : Z) (R : Type) (s : stmt R) (d : D1.database) :
  adds_nothing R s ->
  incl (D1.rows_of (snd (D1.d1 g now_s R s d))) (D1.rows_of d).
Proof.
  assert (Hfilter : forall p,
             incl (D1.rows_of (snd (D1.on_table d (D1.delete_where g p))))
               (D1.rows_of d)).
  { intros p. unfold D1.on_table, D1.rows_of.
    destruct (D1.comments d) as [t|] eqn:E; cbn [snd D1.delete_where D1.comments D1.rows].
    - intros x Hx. now apply filter_In in Hx.
    - rewrite E. apply incl_refl. }
  destruct s as [| |lim off|em c col ip ua|i0|j|cut| |]; cbn [adds_nothing];
    intros H; try contradiction;
    try (rewrite d1_reads_keep_rows by exact I; apply incl_refl).
  - cbn [D1.d1]. destruct (D1.to_sql (Some j)); [apply Hfilter|apply incl_refl].
  - apply Hfilter.
Qed.

Ltac walk_adds :=
  repeat
    (unfold bind, catch, await, ret, throw, ensureDatabaseInitialized,
       now_iso, request_json;
     cbn [sends pbind adds_nothing];
     intros;
     try match goal with
         | |- context [match ?x with _ => _ end] => destruct x
         end;
     try split);
  try exact I.

Lemma sends_adds_nothing (r : request) (clk : clock) :
  at_route "POST" "/api/comments" r = false ->
  sends adds_nothing (fetch e r clk).
Proof.
  unfold at_route. intros Hp. unfold fetch. rewrite Hp.
  destruct (String.eqb (method r) "OPTIONS"); [exact I|].
  destruct (String.eqb (pathname r) "/health"); [unfold health; walk_adds|].
  destruct (String.eqb (pathname r) "/api/comments" && String.eqb (method r) "GET");
    [unfold get_comments; walk_adds|].
  destruct (String.eqb (pathname r) "/api/comments" && String.eqb (method r) "DELETE");
    [unfold delete_comment; walk_adds|].
  destruct (String.eqb (pathname r) "/api/comments/cleanup"
            && String.eqb (method r) "POST");
    [unfold cleanup; walk_adds|].
  destruct (String.eqb (pathname r) "/admin/db-info"); [|exact I].
  unfold db_info; walk_adds.
Qed.

(** X12: only POST /api/comments adds rows: after any other request every row
    of the table was there before. *)
Theorem only_post_adds_rows (now_s : Z) (r : request) (clk : clock)
  (d : D1.database) :
  at_route "POST" "/api/comments" r = false ->
  incl (D1.rows_of (db (snd (serve (D1.d1 g now_s) e r clk d)))) (D1.rows_of d).
Proof.
  intros H. unfold serve.
  apply (interp_related (D1.d1 g now_s) adds_nothing
           (fun a b => incl (D1.rows_of b) (D1.rows_of a)) (fetch e r clk) (boot d)).
  - intros a. apply incl_refl.
  - intros a b c Hab Hbc. eapply incl_tran; eassumption.
  - intros R s d0 Hs. now apply d1_adds_nothing.
  - now apply sends_adds_nothing.
Qed.

End Remaining.

Lemma only_post_adds_rows_witness :
  incl (D1.rows_of
          (Persistent.db
             (snd (Persistent.serve (D1.d1 sample_engine 1793682120) sample_env
                     (request_to "POST" "/api/comments/cleanup" [("days", "1")] no_body)
                     morning two_row_database))))
    (D1.rows_of two_row_database).
Proof. apply only_post_adds_rows. reflexivity. Defined.
